(** * Suruga Seiki EW-51 motion control: backends, daemon and alignment wait

    A shallow embedding of the Python sources
    - [daemon/backend/mock/mock_backend.py]   (module [Mock])
    - [daemon/backend/real/real_backend.py]   (module [Real])
    - [daemon/daemon.py]                      (module [Daemon])
    - [daemon/app/routers/movement.py]        (module [Movement])
    - [models/requests.py]                    (module [Movement])
    - [alignment/alignment_controller.py]     (module [Alignment])

    Conventions of the embedding.
    - Python [float] values (positions, targets, speeds, optical powers) are
      IEEE 754 binary64 numbers ([PyFloat.float]): every arithmetic
      operation rounds to nearest, ties to even, overflows to an infinity,
      and [int] raises on an infinity or a NaN.  Readings of the event-loop
      clock and the durations compared with them, which only occur in the
      alignment wait, are rationals ([Q]).
    - A coroutine that may raise is a state-passing function returning the
      new state together with a [result].
    - An [asyncio.Task] is a record holding the coroutine's arguments and the
      suspension point it is parked at; the event loop resuming a task is an
      explicit operation ([Mock.task_step]).
    - A wall-clock timeout of a wait on a task is represented by the number
      of resumptions of the awaited work that happen before the deadline. *)

From Stdlib Require Import ZArith QArith Qabs Qround List String Bool Lia Lqa.
From Stdlib Require Import SpecFloat.
Import ListNotations.

Set Implicit Arguments.

(** ** Exceptions ([utils/exceptions.py]) and fallible results *)

Inductive exn : Set :=
| HardwareError
| ConnectionError
| MovementError
| ServoError
| AlignmentError
| TimeoutError
| RuntimeError          (* Python built-in, raised by [EW51Daemon.backend] *)
| OverflowError         (* Python built-in, raised by [int] on an infinity *)
| ValueError            (* Python built-in, raised by [int] on a NaN *)
| ForeignException.     (* any exception that is not one of the above *)

Inductive result (A : Type) : Type :=
| Ok (a : A)
| Raise (e : exn).

Arguments Ok {A} a.
Arguments Raise {A} e.

Definition is_ok {A} (r : result A) : bool :=
  match r with Ok _ => true | Raise _ => false end.

(** State-and-exception monad used for every coroutine of the backends. *)
Definition M (S A : Type) : Type := S -> S * result A.

Definition ret {S A} (a : A) : M S A := fun s => (s, Ok a).

Definition raise {S A} (e : exn) : M S A := fun s => (s, Raise e).

Definition bind {S A B} (c : M S A) (k : A -> M S B) : M S B :=
  fun s =>
    match c s with
    | (s', Ok a) => k a s'
    | (s', Raise e) => (s', Raise e)
    end.

Declare Scope coro_scope.
Delimit Scope coro_scope with coro.
Notation "x '<~' c ';;' k" := (bind c (fun x => k))
  (at level 61, c at next level, right associativity) : coro_scope.
Notation "c ';;' k" := (bind c (fun _ => k))
  (at level 61, right associativity) : coro_scope.

(** ** Python floats

    A [float] is a binary64 number: a signed zero, a signed infinity, a NaN,
    or [(-1)^s * m * 2^e] with the mantissa [m] and the exponent [e] in the
    canonical form in which literals are read and every operation returns
    its result.  The operations are those of the IEEE 754
    specification of the standard library, at precision 53 and maximal
    exponent 1024; they round the exact result and never raise.  A decimal
    literal denotes the binary64 number nearest to it, as in Python. *)

Module PyFloat.

Definition prec : Z := 53.
Definition emax : Z := 1024.

Definition float : Set := spec_float.

Definition add : float -> float -> float := SFadd prec emax.
Definition sub : float -> float -> float := SFsub prec emax.
Definition mul : float -> float -> float := SFmul prec emax.
Definition div : float -> float -> float := SFdiv prec emax.
Definition abs : float -> float := SFabs.

(** [x > y], which is [False] as soon as one side is a NaN. *)
Definition gtb (x y : float) : bool := SFltb y x.

(** [float(z)] for an integer [z]. *)
Definition of_Z (z : Z) : float := binary_normalize prec emax z 0 false.

(** True division [i / n] of two integers, [n] not zero: the quotient of the
    exact values, rounded once. *)
Definition truediv (i n : Z) : float :=
  match i, n with
  | Z0, _ => S754_zero false
  | _, Z0 => S754_nan
  | Zpos p, Zpos q => div (S754_finite false p 0) (S754_finite false q 0)
  | Zpos p, Zneg q => div (S754_finite false p 0) (S754_finite true q 0)
  | Zneg p, Zpos q => div (S754_finite true p 0) (S754_finite false q 0)
  | Zneg p, Zneg q => div (S754_finite true p 0) (S754_finite true q 0)
  end.

(** The integer [m * 2^e] when [0 <= e]; otherwise the integer part and the
    remainder of [m / 2^(-e)], with the half of the divisor. *)
Definition int_frac (m : positive) (e : Z) : Z * Z * Z :=
  match e with
  | Zneg k => (Z.shiftr (Zpos m) (Zpos k), Z.land (Zpos m) (Z.ones (Zpos k)),
               Z.shiftl 1 (Zpos k - 1))
  | _ => (Z.shiftl (Zpos m) e, 0%Z, 1%Z)
  end.

(** [round(x)]: to the nearest integer, ties to even; raises as [int]. *)
Definition round (x : float) : result Z :=
  match x with
  | S754_zero _ => Ok 0%Z
  | S754_infinity _ => Raise OverflowError
  | S754_nan => Raise ValueError
  | S754_finite s m e =>
      let '(q, r, half) := int_frac m e in
      let n := match Z.compare r half with
               | Lt => q
               | Gt => (q + 1)%Z
               | Eq => if Z.even q then q else (q + 1)%Z
               end in
      Ok (if s then Z.opp n else n)
  end.

(** [int(x)]: truncation toward zero; [OverflowError] on an infinity and
    [ValueError] on a NaN. *)
Definition int (x : float) : result Z :=
  match x with
  | S754_zero _ => Ok 0%Z
  | S754_infinity _ => Raise OverflowError
  | S754_nan => Raise ValueError
  | S754_finite s m e =>
      let n := match e with
               | Zneg k => Z.shiftr (Zpos m) (Zpos k)
               | _ => Z.shiftl (Zpos m) e
               end in
      Ok (if s then Z.opp n else n)
  end.

(** Reading and printing of decimal literals. *)
Definition of_decimal (d : Decimal.decimal) : float :=
  let '(i, f, e) :=
    match d with
    | Decimal.Decimal i f => (i, f, Decimal.Pos Decimal.Nil)
    | Decimal.DecimalExp i f e => (i, f, e)
    end in
  let num := Z.of_int (Decimal.app_int i f) in
  let e' := (Z.of_int e - Z.of_nat (Decimal.nb_digits f))%Z in
  match e' with
  | Zneg k => truediv num (Z.pow_pos 10 k)
  | _ => of_Z (num * 10 ^ e')
  end.

Definition of_number (n : Number.number) : option float :=
  match n with
  | Number.Decimal d => Some (of_decimal d)
  | Number.Hexadecimal _ => None
  end.

Definition to_number (x : float) : option Number.number :=
  match int x with
  | Ok z =>
      if SFeqb (of_Z z) x
      then Some (Number.Decimal (Decimal.Decimal (Z.to_int z) Decimal.Nil))
      else None
  | Raise _ => None
  end.

End PyFloat.

Declare Scope pyfloat_scope.
Delimit Scope pyfloat_scope with float.
Number Notation spec_float PyFloat.of_number PyFloat.to_number : pyfloat_scope.
Bind Scope pyfloat_scope with spec_float.
Bind Scope pyfloat_scope with PyFloat.float.

Abbreviation float := PyFloat.float.

(** ** Axis identifiers ([models/enums.py]) *)

Inductive AxisId : Set :=
| X1 | Y1 | Z1 | TX1 | TY1 | TZ1
| X2 | Y2 | Z2 | TX2 | TY2 | TZ2.

Definition axis_value (a : AxisId) : Z :=
  match a with
  | X1 => 1 | Y1 => 2 | Z1 => 3 | TX1 => 4 | TY1 => 5 | TZ1 => 6
  | X2 => 7 | Y2 => 8 | Z2 => 9 | TX2 => 10 | TY2 => 11 | TZ2 => 12
  end%Z.

(** Iteration order of [for axis in AxisId]. *)
Definition all_axes : list AxisId :=
  [X1; Y1; Z1; TX1; TY1; TZ1; X2; Y2; Z2; TX2; TY2; TZ2].

Definition AxisId_eq_dec (a b : AxisId) : {a = b} + {a <> b}.
Proof. decide equality. Defined.

Inductive StageId : Set := LEFT | RIGHT.

Inductive DaemonState : Set :=
| STARTING | READY | RUNNING | STOPPING | STOPPED | ERROR.

Inductive MovementStatus : Set :=
| MS_IDLE | MS_MOVING | MS_COMPLETED | MS_ERROR.

(** A dictionary that is created with one entry per [AxisId] and only ever
    assigned at existing keys is a total map. *)
Definition upd {V : Type} (d : AxisId -> V) (a : AxisId) (v : V) : AxisId -> V :=
  fun b => if AxisId_eq_dec a b then v else d b.

(** ** The simulated engine ([MockBackend]) *)

Module Mock.

(** Where the coroutine [_simulate_motion] of a task is parked.
    - [Pending]: [asyncio.create_task] has returned, the body has not been
      entered yet.
    - [Sleeping steps i]: suspended in [asyncio.sleep] of loop iteration [i],
      the local variable [steps] having the given value.
    - [Done]: [task.done()] holds while the object is still referenced,
      for a task cancelled while [Pending], whose body (and therefore whose
      [finally] block) never runs.
    - [Failed e]: [task.done()] holds and the task keeps the exception [e]
      its body raised before entering the [try] block. *)
Inductive task_phase : Set :=
| Pending
| Sleeping (steps : Z) (i : nat)
| Done
| Failed (e : exn).

Record MotionTask : Set := mkTask {
  t_start : float;
  t_target : float;
  t_speed : float;
  t_phase : task_phase
}.

Record MockBackend : Type := mkMock {
  _connected : bool;
  _positions : AxisId -> float;
  _servo_enabled : AxisId -> bool;
  _is_homed : AxisId -> bool;
  _is_moving : AxisId -> bool;
  _motion_tasks : AxisId -> option MotionTask;
  _default_speed : float
}.

(** [MockBackend.__init__] *)
Definition init : MockBackend :=
  {| _connected := false;
     _positions := fun _ => 0%float;
     _servo_enabled := fun _ => false;
     _is_homed := fun _ => false;
     _is_moving := fun _ => false;
     _motion_tasks := fun _ => None;
     _default_speed := 1000%float |}.

Definition set_connected (b : bool) (s : MockBackend) : MockBackend :=
  mkMock b (_positions s) (_servo_enabled s) (_is_homed s) (_is_moving s)
         (_motion_tasks s) (_default_speed s).

Definition set_position (a : AxisId) (q : float) (s : MockBackend) : MockBackend :=
  mkMock (_connected s) (upd (_positions s) a q) (_servo_enabled s) (_is_homed s)
         (_is_moving s) (_motion_tasks s) (_default_speed s).

Definition set_servo (a : AxisId) (b : bool) (s : MockBackend) : MockBackend :=
  mkMock (_connected s) (_positions s) (upd (_servo_enabled s) a b) (_is_homed s)
         (_is_moving s) (_motion_tasks s) (_default_speed s).

Definition set_homed (a : AxisId) (b : bool) (s : MockBackend) : MockBackend :=
  mkMock (_connected s) (_positions s) (_servo_enabled s) (upd (_is_homed s) a b)
         (_is_moving s) (_motion_tasks s) (_default_speed s).

Definition set_moving (a : AxisId) (b : bool) (s : MockBackend) : MockBackend :=
  mkMock (_connected s) (_positions s) (_servo_enabled s) (_is_homed s)
         (upd (_is_moving s) a b) (_motion_tasks s) (_default_speed s).

Definition set_task (a : AxisId) (t : option MotionTask) (s : MockBackend) : MockBackend :=
  mkMock (_connected s) (_positions s) (_servo_enabled s) (_is_homed s)
         (_is_moving s) (upd (_motion_tasks s) a t) (_default_speed s).

(** [task.done()] *)
Definition task_done (t : MotionTask) : bool :=
  match t_phase t with Done | Failed _ => true | _ => false end.

(** The Python test [task and not task.done()]. *)
Definition live_task (s : MockBackend) (a : AxisId) : bool :=
  match _motion_tasks s a with
  | Some t => negb (task_done t)
  | None => false
  end.

(** *** [_simulate_motion] *)

(** [duration = distance / speed if speed > 0 else 0] *)
Definition motion_duration (start target speed : float) : float :=
  let distance := PyFloat.abs (PyFloat.sub target start) in
  if PyFloat.gtb speed 0 then PyFloat.div distance speed else 0%float.

(** [steps = max(int(duration * 10), 1)]; the conversion raises when the
    product is an infinity or a NaN. *)
Definition motion_steps (start target speed : float) : result Z :=
  match PyFloat.int (PyFloat.mul (motion_duration start target speed) 10) with
  | Ok n => Ok (Z.max n 1)
  | Raise e => Raise e
  end.

(** Value assigned to [_positions[axis]] in loop iteration [i]. *)
Definition step_position (start target : float) (steps : Z) (i : nat) : float :=
  let progress := PyFloat.truediv (Z.of_nat i) steps in
  PyFloat.add start (PyFloat.mul (PyFloat.sub target start) progress).

(** The [finally] block. *)
Definition finally_block (a : AxisId) (s : MockBackend) : MockBackend :=
  set_task a None (set_moving a false s).

Definition set_phase (a : AxisId) (t : MotionTask) (ph : task_phase) (s : MockBackend)
  : MockBackend :=
  set_task a (Some (mkTask (t_start t) (t_target t) (t_speed t) ph)) s.

(** The event loop resumes the task stored for axis [a] and runs it up to
    its next suspension point (or to its end). *)
Definition task_step (a : AxisId) (s : MockBackend) : MockBackend :=
  match _motion_tasks s a with
  | None => s
  | Some t =>
      match t_phase t with
      | Done | Failed _ => s
      | Pending =>
          match motion_steps (t_start t) (t_target t) (t_speed t) with
          | Raise e =>
              (* [int] raised before the flag is set and the [try] entered:
                 the task ends with the exception, nothing else is touched *)
              set_phase a t (Failed e) s
          | Ok steps =>
              (* body entered: flag set, iteration 0 executed up to its sleep *)
              let s1 := set_moving a true s in
              let s2 := set_position a (step_position (t_start t) (t_target t) steps 0) s1 in
              set_phase a t (Sleeping steps 0) s2
          end
      | Sleeping steps i =>
          if (Z.of_nat i <? steps)%Z then
            (* [range(steps + 1)] yields iteration [i + 1] *)
            let s1 := set_position a (step_position (t_start t) (t_target t) steps (S i)) s in
            set_phase a t (Sleeping steps (S i)) s1
          else
            (* loop exhausted: final assignment, then [finally] *)
            finally_block a (set_position a (t_target t) s)
      end
  end.

(** [task.cancel()] followed by [await task] with [CancelledError]
    swallowed, for a task that is not done.  A [Pending] task is finished
    without its body running; a sleeping one unwinds through [finally]. *)
Definition cancel_and_await (a : AxisId) (s : MockBackend) : MockBackend :=
  match _motion_tasks s a with
  | None => s
  | Some t =>
      match t_phase t with
      | Done | Failed _ => s
      | Pending => set_phase a t Done s
      | Sleeping _ _ => finally_block a s
      end
  end.

(** *** Coroutines of the capability interface *)

Definition connect : M MockBackend unit :=
  fun s => (set_connected true s, Ok tt).

Definition disconnect : M MockBackend unit :=
  fun s =>
    let s' := fold_left
                (fun acc a => if live_task acc a then cancel_and_await a acc else acc)
                all_axes s in
    (set_connected false s', Ok tt).

Definition get_axis_position (a : AxisId) : M MockBackend float :=
  fun s =>
    if negb (_connected s) then (s, Raise HardwareError)
    else (s, Ok (_positions s a)).

Definition move_axis (a : AxisId) (target : float) (relative : bool) (speed : option float)
  : M MockBackend unit :=
  fun s =>
    if negb (_connected s) then (s, Raise HardwareError)
    else if negb (_servo_enabled s a) then (s, Raise ServoError)
    else
      let s1 := if live_task s a then cancel_and_await a s else s in
      let start_pos := _positions s1 a in
      let actual_target := if relative then PyFloat.add start_pos target else target in
      if PyFloat.gtb (PyFloat.abs actual_target) 500000 then (s1, Raise MovementError)
      else
        let motion_speed := match speed with Some v => v | None => _default_speed s1 end in
        (set_task a (Some (mkTask start_pos actual_target motion_speed Pending)) s1, Ok tt).

Definition is_axis_moving (a : AxisId) : M MockBackend bool :=
  fun s =>
    if negb (_connected s) then (s, Raise HardwareError)
    else (s, Ok (_is_moving s a)).

(** How a wait on a task ends: the task ran to its end, the task ended
    with an exception, or the deadline came first. *)
Inductive wait_outcome : Set :=
| Finished
| Died (e : exn)
| Expired.

(** What awaiting the finished task of axis [a] yields. *)
Definition task_outcome (s : MockBackend) (a : AxisId) : wait_outcome :=
  match _motion_tasks s a with
  | Some t => match t_phase t with Failed e => Died e | _ => Finished end
  | None => Finished
  end.

(** [asyncio.wait_for(task, timeout)]: the task is resumed until it is done;
    [budget] is the number of its resumptions that occur before the
    deadline.  When the deadline comes first the task is cancelled and the
    built-in timeout is raised; an exception of the task is raised again. *)
Fixpoint wait_for (budget : nat) (a : AxisId) (s : MockBackend)
  : MockBackend * wait_outcome :=
  if live_task s a then
    match budget with
    | O => (cancel_and_await a s, Expired)
    | S n => wait_for n a (task_step a s)
    end
  else (s, task_outcome s a).

(** Only [asyncio.TimeoutError] is caught (and turned into [TimeoutError]). *)
Definition wait_for_motion_complete (a : AxisId) (budget : nat) : M MockBackend unit :=
  fun s =>
    if negb (_connected s) then (s, Raise HardwareError)
    else if negb (live_task s a) then (s, Ok tt)
    else
      match wait_for budget a s with
      | (s', Finished) => (s', Ok tt)
      | (s', Died e) => (s', Raise e)
      | (s', Expired) => (s', Raise TimeoutError)
      end.

Definition enable_servo (a : AxisId) : M MockBackend unit :=
  fun s =>
    if negb (_connected s) then (s, Raise HardwareError)
    else (set_servo a true s, Ok tt).

Definition disable_servo (a : AxisId) : M MockBackend unit :=
  fun s =>
    if negb (_connected s) then (s, Raise HardwareError)
    else
      let s1 := if _is_moving s a
                then (if live_task s a then cancel_and_await a s else s)
                else s in
      (set_servo a false s1, Ok tt).

Definition is_servo_enabled (a : AxisId) : M MockBackend bool :=
  fun s =>
    if negb (_connected s) then (s, Raise HardwareError)
    else (s, Ok (_servo_enabled s a)).

(** [budget] stands for the default 30 s timeout of the inner wait. *)
Definition home_axis (a : AxisId) (budget : nat) : M MockBackend unit :=
  fun s =>
    if negb (_connected s) then (s, Raise HardwareError)
    else if negb (_servo_enabled s a) then (s, Raise ServoError)
    else
      (move_axis a 0 false None ;;
       wait_for_motion_complete a budget ;;
       (fun s' => (set_homed a true s', Ok tt)))%coro s.

(** Body of the loop of [emergency_stop]. *)
Definition stop_axis (acc : MockBackend) (a : AxisId) : MockBackend :=
  if _is_moving acc a
  then (if live_task acc a then cancel_and_await a acc else acc)
  else acc.

Definition emergency_stop : M MockBackend unit :=
  fun s => (fold_left stop_axis all_axes s, Ok tt).

Record AxisStatus : Set := mkAxisStatus {
  st_axis : AxisId;
  st_position : float;
  st_servo_enabled : bool;
  st_is_moving : bool;
  st_is_homed : bool
}.

Definition get_axis_status (a : AxisId) : M MockBackend AxisStatus :=
  fun s =>
    if negb (_connected s) then (s, Raise HardwareError)
    else (s, Ok (mkAxisStatus a (_positions s a) (_servo_enabled s a)
                              (_is_moving s a) (_is_homed s a))).

(** *** Histories of the engine

    One caller drives the engine; between two of its calls the event loop
    may resume any motion task.  A history is a list of such events. *)
Inductive op : Set :=
| Connect
| Disconnect
| EnableServo (a : AxisId)
| DisableServo (a : AxisId)
| MoveAxis (a : AxisId) (target : float) (relative : bool) (speed : option float)
| WaitForMotionComplete (a : AxisId) (budget : nat)
| HomeAxis (a : AxisId) (budget : nat)
| EmergencyStop
| TaskStep (a : AxisId).

Definition exec (o : op) (s : MockBackend) : MockBackend :=
  match o with
  | Connect => fst (connect s)
  | Disconnect => fst (disconnect s)
  | EnableServo a => fst (enable_servo a s)
  | DisableServo a => fst (disable_servo a s)
  | MoveAxis a target relative speed => fst (move_axis a target relative speed s)
  | WaitForMotionComplete a budget => fst (wait_for_motion_complete a budget s)
  | HomeAxis a budget => fst (home_axis a budget s)
  | EmergencyStop => fst (emergency_stop s)
  | TaskStep a => task_step a s
  end.

Definition run (history : list op) (s : MockBackend) : MockBackend :=
  fold_left (fun acc o => exec o acc) history s.

Definition reachable (s : MockBackend) : Prop :=
  exists history, s = run history init.

(** The task of axis [a] has entered its body and has not left it. *)
Definition started (s : MockBackend) (a : AxisId) : bool :=
  match _motion_tasks s a with
  | Some t => match t_phase t with Sleeping _ _ => true | _ => false end
  | None => false
  end.

(** Everything the engine keeps about one axis is the same in [s] and [s']. *)
Definition same_axis_state (s s' : MockBackend) (a : AxisId) : Prop :=
  _positions s' a = _positions s a /\
  _servo_enabled s' a = _servo_enabled s a /\
  _is_homed s' a = _is_homed s a /\
  _is_moving s' a = _is_moving s a /\
  _motion_tasks s' a = _motion_tasks s a.

(** The step count in the words of the design document,
    [steps = max(round(duration * 10), 1)], to be compared with
    [motion_steps]. *)
Definition steps_as_specified (start target speed : float) : result Z :=
  match PyFloat.round (PyFloat.mul (motion_duration start target speed) 10) with
  | Ok n => Ok (Z.max n 1)
  | Raise e => Raise e
  end.

(** The moving flag of every axis says whether its task is inside its body. *)
Definition flag_tracks_body (s : MockBackend) : Prop :=
  forall a, _is_moving s a = started s a.

(** The task of axis [a], created for a move from [start] to [goal] at
    speed [v] and cut into [steps] increments, is parked in iteration [k]
    with that iteration's assignment done. *)
Definition parked_at (a : AxisId) (start goal v : float) (steps : Z) (k : nat)
           (s : MockBackend) : Prop :=
  _motion_tasks s a = Some (mkTask start goal v (Sleeping steps k)) /\
  _positions s a = step_position start goal steps k /\
  _is_moving s a = true.



(** No task is live on any axis. *)
Definition quiet (s : MockBackend) : Prop := forall a, live_task s a = false.

Definition enables_servo (o : op) : bool :=
  match o with EnableServo _ => true | _ => false end.

(** No servo is on, no axis is flagged and no task is stored. *)
Definition idle (s : MockBackend) : Prop :=
  forall a, _servo_enabled s a = false /\ _is_moving s a = false /\
            _motion_tasks s a = None.

(** *** Remaining queries of the engine *)

(** [get_all_positions]: a copy of the dictionary. *)
Definition get_all_positions : M MockBackend (AxisId -> float) :=
  fun s =>
    if negb (_connected s) then (s, Raise HardwareError)
    else (s, Ok (_positions s)).

Record StageStatus : Set := mkStageStatus {
  stage_id : StageId;
  axes : list AxisStatus;
  angle_offset : float
}.

(** The axes of a stage, as listed in [get_stage_status]. *)
Definition stage_axes (stage : StageId) : list AxisId :=
  match stage with
  | LEFT => [X1; Y1; Z1; TX1; TY1; TZ1]
  | RIGHT => [X2; Y2; Z2; TX2; TY2; TZ2]
  end.

(** [[await self.get_axis_status(axis) for axis in axes]] *)
Fixpoint axes_status (l : list AxisId) : M MockBackend (list AxisStatus) :=
  match l with
  | [] => ret []
  | a :: rest =>
      (st <~ get_axis_status a ;;
       others <~ axes_status rest ;;
       ret (st :: others))%coro
  end.

Definition get_stage_status (stage : StageId) : M MockBackend StageStatus :=
  fun s =>
    if negb (_connected s) then (s, Raise HardwareError)
    else (sts <~ axes_status (stage_axes stage) ;;
          ret (mkStageStatus stage sts 0))%coro s.

(** The axis an event of a history is about, if it is about one. *)
Definition op_axis (o : op) : option AxisId :=
  match o with
  | EnableServo a | DisableServo a | MoveAxis a _ _ _
  | WaitForMotionComplete a _ | HomeAxis a _ | TaskStep a => Some a
  | Connect | Disconnect | EmergencyStop => None
  end.

(** The fields no motion task ever writes are the same in [s] and [s']. *)
Definition same_settings (s s' : MockBackend) : Prop :=
  _connected s' = _connected s /\ _servo_enabled s' = _servo_enabled s /\
  _is_homed s' = _is_homed s /\ _default_speed s' = _default_speed s.

(** The resolved target of a move, and the test it has to pass:
    [abs(actual_target) > 500_000] is false (as it is for a NaN). *)
Definition resolved_target (s : MockBackend) (a : AxisId) (target : float) (relative : bool)
  : float :=
  if relative then PyFloat.add (_positions s a) target else target.

Definition in_range (x : float) : bool := negb (PyFloat.gtb (PyFloat.abs x) 500000).

End Mock.

(** ** The vendor driver ([srgmc.dll] through pythonnet)

    The hardware-bound engine only talks to the controller through calls on
    vendor objects.  The controller and the library are an external state
    [D]; every call returns the new external state and either a value or
    [None] when the call raised (a .NET or Python exception that is none of
    the station exceptions).  Axis components are named by their axis
    number.  [LoadDll] stands for [_load_dll] together with the construction
    of the vendor objects. *)

Record Driver (D : Type) : Type := mkDriver {
  LoadDll : D -> D * option unit;
  SetAddress : D -> D * option unit;
  Connected : D -> D * option bool;
  IsServoOn : Z -> D -> D * option bool;
  TurnOnServo : Z -> D -> D * option unit;
  TurnOffServo : Z -> D -> D * option unit;
  MoveAbsolute : Z -> float -> D -> D * option string;
  MoveRelative : Z -> float -> D -> D * option string;
  GetStatus : Z -> D -> D * option string;
  GetActualPosition : Z -> D -> D * option float
}.

(** Observation of the calls made on the axis components: a driver over
    [D * list drv_call] that behaves as the given one and records each call. *)
Inductive drv_call : Set :=
| CallIsServoOn (n : Z)
| CallTurnOnServo (n : Z)
| CallTurnOffServo (n : Z)
| CallMove (n : Z)
| CallGetStatus (n : Z)
| CallGetActualPosition (n : Z).

Definition record_call {D A} (c : drv_call) (f : D -> D * option A)
  : D * list drv_call -> (D * list drv_call) * option A :=
  fun w => let (d', r) := f (fst w) in ((d', snd w ++ [c]), r).

Definition traced {D} (drv : Driver D) : Driver (D * list drv_call) :=
  {| LoadDll := fun w => let (d', r) := LoadDll drv (fst w) in ((d', snd w), r);
     SetAddress := fun w => let (d', r) := SetAddress drv (fst w) in ((d', snd w), r);
     Connected := fun w => let (d', r) := Connected drv (fst w) in ((d', snd w), r);
     IsServoOn := fun n => record_call (CallIsServoOn n) (IsServoOn drv n);
     TurnOnServo := fun n => record_call (CallTurnOnServo n) (TurnOnServo drv n);
     TurnOffServo := fun n => record_call (CallTurnOffServo n) (TurnOffServo drv n);
     MoveAbsolute := fun n q => record_call (CallMove n) (MoveAbsolute drv n q);
     MoveRelative := fun n q => record_call (CallMove n) (MoveRelative drv n q);
     GetStatus := fun n => record_call (CallGetStatus n) (GetStatus drv n);
     GetActualPosition := fun n =>
       record_call (CallGetActualPosition n) (GetActualPosition drv n) |}.

(** The axis numbers of the servo queries found in a record of calls. *)
Definition servo_queries (log : list drv_call) : list Z :=
  flat_map (fun c => match c with CallIsServoOn n => [n] | _ => [] end) log.

(** ** The hardware-bound engine ([RealBackend]) *)

Module Real.

Record RealBackend (D : Type) : Type := mkReal {
  _connected : bool;
  _axis_components : list Z;      (* keys of the dictionary, insertion order *)
  _is_homed : AxisId -> bool;
  hw : D                          (* the controller behind the vendor objects *)
}.

Arguments mkReal {D} _ _ _ _.

Section WithDriver.

Variable D : Type.
Variable drv : Driver D.

Local Abbreviation state := (RealBackend D).

(** [RealBackend.__init__] over a given controller. *)
Definition init (d : D) : state :=
  mkReal false [] (fun _ => false) d.

Definition set_hw (d : D) (s : state) : state :=
  mkReal (_connected s) (_axis_components s) (_is_homed s) d.

Definition set_connected (b : bool) (s : state) : state :=
  mkReal b (_axis_components s) (_is_homed s) (hw s).

Definition set_components (l : list Z) (s : state) : state :=
  mkReal (_connected s) l (_is_homed s) (hw s).

Definition set_homed (a : AxisId) (b : bool) (s : state) : state :=
  mkReal (_connected s) (_axis_components s) (upd (_is_homed s) a b) (hw s).

(** A call on a vendor object from inside a coroutine. *)
Definition vendor {A} (f : D -> D * option A) : M state A :=
  fun s =>
    match f (hw s) with
    | (d', Some v) => (set_hw d' s, Ok v)
    | (d', None) => (set_hw d' s, Raise ForeignException)
    end.

(** [try: c  except Exception as e: raise E(...)] *)
Definition wrap_as {A} (e : exn) (c : M state A) : M state A :=
  fun s =>
    match c s with
    | (s', Ok v) => (s', Ok v)
    | (s', Raise _) => (s', Raise e)
    end.

(** The polling loop of [connect]: at most [tries] reads of [Connected]. *)
Fixpoint await_connected (tries : nat) : M state bool :=
  match tries with
  | O => ret false
  | S n =>
      (c <~ vendor (Connected drv) ;;
       if (c : bool) then ret true else await_connected n)%coro
  end.

(** Turning on the servo of every component, in dictionary order. *)
Fixpoint servo_on_all (l : list Z) : M state unit :=
  match l with
  | [] => ret tt
  | n :: l' =>
      (on <~ vendor (IsServoOn drv n) ;;
       (if (on : bool) then ret tt else vendor (TurnOnServo drv n)) ;;
       servo_on_all l')%coro
  end.

Definition twelve : list Z := [1; 2; 3; 4; 5; 6; 7; 8; 9; 10; 11; 12]%Z.

Definition connect : M state unit :=
  wrap_as ConnectionError
    (vendor (LoadDll drv) ;;
     (fun s => (set_components twelve s, Ok tt)) ;;
     vendor (SetAddress drv) ;;
     up <~ await_connected 10 ;;
     if (up : bool) then
       (fun s => (set_connected true s, Ok tt)) ;;
       (fun s => servo_on_all (_axis_components s) s)
     else raise ConnectionError)%coro.

(** One component of the [disconnect] loop: failures are logged and skipped. *)
Definition servo_off_quiet (n : Z) (s : state) : state :=
  match vendor (IsServoOn drv n) s with
  | (s1, Ok true) => fst (vendor (TurnOffServo drv n) s1)
  | (s1, _) => s1
  end.

Definition disconnect : M state unit :=
  fun s =>
    let s1 := fold_left (fun acc n => servo_off_quiet n acc) (_axis_components s) s in
    (set_connected false (set_components [] s1), Ok tt).

Definition _get_axis_component (a : AxisId) : M state Z :=
  fun s =>
    if negb (_connected s) then (s, Raise HardwareError)
    else if existsb (Z.eqb (axis_value a)) (_axis_components s)
         then (s, Ok (axis_value a))
         else (s, Raise HardwareError).

Definition get_axis_position (a : AxisId) : M state float :=
  wrap_as HardwareError
    (n <~ _get_axis_component a ;;
     vendor (GetActualPosition drv n))%coro.

(** [except (MovementError, ServoError): raise] before the catch-all. *)
Definition keep_move_errors {A} (c : M state A) : M state A :=
  fun s =>
    match c s with
    | (s', Ok v) => (s', Ok v)
    | (s', Raise MovementError) => (s', Raise MovementError)
    | (s', Raise ServoError) => (s', Raise ServoError)
    | (s', Raise _) => (s', Raise MovementError)
    end.

Definition move_axis (a : AxisId) (target : float) (relative : bool) (speed : option float)
  : M state unit :=
  keep_move_errors
    (n <~ _get_axis_component a ;;
     on <~ vendor (IsServoOn drv n) ;;
     if negb on then raise ServoError
     else
       error <~ vendor (if relative then MoveRelative drv n target
                        else MoveAbsolute drv n target) ;;
       if negb (String.eqb error "None") then raise MovementError
       else ret tt)%coro.

Definition is_axis_moving (a : AxisId) : M state bool :=
  wrap_as HardwareError
    (n <~ _get_axis_component a ;;
     status <~ vendor (GetStatus drv n) ;;
     ret (negb (String.eqb status "InPosition")))%coro.

(** The polling loop of [wait_for_motion_complete].  [budget] is the number
    of polls after the first one that still find the elapsed time within
    the timeout. *)
Fixpoint poll_in_position (n : Z) (budget : nat) : M state unit :=
  (status <~ vendor (GetStatus drv n) ;;
   if String.eqb status "InPosition" then ret tt
   else if String.eqb status "Error" then raise MovementError
   else match budget with
        | O => raise TimeoutError
        | S b => poll_in_position n b
        end)%coro.

Definition wait_for_motion_complete (a : AxisId) (budget : nat) : M state unit :=
  (n <~ _get_axis_component a ;;
   poll_in_position n budget)%coro.

Definition enable_servo (a : AxisId) : M state unit :=
  wrap_as ServoError
    (n <~ _get_axis_component a ;;
     vendor (TurnOnServo drv n))%coro.

Definition disable_servo (a : AxisId) : M state unit :=
  wrap_as ServoError
    (n <~ _get_axis_component a ;;
     vendor (TurnOffServo drv n))%coro.

Definition is_servo_enabled (a : AxisId) : M state bool :=
  wrap_as HardwareError
    (n <~ _get_axis_component a ;;
     vendor (IsServoOn drv n))%coro.

(** [budget] stands for the 60 s timeout of the inner wait. *)
Definition home_axis (a : AxisId) (budget : nat) : M state unit :=
  wrap_as MovementError
    (move_axis a 0 false None ;;
     wait_for_motion_complete a budget ;;
     (fun s => (set_homed a true s, Ok tt)))%coro.

(** One component of the [emergency_stop] loop: the inner [try] logs any
    failure and the loop goes on. *)
Definition stop_component (n : Z) (s : state) : state :=
  match vendor (IsServoOn drv n) s with
  | (s1, Ok true) => fst (vendor (TurnOffServo drv n) s1)
  | (s1, _) => s1
  end.

Definition emergency_stop : M state unit :=
  fun s =>
    if negb (_connected s) then (s, Ok tt)
    else (fold_left (fun acc n => stop_component n acc) (_axis_components s) s, Ok tt).

(** *** Remaining queries of the engine *)

(** The loop of [get_all_positions]: one read per axis, the first failure
    ending the call.  The dictionary is kept as the list of its items. *)
Fixpoint read_positions (l : list AxisId) : M state (list (AxisId * float)) :=
  match l with
  | [] => ret []
  | a :: rest =>
      (p <~ wrap_as HardwareError (get_axis_position a) ;;
       others <~ read_positions rest ;;
       ret ((a, p) :: others))%coro
  end.

Definition get_all_positions : M state (list (AxisId * float)) :=
  fun s =>
    if negb (_connected s) then (s, Raise HardwareError)
    else read_positions all_axes s.

Definition get_axis_status (a : AxisId) : M state Mock.AxisStatus :=
  wrap_as HardwareError
    (position <~ get_axis_position a ;;
     servo_enabled <~ is_servo_enabled a ;;
     is_moving <~ is_axis_moving a ;;
     (fun s => (s, Ok (Mock.mkAxisStatus a position servo_enabled is_moving
                                         (_is_homed s a)))))%coro.

Fixpoint axes_status (l : list AxisId) : M state (list Mock.AxisStatus) :=
  match l with
  | [] => ret []
  | a :: rest =>
      (st <~ get_axis_status a ;;
       others <~ axes_status rest ;;
       ret (st :: others))%coro
  end.

Definition get_stage_status (stage : StageId) : M state Mock.StageStatus :=
  fun s =>
    if negb (_connected s) then (s, Raise HardwareError)
    else wrap_as HardwareError
           (sts <~ axes_status (Mock.stage_axes stage) ;;
            ret (Mock.mkStageStatus stage sts 0))%coro s.

End WithDriver.

End Real.

(** The axis numbers of the moves, and the number of status polls, found in
    a record of calls. *)
Definition moves_commanded (log : list drv_call) : list Z :=
  flat_map (fun c => match c with CallMove n => [n] | _ => [] end) log.

Definition status_polls (log : list drv_call) : nat :=
  List.length (filter (fun c => match c with CallGetStatus _ => true | _ => false end) log).

(** ** The capability interface ([AbstractBackend]) and its two variants *)

Inductive Backend (D : Type) : Type :=
| MockB (m : Mock.MockBackend)
| RealB (r : Real.RealBackend D).

Arguments MockB {D} m.
Arguments RealB {D} r.

(** Running a coroutine of one variant inside the sum. *)
Definition in_mock {D A} (c : M Mock.MockBackend A) (m : Mock.MockBackend)
  : Backend D * result A :=
  let (m', r) := c m in (MockB m', r).

Definition in_real {D A} (c : M (Real.RealBackend D) A) (r : Real.RealBackend D)
  : Backend D * result A :=
  let (r', x) := c r in (RealB r', x).

Section Dispatch.

Variable D : Type.
Variable drv : Driver D.

(** Step budgets standing for the timeouts used inside the engines. *)
Variable budget : nat.

Definition is_mock (b : Backend D) : bool :=
  match b with MockB _ => true | RealB _ => false end.

Definition is_connected (b : Backend D) : bool :=
  match b with
  | MockB m => Mock._connected m
  | RealB r => Real._connected r
  end.

Definition b_connect : M (Backend D) unit :=
  fun b => match b with
           | MockB m => in_mock Mock.connect m
           | RealB r => in_real (Real.connect drv) r
           end.

Definition b_disconnect : M (Backend D) unit :=
  fun b => match b with
           | MockB m => in_mock Mock.disconnect m
           | RealB r => in_real (Real.disconnect drv) r
           end.

Definition b_get_axis_position (a : AxisId) : M (Backend D) float :=
  fun b => match b with
           | MockB m => in_mock (Mock.get_axis_position a) m
           | RealB r => in_real (Real.get_axis_position drv a) r
           end.

Definition b_move_axis (a : AxisId) (target : float) (relative : bool) (speed : option float)
  : M (Backend D) unit :=
  fun b => match b with
           | MockB m => in_mock (Mock.move_axis a target relative speed) m
           | RealB r => in_real (Real.move_axis drv a target relative speed) r
           end.

Definition b_wait_for_motion_complete (a : AxisId) : M (Backend D) unit :=
  fun b => match b with
           | MockB m => in_mock (Mock.wait_for_motion_complete a budget) m
           | RealB r => in_real (Real.wait_for_motion_complete drv a budget) r
           end.

Definition b_disable_servo (a : AxisId) : M (Backend D) unit :=
  fun b => match b with
           | MockB m => in_mock (Mock.disable_servo a) m
           | RealB r => in_real (Real.disable_servo drv a) r
           end.

Definition b_home_axis (a : AxisId) : M (Backend D) unit :=
  fun b => match b with
           | MockB m => in_mock (Mock.home_axis a budget) m
           | RealB r => in_real (Real.home_axis drv a budget) r
           end.

Definition b_emergency_stop : M (Backend D) unit :=
  fun b => match b with
           | MockB m => in_mock Mock.emergency_stop m
           | RealB r => in_real (Real.emergency_stop drv) r
           end.

Definition b_get_stage_status (stage : StageId) : M (Backend D) Mock.StageStatus :=
  fun b => match b with
           | MockB m => in_mock (Mock.get_stage_status stage) m
           | RealB r => in_real (Real.get_stage_status drv stage) r
           end.

End Dispatch.

(** ** The daemon lifecycle controller ([EW51Daemon]) *)

Module Daemon.

Record EW51Daemon (D : Type) : Type := mkDaemon {
  _use_mock : bool;
  _state : DaemonState;
  _backend : option (Backend D);
  (* ghost: every value assigned to [_state] since construction, oldest first *)
  history : list DaemonState
}.

Arguments mkDaemon {D} _ _ _ _.

Section WithDriver.

Variable D : Type.
Variable drv : Driver D.

Local Abbreviation daemon := (EW51Daemon D).

(** [EW51Daemon.__init__] *)
Definition init (use_mock : bool) : daemon :=
  mkDaemon use_mock STOPPED None [].

Definition set_state (st : DaemonState) (d : daemon) : daemon :=
  mkDaemon (_use_mock d) st (_backend d) (history d ++ [st]).

Definition set_backend (b : option (Backend D)) (d : daemon) : daemon :=
  mkDaemon (_use_mock d) (_state d) b (history d).

Definition DaemonState_eqb (x y : DaemonState) : bool :=
  match x, y with
  | STARTING, STARTING | READY, READY | RUNNING, RUNNING
  | STOPPING, STOPPING | STOPPED, STOPPED | ERROR, ERROR => true
  | _, _ => false
  end.

(** The [backend] property. *)
Definition backend : M daemon (Backend D) :=
  fun d =>
    match _backend d with
    | None => (d, Raise RuntimeError)
    | Some b => (d, Ok b)
    end.

(** A coroutine of the engine called as [daemon.backend.f(...)]. *)
Definition on_backend {A} (c : M (Backend D) A) : M daemon A :=
  fun d =>
    match _backend d with
    | None => (d, Raise RuntimeError)
    | Some b => let (b', r) := c b in (set_backend (Some b') d, r)
    end.

(** [start()].  [world] is the controller a newly constructed
    [RealBackend] will talk to. *)
Definition start (world : D) : M daemon unit :=
  fun d =>
    if negb (DaemonState_eqb (_state d) STOPPED) then (d, Ok tt)
    else
      let d1 := set_state STARTING d in
      let fresh := if _use_mock d1 then MockB Mock.init
                   else RealB (Real.init world) in
      let d2 := set_backend (Some fresh) d1 in
      match b_connect drv fresh with
      | (b', Ok _) => (set_state READY (set_backend (Some b') d2), Ok tt)
      | (b', Raise _) => (set_state ERROR (set_backend (Some b') d2), Raise ConnectionError)
      end.

Definition stop : M daemon unit :=
  fun d =>
    if DaemonState_eqb (_state d) STOPPED then (d, Ok tt)
    else
      let d1 := set_state STOPPING d in
      match _backend d1 with
      | None => (set_state STOPPED d1, Ok tt)
      | Some b =>
          match b_disconnect drv b with
          | (_, Ok _) => (set_state STOPPED (set_backend None d1), Ok tt)
          | (b', Raise e) => (set_state ERROR (set_backend (Some b') d1), Raise e)
          end
      end.

Definition emergency_stop : M daemon unit :=
  fun d =>
    match _backend d with
    | None => (d, Ok tt)
    | Some b => let (b', r) := b_emergency_stop drv b in (set_backend (Some b') d, r)
    end.

Record StationStatus : Set := mkStation {
  daemon_state : DaemonState;
  left_stage : Mock.StageStatus;
  right_stage : Mock.StageStatus;
  station_is_mock : bool;              (* the field [is_mock] *)
  connection_established : bool
}.

(** A coroutine of the engine called as [self._backend.f(...)]: with no
    engine the attribute lookup on [None] fails. *)
Definition on_own_backend {A} (c : M (Backend D) A) : M daemon A :=
  fun d =>
    match _backend d with
    | None => (d, Raise ForeignException)
    | Some b => let (b', r) := c b in (set_backend (Some b') d, r)
    end.

(** [get_status()] *)
Definition get_status : M daemon StationStatus :=
  fun d =>
    if negb (DaemonState_eqb (_state d) READY) then (d, Raise RuntimeError)
    else
      (left <~ on_own_backend (b_get_stage_status drv LEFT) ;;
       right <~ on_own_backend (b_get_stage_status drv RIGHT) ;;
       on_own_backend (fun b =>
         (b, Ok (mkStation READY left right (is_mock b) (is_connected b)))))%coro d.

(** The methods of the daemon, as events of its life. *)
Inductive event : Type :=
| EvStart (world : D)
| EvStop
| EvEmergencyStop
| EvGetStatus.

Definition step (d : daemon) (e : event) : daemon :=
  match e with
  | EvStart world => fst (start world d)
  | EvStop => fst (stop d)
  | EvEmergencyStop => fst (emergency_stop d)
  | EvGetStatus => fst (get_status d)
  end.

Definition run (events : list event) (d : daemon) : daemon :=
  fold_left step events d.

(** What holds of a daemon between two calls of its methods. *)
Definition settled (use_mock : bool) (d : daemon) : Prop :=
  _use_mock d = use_mock /\
  (_state d = STOPPED \/ _state d = READY \/ _state d = ERROR) /\
  (_state d = STOPPED <-> _backend d = None) /\
  (_state d = READY ->
   exists b, _backend d = Some b /\ is_connected b = true /\ is_mock b = use_mock) /\
  (use_mock = true -> _state d <> ERROR).

End WithDriver.

End Daemon.

(** ** Multi-axis move orchestration ([routers/movement.py]) *)

Module Movement.

Record MovementRequest : Set := mkRequest {
  axis : AxisId;
  target : float;
  relative : bool;
  speed : option float;
  wait : bool
}.

Record MultiAxisMovementRequest : Set := mkMulti {
  movements : list MovementRequest;
  wait_all : bool                     (* the field [wait] of the multi request *)
}.

(** [error_message] keeps the exception whose text is reported. *)
Record MovementResponse : Set := mkResponse {
  r_axis : AxisId;
  status : MovementStatus;
  current_position : float;
  target_position : float;
  error_message : option exn
}.

Record MultiAxisMovementResponse : Set := mkMultiResponse {
  r_movements : list MovementResponse;
  overall_status : MovementStatus
}.

(** [MovementRequest.validate_target], [None] standing for [ValueError]. *)
Definition validate_target (v : float) : option float :=
  if PyFloat.gtb (PyFloat.abs v) 1000000 then None else Some v.


(** What a route hands to the framework: a response, [HTTPException] with
    its status code, or an exception none of its handlers caught. *)
Inductive outcome (A : Type) : Type :=
| Returned (a : A)
| HTTPException (status_code : Z)
| Propagated (e : exn).

Arguments Returned {A} a.
Arguments HTTPException {A} status_code.
Arguments Propagated {A} e.




(** What the route calls on [daemon.backend]; [B] is whatever holds the
    engine (the daemon, in the application). *)
Record BackendOps (B : Type) : Type := mkOps {
  op_move_axis : AxisId -> float -> bool -> option float -> M B unit;
  op_wait_for_motion_complete : AxisId -> M B unit;
  op_get_axis_position : AxisId -> M B float
}.

Section Orchestration.

Variable B : Type.
Variable ops : BackendOps B.

(** First loop: start all movements.  The accumulator is the engine and
    [overall_status]. *)
Definition start_one (acc : B * MovementStatus) (move_req : MovementRequest)
  : B * MovementStatus :=
  match op_move_axis ops (axis move_req) (target move_req) (relative move_req)
                     (speed move_req) (fst acc) with
  | (b', Ok _) => (b', snd acc)
  | (b', Raise _) => (b', MS_ERROR)
  end.

Definition start_all (reqs : list MovementRequest) (b : B) (st : MovementStatus)
  : B * MovementStatus :=
  fold_left start_one reqs (b, st).

(** Body of the second loop when waiting: the guarded block, and the handler
    whose own read-back is not guarded. *)
Definition wait_one (move_req : MovementRequest) (b : B)
  : B * result (MovementResponse * bool) :=
  let guarded :=
    (op_wait_for_motion_complete ops (axis move_req) ;;
     position <~ op_get_axis_position ops (axis move_req) ;;
     ret (mkResponse (axis move_req) MS_COMPLETED position
                     (if relative move_req then position else target move_req)
                     None))%coro in
  match guarded b with
  | (b1, Ok resp) => (b1, Ok (resp, false))
  | (b1, Raise e) =>
      match op_get_axis_position ops (axis move_req) b1 with
      | (b2, Ok position) =>
          (b2, Ok (mkResponse (axis move_req) MS_ERROR position (target move_req) (Some e),
                   true))
      | (b2, Raise e') => (b2, Raise e')
      end
  end.

Fixpoint wait_each (reqs : list MovementRequest) (b : B)
  (responses : list MovementResponse) (st : MovementStatus)
  : B * result (list MovementResponse * MovementStatus) :=
  match reqs with
  | [] => (b, Ok (responses, st))
  | move_req :: rest =>
      match wait_one move_req b with
      | (b', Ok (resp, failed)) =>
          wait_each rest b' (responses ++ [resp]) (if failed then MS_ERROR else st)
      | (b', Raise e) => (b', Raise e)
      end
  end.

(** Second loop when not waiting: unguarded read-back per request. *)
Fixpoint read_each (reqs : list MovementRequest) (b : B)
  (responses : list MovementResponse)
  : B * result (list MovementResponse) :=
  match reqs with
  | [] => (b, Ok responses)
  | move_req :: rest =>
      match op_get_axis_position ops (axis move_req) b with
      | (b', Ok position) =>
          read_each rest b'
            (responses ++ [mkResponse (axis move_req) MS_MOVING position
                                      (target move_req) None])
      | (b', Raise e) => (b', Raise e)
      end
  end.

Definition move_multiple_axes (request : MultiAxisMovementRequest)
  : M B MultiAxisMovementResponse :=
  fun b =>
    let (b1, overall) := start_all (movements request) b MS_COMPLETED in
    if wait_all request then
      match wait_each (movements request) b1 [] overall with
      | (b2, Ok (responses, overall')) => (b2, Ok (mkMultiResponse responses overall'))
      | (b2, Raise e) => (b2, Raise e)
      end
    else
      match read_each (movements request) b1 [] with
      | (b2, Ok responses) => (b2, Ok (mkMultiResponse responses overall))
      | (b2, Raise e) => (b2, Raise e)
      end.

(** Whether some [move_axis] call of the first loop raises. *)
Fixpoint any_move_fails (reqs : list MovementRequest) (b : B) : bool :=
  match reqs with
  | [] => false
  | move_req :: rest =>
      let (b', r) := op_move_axis ops (axis move_req) (target move_req)
                                  (relative move_req) (speed move_req) b in
      negb (is_ok r) || any_move_fails rest b'
  end.

(** The single-axis route.  The read-backs of the two handlers are not
    guarded: what they raise leaves the route. *)
Definition move_axis (request : MovementRequest) (b : B) : B * outcome MovementResponse :=
  let guarded :=
    (op_move_axis ops (axis request) (target request) (relative request) (speed request) ;;
     (if wait request then op_wait_for_motion_complete ops (axis request) else ret tt) ;;
     position <~ op_get_axis_position ops (axis request) ;;
     ret (mkResponse (axis request) MS_COMPLETED position
                     (if relative request then position else target request)
                     None))%coro in
  let handler (e : exn) (b1 : B) :=
    match op_get_axis_position ops (axis request) b1 with
    | (b2, Ok position) =>
        (b2, Returned (mkResponse (axis request) MS_ERROR position (target request) (Some e)))
    | (b2, Raise e') => (b2, Propagated e')
    end in
  match guarded b with
  | (b1, Ok resp) => (b1, Returned resp)
  | (b1, Raise ServoError) => handler ServoError b1
  | (b1, Raise MovementError) => handler MovementError b1
  | (b1, Raise _) => (b1, HTTPException 500)
  end.

End Orchestration.

(** The homing route; [wait_for_motion_complete] is the call with
    [timeout=60.0]. *)
Section Homing.

Variable B : Type.
Variable home_axis : AxisId -> M B unit.
Variable wait_for_motion_complete : AxisId -> M B unit.



End Homing.

(** Observation of the calls made on the engine: the same operations over
    [B * list call], each recording itself before running. *)
Inductive call : Set :=
| MoveCall (a : AxisId) (target : float) (relative : bool) (speed : option float)
| WaitCall (a : AxisId)
| ReadCall (a : AxisId).

Definition logging {B A} (c : call) (f : M B A) : M (B * list call) A :=
  fun w => let (b', r) := f (fst w) in ((b', snd w ++ [c]), r).

Definition logged {B} (ops : BackendOps B) : BackendOps (B * list call) :=
  {| op_move_axis := fun a t rel sp => logging (MoveCall a t rel sp) (op_move_axis ops a t rel sp);
     op_wait_for_motion_complete := fun a => logging (WaitCall a) (op_wait_for_motion_complete ops a);
     op_get_axis_position := fun a => logging (ReadCall a) (op_get_axis_position ops a) |}.

Definition is_move (c : call) : bool :=
  match c with MoveCall _ _ _ _ => true | _ => false end.

Definition is_wait (c : call) : bool :=
  match c with WaitCall _ => true | _ => false end.

Definition move_call_of (r : MovementRequest) : call :=
  MoveCall (axis r) (target r) (relative r) (speed r).

Definition is_error (r : MovementResponse) : bool :=
  match status r with MS_ERROR => true | _ => false end.

Definition no_move (c : call) : bool := negb (is_move c).

(** The calls of the waiting loop when it runs to its end: per request, in
    order, one wait and one read-back, the read-back being repeated by the
    handler when the guarded one raised. *)
Inductive wait_trace : list MovementRequest -> list call -> Prop :=
| wait_trace_nil : wait_trace [] []
| wait_trace_once (r : MovementRequest) (reqs : list MovementRequest) (l : list call) :
    wait_trace reqs l ->
    wait_trace (r :: reqs) (WaitCall (axis r) :: ReadCall (axis r) :: l)
| wait_trace_twice (r : MovementRequest) (reqs : list MovementRequest) (l : list call) :
    wait_trace reqs l ->
    wait_trace (r :: reqs)
               (WaitCall (axis r) :: ReadCall (axis r) :: ReadCall (axis r) :: l).

(** The route as wired in the application: every call goes through
    [daemon.backend]; [budget] stands for [timeout=30.0]. *)
Definition daemon_ops {D} (drv : Driver D) (budget : nat)
  : BackendOps (Daemon.EW51Daemon D) :=
  {| op_move_axis := fun a t rel sp => Daemon.on_backend (b_move_axis drv a t rel sp);
     op_wait_for_motion_complete := fun a =>
       Daemon.on_backend (b_wait_for_motion_complete drv budget a);
     op_get_axis_position := fun a => Daemon.on_backend (b_get_axis_position drv a) |}.

End Movement.

(** ** The alignment wait coordinator ([AlignmentController]) *)

Module Alignment.

Local Open Scope string_scope.

Inductive AlignmentStatus : Set :=
| IDLE | ALIGNING | SUCCESS | FAILURE | STOPPED | A_ERROR.

(** [status.value] *)
Definition value (st : AlignmentStatus) : string :=
  match st with
  | IDLE => "Idle" | ALIGNING => "Aligning" | SUCCESS => "Success"
  | FAILURE => "Failure" | STOPPED => "Stopped" | A_ERROR => "Error"
  end.

(** [AlignmentStatus(status_str)], [None] standing for [ValueError]. *)
Definition of_string (s : string) : option AlignmentStatus :=
  if String.eqb s "Idle" then Some IDLE
  else if String.eqb s "Aligning" then Some ALIGNING
  else if String.eqb s "Success" then Some SUCCESS
  else if String.eqb s "Failure" then Some FAILURE
  else if String.eqb s "Stopped" then Some STOPPED
  else if String.eqb s "Error" then Some A_ERROR
  else None.


(** The vendor alignment object and the event loop, as an external state
    [W].  A call on the vendor object yields [None] when it raised (a .NET
    or Python exception that is none of the station exceptions):
    [GetStatus], together with the [str] applied to its result, is called
    unguarded, [GetPower] under [try]. *)
Record Env (W : Type) : Type := mkEnv {
  AlignGetStatus : W -> W * option string;
  GetPower : Z -> W -> W * option float;
  loop_time : W -> W * Q;               (* asyncio.get_event_loop().time() *)
  sleep : Q -> W -> W                   (* await asyncio.sleep(...) *)
}.

Section WithEnv.

Variable W : Type.
Variable env : Env W.

Definition get_status : M W AlignmentStatus :=
  fun w =>
    match AlignGetStatus env w with
    | (w', None) => (w', Raise ForeignException)
    | (w', Some status_str) =>
        match of_string status_str with
        | Some st => (w', Ok st)
        | None => (w', Ok A_ERROR)
        end
    end.







End WithEnv.

End Alignment.

(** ** Concrete environments used to exercise the models *)

Module Rig.

(** A controller that keeps the set of axes whose servo is on, reports every
    axis in position at 0, and can be told to fail position reads or the
    servo query of some axes. *)
Record rig : Set := mkRig {
  servo_on : list Z;
  reads_fail : bool;
  faulty : list Z
}.

Definition mem (n : Z) (l : list Z) : bool := existsb (Z.eqb n) l.

Definition driver : Driver rig :=
  {| LoadDll := fun d => (d, Some tt);
     SetAddress := fun d => (d, Some tt);
     Connected := fun d => (d, Some true);
     IsServoOn := fun n d => (d, if mem n (faulty d) then None else Some (mem n (servo_on d)));
     TurnOnServo := fun n d => (mkRig (n :: servo_on d) (reads_fail d) (faulty d), Some tt);
     TurnOffServo := fun n d =>
       (mkRig (filter (fun m => negb (Z.eqb n m)) (servo_on d)) (reads_fail d) (faulty d),
        Some tt);
     MoveAbsolute := fun _ _ d => (d, Some "None"%string);
     MoveRelative := fun _ _ d => (d, Some "None"%string);
     GetStatus := fun _ d => (d, Some "InPosition"%string);
     GetActualPosition := fun _ d => (d, if reads_fail d then None else Some 0%float) |}.

Definition healthy : rig := mkRig [] false [].

(** A controller that cannot be reached: the library loads, the link never
    comes up. *)
Definition unreachable : Driver unit :=
  {| LoadDll := fun d => (d, Some tt);
     SetAddress := fun d => (d, Some tt);
     Connected := fun d => (d, Some false);
     IsServoOn := fun _ d => (d, None);
     TurnOnServo := fun _ d => (d, None);
     TurnOffServo := fun _ d => (d, None);
     MoveAbsolute := fun _ _ d => (d, None);
     MoveRelative := fun _ _ d => (d, None);
     GetStatus := fun _ d => (d, None);
     GetActualPosition := fun _ d => (d, None) |}.

(** An alignment run that follows a script of status strings, one per call
    of [GetStatus] (then "Idle" forever); the clock only advances in
    [sleep]. *)
Record bench : Set := mkBench {
  script : list (option string);
  clock : Q;
  power : option float
}.

Definition alignment : Alignment.Env bench :=
  {| Alignment.AlignGetStatus := fun w =>
       match script w with
       | [] => (w, Some "Idle"%string)
       | x :: rest => (mkBench rest (clock w) (power w), x)
       end;
     Alignment.GetPower := fun _ w => (w, power w);
     Alignment.loop_time := fun w => (w, clock w);
     Alignment.sleep := fun dt w => mkBench (script w) (Qred (clock w + dt)) (power w) |}.

(** A request for two axes. *)
Definition two_moves (waiting : bool) : Movement.MultiAxisMovementRequest :=
  Movement.mkMulti [Movement.mkRequest X1 100 false None true;
                    Movement.mkRequest Y1 100 false None true] waiting.

End Rig.

(** * Properties *)

(** Numerals denote Python floats unless a scope says otherwise. *)
Open Scope pyfloat_scope.

(** ** Dictionaries *)

Lemma upd_same {V} (d : AxisId -> V) a v : upd d a v a = v.
Proof. unfold upd. destruct (AxisId_eq_dec a a); congruence. Qed.

Lemma upd_other {V} (d : AxisId -> V) a b v : a <> b -> upd d a v b = d b.
Proof. unfold upd. destruct (AxisId_eq_dec a b); congruence. Qed.

(** Closed facts about concrete histories are settled by evaluation. *)
Ltac split_conj := repeat match goal with |- _ /\ _ => split end.
Ltac by_evaluation := cbv zeta; split_conj; vm_compute; reflexivity.

(** ** Python floats *)

(** The arithmetic is that of the interpreter: sums and quotients are
    rounded, a quotient that overflows is an infinity, comparisons with a
    NaN are false, [int] truncates and [round] rounds half to even. *)
Example float_arithmetic :
  PyFloat.add 0.1 0.2 = 0.30000000000000004 /\
  PyFloat.add 0.1 499999.9 = 500000 /\
  PyFloat.mul (PyFloat.div 0.3 1) 10 = 3 /\
  PyFloat.mul (PyFloat.div 16 100) 10 = 1.6 /\
  PyFloat.div 1 1e-320 = S754_infinity false /\
  PyFloat.truediv 1 3 = 0.3333333333333333 /\
  PyFloat.gtb S754_nan 500000 = false /\
  PyFloat.gtb 500000.00000000006 500000 = true /\
  PyFloat.int 1.6 = Ok 1%Z /\ PyFloat.int (-1.6) = Ok (-1)%Z /\
  PyFloat.round 1.6 = Ok 2%Z /\ PyFloat.round 2.5 = Ok 2%Z /\
  PyFloat.round 3.5 = Ok 4%Z /\
  PyFloat.int (S754_infinity false) = Raise OverflowError /\
  PyFloat.int S754_nan = Raise ValueError.
Proof. by_evaluation. Qed.

Ltac unfold_setters :=
  unfold Mock.set_phase, Mock.finally_block, Mock.set_task, Mock.set_moving, Mock.set_position,
         Mock.set_servo, Mock.set_homed, Mock.set_connected in *;
  cbn [Mock._connected Mock._positions Mock._servo_enabled Mock._is_homed
       Mock._is_moving Mock._motion_tasks Mock._default_speed] in *.

Ltac split_axis a b :=
  destruct (AxisId_eq_dec a b) as [<- | ?];
  [ rewrite ?upd_same in * | rewrite ?upd_other in * by assumption ].

(** ** The simulated engine *)

Section MockFacts.

Import Mock.

(** What one resumption does to the axis it belongs to. *)
Lemma task_step_flag (a : AxisId) (s : MockBackend) :
  flag_tracks_body s -> flag_tracks_body (task_step a s).
Proof.
  intros H b. pose proof (H a) as Ha. specialize (H b).
  unfold task_step, started in *.
  destruct (_motion_tasks s a) as [t|] eqn:Et; [|exact H].
  destruct (t_phase t) eqn:Ep.
  - destruct (motion_steps _ _ _); unfold set_phase; unfold_setters;
      split_axis a b; cbn; rewrite ?Et, ?Ep in *; auto.
  - destruct (Z.of_nat i <? _)%Z; unfold set_phase; unfold_setters;
      split_axis a b; cbn; auto.
  - exact H.
  - exact H.
Qed.

Lemma cancel_and_await_flag (a : AxisId) (s : MockBackend) :
  flag_tracks_body s -> flag_tracks_body (cancel_and_await a s).
Proof.
  intros H b. pose proof (H a) as Ha. specialize (H b).
  unfold cancel_and_await, started in *.
  destruct (_motion_tasks s a) as [t|] eqn:Et; [|exact H].
  destruct (t_phase t) eqn:Ep; unfold set_phase; unfold_setters.
  - split_axis a b; cbn; rewrite ?Et, ?Ep in *; auto.
  - split_axis a b; cbn; auto.
  - exact H.
  - exact H.
Qed.

Lemma cancel_and_await_not_live (a : AxisId) (s : MockBackend) :
  live_task (cancel_and_await a s) a = false.
Proof.
  unfold cancel_and_await, live_task, task_done.
  destruct (_motion_tasks s a) as [t|] eqn:Et.
  - destruct (t_phase t) eqn:Ep; unfold set_phase; unfold_setters; rewrite ?upd_same; cbn;
      rewrite ?Et; cbn; rewrite ?Ep; reflexivity.
  - rewrite Et. reflexivity.
Qed.

Lemma not_live_not_started (s : MockBackend) (a : AxisId) :
  live_task s a = false -> started s a = false.
Proof.
  unfold live_task, started, task_done.
  destruct (_motion_tasks s a) as [t|]; [|reflexivity].
  destruct (t_phase t); cbn; congruence.
Qed.

Lemma started_is_live (s : MockBackend) (a : AxisId) :
  started s a = true -> live_task s a = true.
Proof.
  intros H. destruct (live_task s a) eqn:E; [reflexivity|].
  apply not_live_not_started in E. congruence.
Qed.

Lemma fold_left_preserves {A S : Type} (P : S -> Prop) (f : S -> A -> S) (l : list A) :
  (forall s x, P s -> P (f s x)) -> forall s, P s -> P (fold_left f l s).
Proof.
  intros Hf. induction l as [|x l IH]; intros s Hs; cbn; auto.
Qed.

Lemma setters_keep_flag (s : MockBackend) :
  flag_tracks_body s ->
  (forall b, flag_tracks_body (set_connected b s)) /\
  (forall a b, flag_tracks_body (set_servo a b s)) /\
  (forall a b, flag_tracks_body (set_homed a b s)).
Proof.
  intros H. repeat split; intros; intro c; apply (H c).
Qed.

Lemma wait_for_flag (budget : nat) (a : AxisId) :
  forall s, flag_tracks_body s -> flag_tracks_body (fst (wait_for budget a s)).
Proof.
  induction budget as [|n IH]; intros s H; cbn [wait_for];
    destruct (live_task s a); cbn [fst]; auto using cancel_and_await_flag, task_step_flag.
Qed.

Lemma connect_flag s : flag_tracks_body s -> flag_tracks_body (fst (connect s)).
Proof. intros H. apply (setters_keep_flag H). Qed.

Lemma disconnect_flag s : flag_tracks_body s -> flag_tracks_body (fst (disconnect s)).
Proof.
  intros H. unfold disconnect. cbn [fst].
  apply setters_keep_flag.
  apply fold_left_preserves; [|exact H].
  intros s0 x H0. destruct (live_task s0 x); auto using cancel_and_await_flag.
Qed.

Lemma enable_servo_flag a s : flag_tracks_body s -> flag_tracks_body (fst (enable_servo a s)).
Proof.
  intros H. unfold enable_servo. destruct (negb (_connected s)); cbn [fst]; auto.
Qed.

Lemma disable_servo_flag a s : flag_tracks_body s -> flag_tracks_body (fst (disable_servo a s)).
Proof.
  intros H. unfold disable_servo. destruct (negb (_connected s)); cbn [fst]; auto.
  apply setters_keep_flag.
  destruct (_is_moving s a); auto. destruct (live_task s a); auto using cancel_and_await_flag.
Qed.

Lemma move_axis_flag a target relative speed s :
  flag_tracks_body s -> flag_tracks_body (fst (move_axis a target relative speed s)).
Proof.
  intros H. unfold move_axis.
  destruct (negb (_connected s)); cbn [fst]; auto.
  destruct (negb (_servo_enabled s a)); cbn [fst]; auto.
  set (s1 := if live_task s a then cancel_and_await a s else s).
  assert (H1 : flag_tracks_body s1)
    by (subst s1; destruct (live_task s a); auto using cancel_and_await_flag).
  assert (L1 : live_task s1 a = false).
  { subst s1. destruct (live_task s a) eqn:E; auto using cancel_and_await_not_live. }
  destruct (PyFloat.gtb _ _); cbn [fst]; auto.
  intros b. pose proof (H1 b) as Hb. pose proof (H1 a) as Ha.
  rewrite (not_live_not_started _ _ L1) in Ha.
  unfold started in *. unfold_setters. split_axis a b; cbn; auto.
Qed.

Lemma wait_for_motion_complete_flag a budget s :
  flag_tracks_body s -> flag_tracks_body (fst (wait_for_motion_complete a budget s)).
Proof.
  intros H. unfold wait_for_motion_complete.
  destruct (negb (_connected s)); cbn [fst]; auto.
  destruct (negb (live_task s a)); cbn [fst]; auto.
  pose proof (wait_for_flag budget a H) as Hw.
  destruct (wait_for budget a s) as [s' [| |]]; exact Hw.
Qed.

Lemma home_axis_flag a budget s :
  flag_tracks_body s -> flag_tracks_body (fst (home_axis a budget s)).
Proof.
  intros H. unfold home_axis.
  destruct (negb (_connected s)); cbn [fst]; auto.
  destruct (negb (_servo_enabled s a)); cbn [fst]; auto.
  unfold bind.
  pose proof (move_axis_flag a 0 false None H) as Hm.
  destruct (move_axis a 0 false None s) as [s1 [[]|e]]; cbn [fst] in *; auto.
  pose proof (wait_for_motion_complete_flag a budget Hm) as Hw.
  destruct (wait_for_motion_complete a budget s1) as [s2 [[]|e]]; cbn [fst] in *; auto.
Qed.

Lemma emergency_stop_flag s : flag_tracks_body s -> flag_tracks_body (fst (emergency_stop s)).
Proof.
  intros H. unfold emergency_stop. cbn [fst].
  apply fold_left_preserves; [|exact H].
  intros s0 x H0. unfold stop_axis. destruct (_is_moving s0 x); auto.
  destruct (live_task s0 x); auto using cancel_and_await_flag.
Qed.

Lemma exec_flag (o : op) (s : MockBackend) :
  flag_tracks_body s -> flag_tracks_body (exec o s).
Proof.
  destruct o; cbn [exec];
    auto using connect_flag, disconnect_flag, enable_servo_flag, disable_servo_flag,
      move_axis_flag, wait_for_motion_complete_flag, home_axis_flag,
      emergency_stop_flag, task_step_flag.
Qed.

(** In every state the engine can reach, the moving flag of an axis is set
    exactly while the body of its motion task is executing. *)
Lemma reachable_flag_tracks_body (s : MockBackend) :
  reachable s -> flag_tracks_body s.
Proof.
  intros [history ->]. unfold run.
  apply fold_left_preserves.
  - intros s0 o. apply exec_flag.
  - intros a. reflexivity.
Qed.

(** An operation on one axis leaves the flag and the task of the others alone. *)
Lemma cancel_and_await_other (a b : AxisId) (s : MockBackend) :
  a <> b ->
  _is_moving (cancel_and_await a s) b = _is_moving s b /\
  _motion_tasks (cancel_and_await a s) b = _motion_tasks s b.
Proof.
  intros N. unfold cancel_and_await.
  destruct (_motion_tasks s a) as [t|]; [|auto].
  destruct (t_phase t); unfold_setters; rewrite ?upd_other by assumption; auto.
Qed.

Lemma cancel_and_await_started (a : AxisId) (s : MockBackend) :
  started s a = true ->
  _is_moving (cancel_and_await a s) a = false /\
  _motion_tasks (cancel_and_await a s) a = None.
Proof.
  unfold started, cancel_and_await.
  destruct (_motion_tasks s a) as [t|]; [|discriminate].
  destruct (t_phase t); try discriminate. intros _.
  unfold_setters. rewrite !upd_same. auto.
Qed.

Lemma stop_axis_flag acc a : flag_tracks_body acc -> flag_tracks_body (stop_axis acc a).
Proof.
  intros H. unfold stop_axis. destruct (_is_moving acc a); auto.
  destruct (live_task acc a); auto using cancel_and_await_flag.
Qed.

Lemma stop_axis_clears acc a :
  flag_tracks_body acc -> _is_moving (stop_axis acc a) a = false.
Proof.
  intros H. unfold stop_axis. destruct (_is_moving acc a) eqn:E; [|exact E].
  rewrite (H a) in E. rewrite (started_is_live _ _ E).
  apply (cancel_and_await_started _ _ E).
Qed.

Lemma stop_axis_other acc a b :
  a <> b -> _is_moving (stop_axis acc a) b = _is_moving acc b.
Proof.
  intros N. unfold stop_axis. destruct (_is_moving acc a); auto.
  destruct (live_task acc a); auto. apply (proj1 (cancel_and_await_other acc N)).
Qed.

Lemma stop_axes_clear (l : list AxisId) :
  forall s a, flag_tracks_body s ->
    In a l \/ _is_moving s a = false ->
    _is_moving (fold_left stop_axis l s) a = false.
Proof.
  induction l as [|x l IH]; intros s a H [Hin | Hf]; cbn [fold_left]; auto.
  - destruct Hin.
  - apply IH; [apply stop_axis_flag; exact H|].
    destruct Hin as [-> | Hin]; [right; apply stop_axis_clears; exact H | left; exact Hin].
  - apply IH; [apply stop_axis_flag; exact H|]. right.
    destruct (AxisId_eq_dec x a) as [-> | N].
    + apply stop_axis_clears; exact H.
    + rewrite stop_axis_other by assumption. exact Hf.
Qed.

Lemma all_axes_complete (a : AxisId) : In a all_axes.
Proof. destruct a; cbn; tauto. Qed.

(** Once [emergency_stop] has returned, no axis is flagged as moving. *)
Lemma emergency_stop_clears_flags (s : MockBackend) :
  flag_tracks_body s ->
  forall a, _is_moving (fst (emergency_stop s)) a = false.
Proof.
  intros H a. unfold emergency_stop. cbn [fst].
  apply stop_axes_clear; [exact H | left; apply all_axes_complete].
Qed.

(** On an axis flagged as moving, [disable_servo] stops the task and then
    clears the servo flag. *)
Lemma disable_servo_on_moving_axis (s : MockBackend) (a : AxisId) :
  flag_tracks_body s -> _connected s = true -> _is_moving s a = true ->
  let s' := fst (disable_servo a s) in
  snd (disable_servo a s) = Ok tt /\
  _is_moving s' a = false /\ _servo_enabled s' a = false /\ live_task s' a = false.
Proof.
  intros H C Mv. unfold disable_servo. rewrite C, Mv. cbn [negb fst snd].
  rewrite (H a) in Mv. rewrite (started_is_live _ _ Mv).
  destruct (cancel_and_await_started _ _ Mv) as [F T].
  unfold live_task. unfold_setters. rewrite upd_same, T, F. auto.
Qed.

(** C1.  The claimed invariant (an axis is flagged as moving if and only if
    a task for it has been created and has neither completed nor been
    cancelled) does not hold: [move_axis] only creates the task, and the flag
    is set when the event loop first resumes it.  After connect, servo on
    and an accepted move of X1 the task is live and the flag is still
    false. *)
Theorem accepted_move_leaves_flag_unset :
  let s := run [Connect; EnableServo X1; MoveAxis X1 1000 false None] init in
  snd (move_axis X1 1000 false None (run [Connect; EnableServo X1] init)) = Ok tt /\
  reachable s /\
  live_task s X1 = true /\
  _is_moving s X1 = false.
Proof.
  cbv zeta. split; [vm_compute; reflexivity|].
  split; [eexists; reflexivity|].
  split; vm_compute; reflexivity.
Qed.

(** C4.  [emergency_stop] right after an accepted move does not cancel the
    task: the loop only looks at axes flagged as moving, and the new task
    has not set its flag yet.  The call returns normally, the task stays
    live, and the event loop then drives the axis all the way to the
    target. *)
Theorem emergency_stop_misses_unstarted_task :
  let s := run [Connect; EnableServo X1; MoveAxis X1 100000 false None] init in
  let s' := fst (emergency_stop s) in
  let finished := Nat.iter 1002 (task_step X1) s' in
  snd (emergency_stop s) = Ok tt /\
  live_task s X1 = true /\
  live_task s' X1 = true /\
  _is_moving (task_step X1 s') X1 = true /\
  _positions finished X1 = 100000 /\
  live_task finished X1 = false.
Proof.
  by_evaluation.
Qed.

(** C5.  [disable_servo] right after an accepted move clears the servo flag
    without cancelling the task, for the same reason; the task then runs on
    the servo-off axis and moves it to the target. *)
Theorem disable_servo_leaves_unstarted_task :
  let s := run [Connect; EnableServo X1; MoveAxis X1 1000 false None] init in
  let s' := fst (disable_servo X1 s) in
  let finished := Nat.iter 12 (task_step X1) s' in
  snd (disable_servo X1 s) = Ok tt /\
  _servo_enabled s' X1 = false /\
  live_task s' X1 = true /\
  _is_moving (task_step X1 s') X1 = true /\
  _servo_enabled (task_step X1 s') X1 = false /\
  _positions finished X1 = 1000.
Proof.
  by_evaluation.
Qed.

End MockFacts.

(** ** The interpolation of one simulated move *)

Section Trajectory.

Import Mock.

Variable a : AxisId.
Variables start goal v : float.

(** The value the task computes for [steps] on entering its body. *)
Variable steps : Z.
Hypothesis counted : motion_steps start goal v = Ok steps.

Local Abbreviation parked_at := (Mock.parked_at a start goal v steps).

Lemma first_resumption (s : MockBackend) :
  _motion_tasks s a = Some (mkTask start goal v Pending) ->
  parked_at 0 (task_step a s).
Proof.
  intros E. unfold Mock.parked_at, task_step. rewrite E.
  cbn [t_phase t_start t_target t_speed]. rewrite counted.
  unfold_setters. rewrite !upd_same. auto.
Qed.

Lemma next_resumption (k : nat) (s : MockBackend) :
  (Z.of_nat k < steps)%Z -> parked_at k s -> parked_at (S k) (task_step a s).
Proof.
  intros L (E & _ & Mv). unfold Mock.parked_at, task_step. rewrite E.
  cbn [t_phase t_start t_target t_speed].
  apply Z.ltb_lt in L. rewrite L.
  unfold_setters. rewrite !upd_same. auto.
Qed.

Lemma last_resumption (k : nat) (s : MockBackend) :
  (steps <= Z.of_nat k)%Z -> parked_at k s ->
  let s' := task_step a s in
  _positions s' a = goal /\ _is_moving s' a = false /\ _motion_tasks s' a = None.
Proof.
  intros L (E & _ & Mv). cbv zeta. unfold task_step. rewrite E.
  cbn [t_phase t_start t_target t_speed].
  apply Z.ltb_ge in L. rewrite L.
  unfold_setters. rewrite !upd_same. auto.
Qed.

Lemma resumptions_follow_the_loop (s : MockBackend) :
  _motion_tasks s a = Some (mkTask start goal v Pending) ->
  forall k, (Z.of_nat k <= steps)%Z -> parked_at k (Nat.iter (S k) (task_step a) s).
Proof.
  intros E. induction k as [|k IH]; intros L.
  - apply first_resumption, E.
  - change (Nat.iter (S (S k)) (task_step a) s)
      with (task_step a (Nat.iter (S k) (task_step a) s)).
    apply next_resumption; [lia | apply IH; lia].
Qed.

Lemma steps_positive : (1 <= steps)%Z.
Proof.
  revert counted. unfold motion_steps.
  destruct (PyFloat.int _); [|discriminate]. intros E. inversion E. lia.
Qed.

Lemma resumptions_reach_the_target (s : MockBackend) :
  _motion_tasks s a = Some (mkTask start goal v Pending) ->
  let s_end := Nat.iter (S (S (Z.to_nat steps))) (task_step a) s in
  _positions s_end a = goal /\ _is_moving s_end a = false /\ _motion_tasks s_end a = None.
Proof.
  intros E.
  change (Nat.iter (S (S (Z.to_nat steps))) (task_step a) s)
    with (task_step a (Nat.iter (S (Z.to_nat steps)) (task_step a) s)).
  pose proof steps_positive.
  apply last_resumption with (k := Z.to_nat steps); [lia|].
  apply resumptions_follow_the_loop; [exact E | lia].
Qed.

End Trajectory.

(** The first resumption of a task whose step count cannot be computed:
    the task ends with the exception of [int], and nothing but the task
    itself has changed. *)
Lemma failed_resumption (a : AxisId) (start goal v : float) (e : exn)
      (s : Mock.MockBackend) :
  Mock.motion_steps start goal v = Raise e ->
  Mock._motion_tasks s a = Some (Mock.mkTask start goal v Mock.Pending) ->
  Mock.task_step a s =
    Mock.set_task a (Some (Mock.mkTask start goal v (Mock.Failed e))) s.
Proof.
  intros C E. unfold Mock.task_step. rewrite E.
  cbn [Mock.t_phase Mock.t_start Mock.t_target Mock.t_speed]. rewrite C. reflexivity.
Qed.

(** [int] only raises the two built-in exceptions. *)
Lemma motion_steps_raises (start goal v : float) (e : exn) :
  Mock.motion_steps start goal v = Raise e -> e = OverflowError \/ e = ValueError.
Proof.
  unfold Mock.motion_steps.
  destruct (PyFloat.mul _ _); cbn; intros E; inversion E; auto.
Qed.

Section MockMoves.

Import Mock.

Lemma cancel_and_await_keeps (a : AxisId) (s : MockBackend) :
  let s' := cancel_and_await a s in
  _connected s' = _connected s /\ _positions s' = _positions s /\
  _servo_enabled s' = _servo_enabled s /\ _is_homed s' = _is_homed s /\
  _default_speed s' = _default_speed s.
Proof.
  cbv zeta. unfold cancel_and_await.
  destruct (_motion_tasks s a) as [t|]; [|auto 6].
  destruct (t_phase t); unfold_setters; auto 6.
Qed.

(** What an accepted [move_axis] leaves behind: a task that has not run. *)
Lemma move_axis_accepted (s : MockBackend) (a : AxisId) (target : float)
      (relative : bool) (speed : option float) :
  snd (move_axis a target relative speed s) = Ok tt ->
  let s0 := fst (move_axis a target relative speed s) in
  _motion_tasks s0 a =
    Some (mkTask (_positions s a) (resolved_target s a target relative)
                 (match speed with Some v => v | None => _default_speed s end)
                 Pending) /\
  _positions s0 = _positions s.
Proof.
  unfold move_axis, resolved_target.
  destruct (negb (_connected s)); [discriminate|].
  destruct (negb (_servo_enabled s a)); [discriminate|].
  set (s1 := if live_task s a then cancel_and_await a s else s).
  assert (K : _positions s1 = _positions s /\ _default_speed s1 = _default_speed s).
  { subst s1. destruct (live_task s a); [|auto].
    destruct (cancel_and_await_keeps a s) as (_ & P & _ & _ & V). auto. }
  destruct K as [P V]. rewrite P, V.
  destruct (PyFloat.gtb _ _); [discriminate|]. intros _.
  cbn [fst]. unfold_setters. rewrite upd_same. auto.
Qed.

End MockMoves.

Section SimulatedMove.

Import Mock.

(** C2 (as amended).  All arithmetic is binary64.  For an accepted move
    the task computes [duration = |goal - start| / speed] (0 unless
    [speed > 0]) and [steps = max(int(duration * 10), 1)], where [int]
    truncates the rounded product and does not round it.  When the product
    is finite, resumption number [i + 1] of the task, for [i = 0 .. steps],
    leaves the position at [start + (goal - start) * (i / steps)] with the
    axis flagged as moving, and the resumption after that stores [goal]
    itself and clears the flag and the task slot.  When the product is an
    infinity or a NaN, [int] raises [OverflowError] or [ValueError] in the
    first resumption: the task ends with that exception and stays in its
    slot, and neither a position nor a flag has been written. *)
Theorem simulated_move_trajectory (s : MockBackend) (a : AxisId) (target : float)
        (relative : bool) (speed : option float) :
  snd (move_axis a target relative speed s) = Ok tt ->
  let s0 := fst (move_axis a target relative speed s) in
  let start := _positions s a in
  let goal := if relative then PyFloat.add start target else target in
  let v := match speed with Some v => v | None => _default_speed s end in
  let duration :=
    if PyFloat.gtb v 0
    then PyFloat.div (PyFloat.abs (PyFloat.sub goal start)) v else 0 in
  (forall n, PyFloat.int (PyFloat.mul duration 10) = Ok n ->
     let steps := Z.max n 1 in
     motion_steps start goal v = Ok steps /\
     (forall i : nat, (Z.of_nat i <= steps)%Z ->
        let si := Nat.iter (S i) (task_step a) s0 in
        _positions si a =
          PyFloat.add start
            (PyFloat.mul (PyFloat.sub goal start) (PyFloat.truediv (Z.of_nat i) steps)) /\
        _is_moving si a = true) /\
     (let s_end := Nat.iter (S (S (Z.to_nat steps))) (task_step a) s0 in
      _positions s_end a = goal /\ _is_moving s_end a = false /\
      _motion_tasks s_end a = None)) /\
  (forall e, PyFloat.int (PyFloat.mul duration 10) = Raise e ->
     (e = OverflowError \/ e = ValueError) /\
     motion_steps start goal v = Raise e /\
     let s1 := task_step a s0 in
     _positions s1 = _positions s /\ _is_moving s1 = _is_moving s0 /\
     _motion_tasks s1 a = Some (mkTask start goal v (Failed e)) /\
     live_task s1 a = false /\ task_step a s1 = s1) /\
  (PyFloat.gtb v 0 = false -> duration = 0 /\ motion_steps start goal v = Ok 1%Z).
Proof.
  intros Acc. cbv zeta.
  destruct (@move_axis_accepted s a target relative speed Acc) as [T P].
  unfold resolved_target in T.
  set (start := _positions s a) in *.
  set (goal := if relative then PyFloat.add start target else target) in *.
  set (v := match speed with Some v => v | None => _default_speed s end) in *.
  set (s0 := fst (move_axis a target relative speed s)) in *.
  change (if PyFloat.gtb v 0
          then PyFloat.div (PyFloat.abs (PyFloat.sub goal start)) v else 0)
    with (motion_duration start goal v).
  split; [|split].
  - intros n E.
    assert (St : motion_steps start goal v = Ok (Z.max n 1))
      by (unfold motion_steps; rewrite E; reflexivity).
    split; [exact St|]. split.
    + intros i Hi.
      destruct (@resumptions_follow_the_loop a _ _ _ _ St s0 T i Hi) as (_ & Q & Mv).
      auto.
    + apply (@resumptions_reach_the_target a _ _ _ _ St s0 T).
  - intros e E.
    assert (St : motion_steps start goal v = Raise e)
      by (unfold motion_steps; rewrite E; reflexivity).
    split; [exact (motion_steps_raises _ _ _ St)|]. split; [exact St|].
    rewrite (@failed_resumption a _ _ _ _ _ St T).
    unfold live_task, task_done, task_step. unfold_setters. rewrite !upd_same.
    cbn [t_phase negb]. auto 6.
  - intros N. unfold motion_steps, motion_duration. rewrite N. auto.
Qed.

Lemma simulated_move_trajectory_witness :
  let s := run [Connect; EnableServo X1] init in
  let s0 := fst (move_axis X1 16 false (Some 100) s) in
  motion_steps 0 16 100 = Ok 1%Z /\
  _positions (Nat.iter 3 (task_step X1) s0) X1 = 16 /\
  _is_moving (Nat.iter 3 (task_step X1) s0) X1 = false.
Proof.
  cbv zeta.
  assert (Acc : snd (move_axis X1 16 false (Some 100) (run [Connect; EnableServo X1] init)) = Ok tt)
    by (vm_compute; reflexivity).
  destruct (@simulated_move_trajectory _ _ _ _ _ Acc) as (Run & _ & _).
  destruct (Run 1%Z) as (St & _ & (P & Mv & _)); [vm_compute; reflexivity|].
  split; [exact St|]. split; [exact P | exact Mv].
Defined.

(** C2 (counterexample).  For the move of 16 um at 100 um/s the duration is
    0.16 s, so [duration * 10] is 1.6 (up to rounding): the code truncates
    to 1 step where the claimed [round] gives 2. *)
Lemma steps_are_truncated_not_rounded :
  motion_steps 0 16 100 = Ok 1%Z /\
  steps_as_specified 0 16 100 = Ok 2%Z /\
  motion_steps 0 16 100 <> steps_as_specified 0 16 100.
Proof.
  split; [vm_compute; reflexivity|]. split; [vm_compute; reflexivity|].
  vm_compute. discriminate.
Qed.

End SimulatedMove.

Section RejectedMove.

Import Mock.

Lemma cancel_and_await_other_axes (a b : AxisId) (s : MockBackend) :
  b <> a -> same_axis_state s (cancel_and_await a s) b.
Proof.
  intros N. unfold same_axis_state, cancel_and_await.
  destruct (_motion_tasks s a) as [t|]; [|auto 6].
  destruct (t_phase t); unfold_setters; rewrite ?upd_other by congruence; auto 6.
Qed.

(** C3 (as amended).  A [move_axis] that fails because the backend is not
    connected or because the servo of the axis is off returns the state it
    was given.  One that fails on the travel bound (resolved target beyond
    500000 um in absolute value) is raised after the cancellation of the
    axis's previous task: connection flag, positions, servo and homed flags
    of all axes and everything about the other axes are as before, no task
    is live on the axis afterwards, and nothing at all has changed when no
    task was live before; in a reachable state the moving flag of the axis
    is false afterwards. *)
Theorem move_axis_failure_effects (s : MockBackend) (a : AxisId) (target : float)
        (relative : bool) (speed : option float) (e : exn) :
  snd (move_axis a target relative speed s) = Raise e ->
  let s' := fst (move_axis a target relative speed s) in
  (e = HardwareError /\ _connected s = false /\ s' = s) \/
  (e = ServoError /\ _connected s = true /\ _servo_enabled s a = false /\ s' = s) \/
  (e = MovementError /\ _connected s = true /\ _servo_enabled s a = true /\
   PyFloat.gtb
     (PyFloat.abs (if relative then PyFloat.add (_positions s a) target else target))
     500000 = true /\
   _connected s' = _connected s /\
   _positions s' = _positions s /\
   _servo_enabled s' = _servo_enabled s /\
   _is_homed s' = _is_homed s /\
   (forall b, b <> a -> same_axis_state s s' b) /\
   live_task s' a = false /\
   (live_task s a = false -> s' = s) /\
   (flag_tracks_body s -> _is_moving s' a = false)).
Proof.
  unfold move_axis.
  destruct (_connected s) eqn:C; cbn [negb].
  2:{ intros E. left. cbn in *. inversion E. auto. }
  destruct (_servo_enabled s a) eqn:Sv; cbn [negb].
  2:{ intros E. right. left. cbn in *. inversion E. auto. }
  set (s1 := if live_task s a then cancel_and_await a s else s).
  assert (K : _connected s1 = _connected s /\ _positions s1 = _positions s /\
              _servo_enabled s1 = _servo_enabled s /\ _is_homed s1 = _is_homed s /\
              _default_speed s1 = _default_speed s).
  { subst s1. destruct (live_task s a); [apply cancel_and_await_keeps | auto 6]. }
  destruct K as (Kc & Kp & Ks & Kh & Kv). rewrite Kp.
  destruct (PyFloat.gtb _ _) eqn:Far; [|discriminate].
  intros E. right. right. cbn [fst snd] in *. inversion E; subst e.
  do 3 (split; [reflexivity|]). split; [reflexivity|].
  split; [congruence|]. split; [exact Kp|]. split; [exact Ks|]. split; [exact Kh|].
  assert (L1 : live_task s1 a = false).
  { subst s1. destruct (live_task s a) eqn:L; auto using cancel_and_await_not_live. }
  split; [|split; [exact L1|split]].
  - intros b N. subst s1. destruct (live_task s a).
    + apply cancel_and_await_other_axes, N.
    + unfold same_axis_state. auto 6.
  - intros L. subst s1. rewrite L. reflexivity.
  - intros F.
    assert (F1 : flag_tracks_body s1)
      by (subst s1; destruct (live_task s a); auto using cancel_and_await_flag).
    rewrite (F1 a). apply not_live_not_started, L1.
Qed.

Lemma move_axis_failure_effects_witness :
  let s := run [Connect; EnableServo X1] init in
  snd (move_axis X1 600000 false None s) = Raise MovementError /\
  fst (move_axis X1 600000 false None s) = s.
Proof.
  cbv zeta.
  assert (E : snd (move_axis X1 600000 false None (run [Connect; EnableServo X1] init))
              = Raise MovementError) by (vm_compute; reflexivity).
  split; [exact E|].
  destruct (@move_axis_failure_effects _ _ _ _ _ _ E)
    as [(D & _) | [(D & _) | (_ & _ & _ & _ & _ & _ & _ & _ & _ & _ & Same & _)]];
    try discriminate D.
  apply Same. vm_compute. reflexivity.
Defined.

(** C3 (counterexample).  X1 is in the middle of a move to 1000 um when a
    move to 600000 um is requested: the request fails on the travel bound,
    yet the running task has been cancelled and the moving flag cleared. *)
Lemma out_of_bounds_move_cancels_running_task :
  let s := run [Connect; EnableServo X1; MoveAxis X1 1000 false None; TaskStep X1] init in
  let r := move_axis X1 600000 false None s in
  snd r = Raise MovementError /\
  _is_moving s X1 = true /\ live_task s X1 = true /\
  _is_moving (fst r) X1 = false /\ live_task (fst r) X1 = false /\
  ~ same_axis_state s (fst r) X1.
Proof.
  cbv zeta. split_conj; try (vm_compute; reflexivity).
  intros (_ & _ & _ & Mv & _). vm_compute in Mv. discriminate Mv.
Qed.

End RejectedMove.

(** ** Homing *)

Section MockHoming.

Import Mock.

(** A wait that ends without timing out has seen the task store its target. *)
Lemma wait_for_completed (a : AxisId) (budget : nat) :
  forall (s s' : MockBackend) (t : MotionTask),
    _motion_tasks s a = Some t -> task_done t = false ->
    wait_for budget a s = (s', Finished) ->
    _positions s' a = t_target t /\ _is_moving s' a = false /\ _motion_tasks s' a = None.
Proof.
  induction budget as [|n IH]; intros s s' t T L W; cbn [wait_for] in W;
    unfold live_task in W; rewrite T, L in W; cbn [negb] in W; [discriminate|].
  unfold task_step in W. rewrite T in W. unfold task_done in L.
  destruct (t_phase t) eqn:Ph; try discriminate.
  - destruct (motion_steps _ _ _) as [steps|e].
    + refine (IH _ s' (mkTask (t_start t) (t_target t) (t_speed t) (Sleeping steps 0))
                 _ eq_refl W).
      unfold_setters. rewrite upd_same. reflexivity.
    + exfalso.
      assert (E : wait_for n a (set_phase a t (Failed e) s)
                  = (set_phase a t (Failed e) s, Died e)).
      { destruct n; cbn [wait_for]; unfold live_task, task_outcome; unfold_setters;
          rewrite upd_same; reflexivity. }
      rewrite E in W. discriminate W.
  - destruct (Z.of_nat i <? _)%Z.
    + refine (IH _ s' (mkTask (t_start t) (t_target t) (t_speed t) (Sleeping steps (S i)))
                 _ eq_refl W).
      unfold_setters. rewrite upd_same. reflexivity.
    + assert (E : wait_for n a (finally_block a (set_position a (t_target t) s))
                  = (finally_block a (set_position a (t_target t) s), Finished)).
      { destruct n; cbn [wait_for]; unfold live_task, task_outcome; unfold_setters;
          rewrite upd_same; reflexivity. }
      rewrite E in W. inversion W. unfold_setters. rewrite !upd_same. auto.
Qed.

Lemma home_axis_is_move_then_wait (a : AxisId) (budget : nat) (s : MockBackend) :
  home_axis a budget s =
  (move_axis a 0 false None ;;
   wait_for_motion_complete a budget ;;
   (fun s' => (set_homed a true s', Ok tt)))%coro s.
Proof.
  unfold home_axis, bind, move_axis.
  destruct (negb (_connected s)); [reflexivity|].
  destruct (negb (_servo_enabled s a)); reflexivity.
Qed.

Lemma home_axis_servo_off (a : AxisId) (budget : nat) (s : MockBackend) :
  _connected s = true -> _servo_enabled s a = false ->
  home_axis a budget s = (s, Raise ServoError) /\
  move_axis a 0 false None s = (s, Raise ServoError).
Proof.
  intros C Sv. unfold home_axis, move_axis. rewrite C, Sv. auto.
Qed.

Lemma home_axis_success (a : AxisId) (budget : nat) (s : MockBackend) :
  snd (home_axis a budget s) = Ok tt ->
  let s' := fst (home_axis a budget s) in
  _is_homed s' a = true /\ _positions s' a = 0 /\ _is_moving s' a = false /\
  live_task s' a = false.
Proof.
  rewrite home_axis_is_move_then_wait. unfold bind.
  destruct (move_axis a 0 false None s) as [s0 [[]|e]] eqn:Mv; [|discriminate].
  assert (Acc : snd (move_axis a 0 false None s) = Ok tt) by (rewrite Mv; reflexivity).
  destruct (@move_axis_accepted s a 0 false None Acc) as [T _].
  rewrite Mv in T. cbn [fst] in T.
  unfold wait_for_motion_complete.
  destruct (negb (_connected s0)); [discriminate|].
  assert (Lv : live_task s0 a = true) by (unfold live_task; rewrite T; reflexivity).
  rewrite Lv. cbn [negb].
  destruct (wait_for budget a s0) as [s1 [| |]] eqn:W; [|discriminate..].
  intros _. cbn [fst snd].
  destruct (@wait_for_completed a budget _ _ _ T eq_refl W) as (P & F & N).
  cbn in P. unfold live_task. unfold_setters. rewrite upd_same, N. auto.
Qed.

End MockHoming.

Section RealHoming.

Variable D : Type.
Variable drv : Driver D.

Lemma real_home_axis_outcome (a : AxisId) (budget : nat) (r : Real.RealBackend D) :
  (snd (Real.home_axis drv a budget r) = Ok tt /\
   Real._is_homed (fst (Real.home_axis drv a budget r)) a = true) \/
  snd (Real.home_axis drv a budget r) = Raise MovementError.
Proof.
  unfold Real.home_axis, Real.wrap_as, bind.
  destruct (Real.move_axis drv a 0 false None r) as [r1 [[]|e]]; [|right; reflexivity].
  destruct (Real.wait_for_motion_complete drv a budget r1) as [r2 [[]|e]];
    [|right; reflexivity].
  left. cbn. rewrite upd_same. auto.
Qed.

Lemma real_home_axis_wraps (a : AxisId) (budget : nat) (r : Real.RealBackend D) (e : exn) :
  snd (Real.move_axis drv a 0 false None r) = Raise e ->
  snd (Real.home_axis drv a budget r) = Raise MovementError.
Proof.
  unfold Real.home_axis, Real.wrap_as, bind.
  destruct (Real.move_axis drv a 0 false None r) as [r1 [[]|e']]; [discriminate|reflexivity].
Qed.

End RealHoming.

(** C6 (as amended).  On the simulated engine [home_axis] is
    [move_axis(axis, 0, absolute)] followed by [wait_for_motion_complete] and
    the setting of the homed flag; with the servo off it fails with
    [ServoError] exactly as [move_axis] does, and when it succeeds the axis
    is homed, at position 0 and not moving.  On the hardware-bound engine it
    is the same composition inside a handler that turns every failure into
    [MovementError]: a success sets the homed flag, and any failure of the
    move, a disabled servo included, is reported as [MovementError]. *)
Theorem home_axis_behaviour (D : Type) (drv : Driver D) (a : AxisId) (budget : nat)
        (m : Mock.MockBackend) (r : Real.RealBackend D) :
  Mock.home_axis a budget m =
    (Mock.move_axis a 0 false None ;;
     Mock.wait_for_motion_complete a budget ;;
     (fun s' => (Mock.set_homed a true s', Ok tt)))%coro m /\
  (Mock._connected m = true -> Mock._servo_enabled m a = false ->
   Mock.home_axis a budget m = (m, Raise ServoError) /\
   Mock.move_axis a 0 false None m = (m, Raise ServoError)) /\
  (snd (Mock.home_axis a budget m) = Ok tt ->
   let m' := fst (Mock.home_axis a budget m) in
   Mock._is_homed m' a = true /\ Mock._positions m' a = 0 /\
   Mock._is_moving m' a = false) /\
  Real.home_axis drv a budget r =
    Real.wrap_as MovementError
      (Real.move_axis drv a 0 false None ;;
       Real.wait_for_motion_complete drv a budget ;;
       (fun s => (Real.set_homed a true s, Ok tt)))%coro r /\
  (snd (Real.home_axis drv a budget r) = Ok tt ->
   Real._is_homed (fst (Real.home_axis drv a budget r)) a = true) /\
  (forall e, snd (Real.home_axis drv a budget r) = Raise e -> e = MovementError) /\
  (forall e, snd (Real.move_axis drv a 0 false None r) = Raise e ->
   snd (Real.home_axis drv a budget r) = Raise MovementError).
Proof.
  split; [apply home_axis_is_move_then_wait|].
  split; [apply home_axis_servo_off|].
  split; [intros H; destruct (@home_axis_success a budget m H) as (? & ? & ? & _); auto|].
  split; [reflexivity|].
  pose proof (real_home_axis_outcome drv a budget r) as O.
  split; [|split].
  - intros H. destruct O as [[_ Hm] | O]; [exact Hm | congruence].
  - intros e H. destruct O as [[O _] | O]; congruence.
  - intros e. apply real_home_axis_wraps.
Qed.

Lemma home_axis_behaviour_witness :
  let m := Mock.run [Mock.Connect; Mock.EnableServo X1;
                     Mock.MoveAxis X1 300 false None; Mock.TaskStep X1] Mock.init in
  let r := fst (Real.disable_servo Rig.driver X1
                  (fst (Real.connect Rig.driver (Real.init Rig.healthy)))) in
  (Mock._is_homed (fst (Mock.home_axis X1 9 m)) X1 = true /\
   Mock._positions (fst (Mock.home_axis X1 9 m)) X1 = 0) /\
  Mock.home_axis X1 9 Mock.init = (Mock.init, Raise HardwareError) /\
  snd (Real.home_axis Rig.driver X1 9 r) = Raise MovementError.
Proof.
  cbv zeta.
  destruct (home_axis_behaviour Rig.driver X1 9
              (Mock.run [Mock.Connect; Mock.EnableServo X1;
                         Mock.MoveAxis X1 300 false None; Mock.TaskStep X1] Mock.init)
              (fst (Real.disable_servo Rig.driver X1
                      (fst (Real.connect Rig.driver (Real.init Rig.healthy))))))
    as (_ & _ & Hs & _ & _ & _ & Hw).
  split; [|split].
  - destruct Hs as (Hh & Hp & _); [vm_compute; reflexivity|]. split; assumption.
  - vm_compute. reflexivity.
  - apply (Hw ServoError). vm_compute. reflexivity.
Defined.

(** C6 (counterexample).  On the hardware-bound engine, with the servo of X1
    off, [move_axis] fails with [ServoError] but [home_axis] fails with
    [MovementError]. *)
Lemma real_home_axis_reports_movement_error :
  let r := fst (Real.disable_servo Rig.driver X1
                  (fst (Real.connect Rig.driver (Real.init Rig.healthy)))) in
  Real._connected r = true /\
  snd (Real.is_servo_enabled Rig.driver X1 r) = Ok false /\
  snd (Real.move_axis Rig.driver X1 0 false None r) = Raise ServoError /\
  snd (Real.home_axis Rig.driver X1 9 r) = Raise MovementError /\
  snd (Real.home_axis Rig.driver X1 9 r) <> Raise ServoError.
Proof.
  cbv zeta. split_conj; try (vm_compute; reflexivity).
  vm_compute. discriminate.
Qed.

(** ** Emergency stop on the hardware-bound engine *)

Section RealEmergencyStop.

Variable D : Type.
Variable drv : Driver D.

(** It never raises, whatever the vendor calls do. *)
Lemma real_emergency_stop_returns (r : Real.RealBackend D) :
  snd (Real.emergency_stop drv r) = Ok tt.
Proof.
  unfold Real.emergency_stop. destruct (negb (Real._connected r)); reflexivity.
Qed.

Lemma servo_queries_app (l1 l2 : list drv_call) :
  servo_queries (l1 ++ l2) = servo_queries l1 ++ servo_queries l2.
Proof. unfold servo_queries. apply flat_map_app. Qed.

Lemma stop_component_traced (n : Z) (r : Real.RealBackend (D * list drv_call)) :
  let r' := Real.stop_component (traced drv) n r in
  Real._connected r' = Real._connected r /\
  Real._axis_components r' = Real._axis_components r /\
  servo_queries (snd (Real.hw r')) = servo_queries (snd (Real.hw r)) ++ [n].
Proof.
  cbv zeta. unfold Real.stop_component, Real.vendor. cbn [IsServoOn TurnOffServo traced].
  unfold record_call.
  destruct (IsServoOn drv n (fst (Real.hw r))) as [d1 [[|]|]]; cbn;
    try destruct (TurnOffServo drv n d1) as [d2 [[]|]]; cbn;
    rewrite ?servo_queries_app; cbn; rewrite ?app_nil_r; auto.
Qed.

Lemma stop_components_traced (l : list Z) :
  forall r : Real.RealBackend (D * list drv_call),
    servo_queries
      (snd (Real.hw (fold_left (fun acc n => Real.stop_component (traced drv) n acc) l r)))
    = servo_queries (snd (Real.hw r)) ++ l.
Proof.
  induction l as [|n l IH]; intros r; cbn [fold_left].
  - rewrite app_nil_r. reflexivity.
  - rewrite IH. destruct (stop_component_traced n r) as (_ & _ & Qs).
    rewrite Qs, <- app_assoc. reflexivity.
Qed.

(** Every component is asked for its servo state, in dictionary order, even
    when the calls on earlier components raised. *)
Lemma real_emergency_stop_queries_every_component
      (r : Real.RealBackend (D * list drv_call)) :
  Real._connected r = true ->
  servo_queries (snd (Real.hw (fst (Real.emergency_stop (traced drv) r))))
  = servo_queries (snd (Real.hw r)) ++ Real._axis_components r.
Proof.
  intros C. unfold Real.emergency_stop. rewrite C. cbn [negb fst].
  apply stop_components_traced.
Qed.

End RealEmergencyStop.

(** A controller on which the servo query of axes 3 and 4 raises: all
    twelve components are still queried and the call returns. *)
Example emergency_stop_with_faulty_axes :
  let world := (Rig.mkRig [1; 2; 3; 4; 5]%Z false [3; 4]%Z, @nil drv_call) in
  let r := Real.mkReal true Real.twelve (fun _ => false) world in
  let out := Real.emergency_stop (traced Rig.driver) r in
  snd out = Ok tt /\
  servo_queries (snd (Real.hw (fst out))) = Real.twelve /\
  Rig.servo_on (fst (Real.hw (fst out))) = [3; 4]%Z.
Proof. by_evaluation. Qed.

(** ** Emergency stop without a connection *)

Section MockDisconnected.

Import Mock.

Lemma stop_axis_commutes_with_connection (b : bool) (s : MockBackend) (a : AxisId) :
  stop_axis (set_connected b s) a = set_connected b (stop_axis s a).
Proof.
  unfold stop_axis, live_task, cancel_and_await. cbn [set_connected _is_moving _motion_tasks].
  destruct (_is_moving s a); [|reflexivity].
  destruct (_motion_tasks s a) as [t|]; [|reflexivity].
  destruct (t_phase t) eqn:Ph; unfold task_done; rewrite Ph; cbn [negb]; reflexivity.
Qed.

Lemma stop_axes_commute_with_connection (b : bool) (l : list AxisId) :
  forall s, fold_left stop_axis l (set_connected b s)
            = set_connected b (fold_left stop_axis l s).
Proof.
  induction l as [|a l IH]; intros s; cbn [fold_left]; [reflexivity|].
  rewrite stop_axis_commutes_with_connection. apply IH.
Qed.

Lemma stop_axis_keeps_connection (s : MockBackend) (a : AxisId) :
  _connected (stop_axis s a) = _connected s.
Proof.
  unfold stop_axis. destruct (_is_moving s a); [|reflexivity].
  destruct (live_task s a); [|reflexivity]. apply cancel_and_await_keeps.
Qed.

End MockDisconnected.

(** ** The daemon lifecycle *)

Section DaemonStart.

Variable D : Type.
Variable drv : Driver D.

Lemma DaemonState_eqb_eq (x y : DaemonState) :
  Daemon.DaemonState_eqb x y = true <-> x = y.
Proof. destruct x, y; cbn; split; congruence. Qed.

Lemma start_when_not_stopped (world : D) (d : Daemon.EW51Daemon D) :
  Daemon._state d <> STOPPED -> Daemon.start drv world d = (d, Ok tt).
Proof.
  intros N. unfold Daemon.start.
  destruct (Daemon.DaemonState_eqb (Daemon._state d) STOPPED) eqn:E; [|reflexivity].
  apply DaemonState_eqb_eq in E. contradiction.
Qed.

(** C7.  [start()] called in any state other than [STOPPED] returns normally
    and leaves the daemon as it was.  Called in [STOPPED] it first assigns
    [STARTING]; when the chosen engine connects it then assigns [READY] and
    returns, and when the connection raises anything it assigns [ERROR] and
    raises [ConnectionError]; a later [start()] then finds the daemon in
    [ERROR] and changes nothing.  The simulated engine always connects. *)
Theorem daemon_start_transitions (world : D) (d : Daemon.EW51Daemon D) :
  (Daemon._state d <> STOPPED -> Daemon.start drv world d = (d, Ok tt)) /\
  (Daemon._state d = STOPPED ->
   let fresh := if Daemon._use_mock d then MockB Mock.init
                else RealB (Real.init world) in
   let d' := fst (Daemon.start drv world d) in
   let out := snd (Daemon.start drv world d) in
   (snd (b_connect drv fresh) = Ok tt ->
    out = Ok tt /\ Daemon._state d' = READY /\
    Daemon.history d' = Daemon.history d ++ [STARTING; READY]) /\
   (forall e, snd (b_connect drv fresh) = Raise e ->
    out = Raise ConnectionError /\ Daemon._state d' = ERROR /\
    Daemon.history d' = Daemon.history d ++ [STARTING; ERROR] /\
    forall world', Daemon.start drv world' d' = (d', Ok tt)) /\
   (Daemon._use_mock d = true -> out = Ok tt /\ Daemon._state d' = READY)).
Proof.
  split; [apply start_when_not_stopped|].
  intros St. cbv zeta. unfold Daemon.start. rewrite St.
  cbn [Daemon.DaemonState_eqb negb Daemon.set_state Daemon.set_backend
       Daemon._use_mock Daemon._state Daemon._backend Daemon.history].
  split; [|split].
  - intros C.
    destruct (b_connect drv _) as [b' [[]|e]]; [|discriminate C].
    cbn. rewrite <- app_assoc. auto.
  - intros e C.
    destruct (b_connect drv _) as [b' [[]|e']]; [discriminate C|].
    cbn. rewrite <- app_assoc. repeat split. 
  - intros Mk. rewrite Mk. cbn. auto.
Qed.

End DaemonStart.

Lemma daemon_start_transitions_witness :
  let cold := Daemon.init unit false in
  let failed := fst (Daemon.start Rig.unreachable tt cold) in
  (snd (Daemon.start Rig.unreachable tt cold) = Raise ConnectionError /\
   Daemon._state failed = ERROR /\
   Daemon.history failed = [STARTING; ERROR] /\
   Daemon.start Rig.unreachable tt failed = (failed, Ok tt)) /\
  (Daemon._state (fst (Daemon.start Rig.driver Rig.healthy (Daemon.init Rig.rig true)))
   = READY).
Proof.
  cbv zeta.
  destruct (daemon_start_transitions Rig.unreachable tt (Daemon.init unit false))
    as [Noop Cold].
  destruct (Cold eq_refl) as (_ & Fail & _).
  destruct (Fail ConnectionError) as (R & S & H & Stay); [vm_compute; reflexivity|].
  split.
  - split; [exact R|]. split; [exact S|]. split; [exact H|]. apply Stay.
  - destruct (daemon_start_transitions Rig.driver Rig.healthy (Daemon.init Rig.rig true))
      as [_ Cold'].
    destruct (Cold' eq_refl) as (_ & _ & Mk). apply Mk. reflexivity.
Defined.

(** ** Waiting for an alignment *)

Section AlignmentWait.

Import Alignment.
Local Open Scope string_scope.

Variable W : Type.
Variable env : Env W.







End AlignmentWait.


(** ** Multi-axis moves *)

Section MultiAxis.

Import Movement.

Variable B : Type.
Variable ops : BackendOps B.

(** *** First loop *)

Lemma start_all_logged (reqs : list MovementRequest) :
  forall (b : B) (log : list call) (st : MovementStatus),
    start_all (logged ops) reqs (b, log) st =
    ((fst (start_all ops reqs b st), log ++ map move_call_of reqs),
     snd (start_all ops reqs b st)).
Proof.
  unfold start_all.
  induction reqs as [|r reqs IH]; intros b log st; cbn [fold_left map].
  - rewrite app_nil_r. reflexivity.
  - unfold start_one at 2 4 6. cbn [fst snd logged op_move_axis]. unfold logging.
    cbn [fst snd].
    destruct (op_move_axis ops (axis r) (target r) (relative r) (speed r) b)
      as [b' [[]|e]]; cbn [fst snd]; rewrite IH, <- app_assoc; reflexivity.
Qed.

Lemma start_all_status (reqs : list MovementRequest) :
  forall (b : B) (st : MovementStatus),
    snd (start_all ops reqs b st) =
    if any_move_fails ops reqs b then MS_ERROR else
      st.
Proof.
  unfold start_all.
  induction reqs as [|r reqs IH]; intros b st; cbn [fold_left any_move_fails].
  - reflexivity.
  - unfold start_one at 2. cbn [fst snd].
    destruct (op_move_axis ops (axis r) (target r) (relative r) (speed r) b)
      as [b' [[]|e]]; cbn [is_ok negb orb]; rewrite IH; [reflexivity|].
    destruct (any_move_fails ops reqs b'); reflexivity.
Qed.

(** *** Second loop, waiting *)

Lemma wait_one_logged (r : MovementRequest) (b : B) (log : list call) :
  exists tr,
    (tr = [WaitCall (axis r); ReadCall (axis r)] \/
     tr = [WaitCall (axis r); ReadCall (axis r); ReadCall (axis r)]) /\
    wait_one (logged ops) r (b, log) =
    ((fst (wait_one ops r b), log ++ tr), snd (wait_one ops r b)).
Proof.
  unfold wait_one, bind, ret. cbn [logged op_wait_for_motion_complete op_get_axis_position].
  unfold logging. cbn [fst snd].
  destruct (op_wait_for_motion_complete ops (axis r) b) as [b1 [[]|e]]; cbn [fst snd].
  - destruct (op_get_axis_position ops (axis r) b1) as [b2 [p|e]]; cbn [fst snd].
    + eexists; split; [left; reflexivity|]. rewrite <- app_assoc. reflexivity.
    + destruct (op_get_axis_position ops (axis r) b2) as [b3 [p|e']]; cbn [fst snd];
        (eexists; split; [right; reflexivity|]); rewrite <- !app_assoc; reflexivity.
  - destruct (op_get_axis_position ops (axis r) b1) as [b2 [p|e']]; cbn [fst snd];
      (eexists; split; [left; reflexivity|]); rewrite <- !app_assoc; reflexivity.
Qed.

Lemma wait_one_response (r : MovementRequest) (b b' : B)
      (resp : MovementResponse) (failed : bool) :
  wait_one ops r b = (b', Ok (resp, failed)) ->
  r_axis resp = axis r /\
  status resp = (if failed then MS_ERROR else MS_COMPLETED).
Proof.
  unfold wait_one, bind, ret.
  destruct (op_wait_for_motion_complete ops (axis r) b) as [b1 [[]|e]].
  - destruct (op_get_axis_position ops (axis r) b1) as [b2 [p|e]].
    + intros E. inversion E. auto.
    + destruct (op_get_axis_position ops (axis r) b2) as [b3 [p|e']];
        intros E; inversion E; auto.
  - destruct (op_get_axis_position ops (axis r) b1) as [b2 [p|e']];
      intros E; inversion E; auto.
Qed.

Lemma wait_each_logged (reqs : list MovementRequest) :
  forall (b : B) (log : list call) (acc : list MovementResponse) (st : MovementStatus),
  exists tr,
    wait_each (logged ops) reqs (b, log) acc st =
    ((fst (wait_each ops reqs b acc st), log ++ tr), snd (wait_each ops reqs b acc st)) /\
    forallb no_move tr = true /\
    (is_ok (snd (wait_each ops reqs b acc st)) = true -> wait_trace reqs tr) /\
    (is_ok (snd (wait_each ops reqs b acc st)) = false ->
     exists pre a, tr = pre ++ [ReadCall a]).
Proof.
  induction reqs as [|r reqs IH]; intros b log acc st; cbn [wait_each].
  - exists []. rewrite app_nil_r. cbn. repeat split; try constructor; discriminate.
  - destruct (wait_one_logged r b log) as (tr1 & Shape & E1). rewrite E1.
    assert (N1 : forallb no_move tr1 = true) by (destruct Shape; subst tr1; reflexivity).
    destruct (wait_one ops r b) as [b' [[resp failed]|e]]; cbn [fst snd].
    + destruct (IH b' (log ++ tr1) (acc ++ [resp]) (if failed then MS_ERROR else st))
        as (tr2 & E2 & N2 & Fin & Esc).
      exists (tr1 ++ tr2). rewrite E2, app_assoc.
      split; [reflexivity|]. split; [rewrite forallb_app, N1, N2; reflexivity|]. split.
      * intros K. specialize (Fin K).
        destruct Shape; subst tr1; cbn [app]; constructor; exact Fin.
      * intros K. destruct (Esc K) as (pre & a & ->).
        exists (tr1 ++ pre), a. rewrite app_assoc. reflexivity.
    + exists tr1. split; [reflexivity|]. split; [exact N1|]. split; [discriminate|].
      intros _. destruct Shape; subst tr1.
      * exists [WaitCall (axis r)], (axis r). reflexivity.
      * exists [WaitCall (axis r); ReadCall (axis r)], (axis r). reflexivity.
Qed.

Lemma wait_each_result (reqs : list MovementRequest) :
  forall (b b' : B) (acc resps : list MovementResponse) (st st' : MovementStatus),
    wait_each ops reqs b acc st = (b', Ok (resps, st')) ->
    exists new,
      resps = acc ++ new /\
      map r_axis new = map axis reqs /\
      Forall (fun x => status x = MS_COMPLETED \/ status x = MS_ERROR) new /\
      st' = (if existsb is_error new then MS_ERROR else st).
Proof.
  induction reqs as [|r reqs IH]; intros b b' acc resps st st'; cbn [wait_each].
  - intros E. inversion E. exists []. rewrite app_nil_r. cbn. auto.
  - destruct (wait_one ops r b) as [b1 [[resp failed]|e]] eqn:W; [|discriminate].
    intros E. apply IH in E. destruct E as (new & -> & Ax & St & Ov).
    destruct (wait_one_response _ _ W) as (A1 & S1).
    exists (resp :: new). rewrite <- app_assoc. cbn [app map existsb].
    split; [reflexivity|]. split; [congruence|]. split.
    + constructor; [destruct failed; auto | exact St].
    + unfold is_error at 1. rewrite S1. subst st'.
      destruct failed; cbn [orb]; [|reflexivity].
      destruct (existsb is_error new); reflexivity.
Qed.

(** *** Second loop, not waiting *)

Lemma read_each_logged (reqs : list MovementRequest) :
  forall (b : B) (log : list call) (acc : list MovementResponse),
  exists tr,
    read_each (logged ops) reqs (b, log) acc =
    ((fst (read_each ops reqs b acc), log ++ tr), snd (read_each ops reqs b acc)) /\
    forallb no_move tr = true /\
    (is_ok (snd (read_each ops reqs b acc)) = true ->
     tr = map (fun r => ReadCall (axis r)) reqs) /\
    (is_ok (snd (read_each ops reqs b acc)) = false ->
     exists pre a, tr = pre ++ [ReadCall a]).
Proof.
  induction reqs as [|r reqs IH]; intros b log acc; cbn [read_each map].
  - exists []. rewrite app_nil_r. cbn. repeat split; discriminate.
  - cbn [logged op_get_axis_position]. unfold logging. cbn [fst snd].
    destruct (op_get_axis_position ops (axis r) b) as [b' [p|e]]; cbn [fst snd].
    + destruct (IH b' (log ++ [ReadCall (axis r)])
                   (acc ++ [mkResponse (axis r) MS_MOVING p (target r) None]))
        as (tr2 & E2 & N2 & Fin & Esc).
      exists (ReadCall (axis r) :: tr2). rewrite E2, <- app_assoc.
      split; [reflexivity|]. split; [exact N2|]. split.
      * intros K. rewrite (Fin K). reflexivity.
      * intros K. destruct (Esc K) as (pre & a & ->).
        exists (ReadCall (axis r) :: pre), a. reflexivity.
    + exists [ReadCall (axis r)]. split; [reflexivity|]. split; [reflexivity|].
      split; [discriminate|]. intros _. exists [], (axis r). reflexivity.
Qed.

Lemma read_each_result (reqs : list MovementRequest) :
  forall (b b' : B) (acc resps : list MovementResponse),
    read_each ops reqs b acc = (b', Ok resps) ->
    exists new,
      resps = acc ++ new /\
      map r_axis new = map axis reqs /\
      Forall (fun x => status x = MS_MOVING) new.
Proof.
  induction reqs as [|r reqs IH]; intros b b' acc resps; cbn [read_each].
  - intros E. inversion E. exists []. rewrite app_nil_r. cbn. auto.
  - destruct (op_get_axis_position ops (axis r) b) as [b1 [p|e]]; [|discriminate].
    intros E. apply IH in E. destruct E as (new & -> & Ax & St).
    eexists (_ :: new). rewrite <- app_assoc. cbn [app map].
    split; [reflexivity|]. split; [cbn [map r_axis]; rewrite Ax; reflexivity|].
    constructor; [reflexivity | exact St].
Qed.

(** What the orchestration does guarantee (the part of C8 that holds).
    The [move_axis] calls are issued first, one per
    request and in request order, whatever any of them does.  Then, when
    waiting was requested, each request in turn gets its wait and its
    position read-back (read again by the handler when the guarded block
    raised), and otherwise each request gets one read-back.  A read-back
    made outside the guarded block that raises ends the call there with that
    exception and no response; this is the only way the call can raise.
    When a response is returned it holds one result per request, in request
    order, and its overall status is [ERROR] exactly when some [move_axis]
    call raised or some per-axis result is an error, and [COMPLETED]
    otherwise.  Recording the calls does not change what the route does. *)
Theorem move_multiple_axes_orchestration (request : MultiAxisMovementRequest) (b : B) :
  let reqs := movements request in
  let run := move_multiple_axes (logged ops) request (b, []) in
  let log := snd (fst run) in
  (fst (fst run), snd run) = move_multiple_axes ops request b /\
  (exists rest,
      log = map move_call_of reqs ++ rest /\
      forallb no_move rest = true /\
      (is_ok (snd run) = true ->
       if wait_all request then wait_trace reqs rest
       else rest = map (fun r => ReadCall (axis r)) reqs) /\
      (is_ok (snd run) = false -> exists pre a, rest = pre ++ [ReadCall a])) /\
  (forall resp, snd run = Ok resp ->
     map r_axis (r_movements resp) = map axis reqs /\
     Forall (fun x => if wait_all request
                      then status x = MS_COMPLETED \/ status x = MS_ERROR
                      else status x = MS_MOVING) (r_movements resp) /\
     (overall_status resp = MS_ERROR <->
      any_move_fails ops reqs b = true \/ existsb is_error (r_movements resp) = true) /\
     (overall_status resp <> MS_ERROR -> overall_status resp = MS_COMPLETED)).
Proof.
  cbv zeta. unfold move_multiple_axes.
  rewrite start_all_logged. cbn [app].
  pose proof (start_all_status (movements request) b MS_COMPLETED) as Ov.
  destruct (start_all ops (movements request) b MS_COMPLETED) as [b1 overall].
  cbn [fst snd] in *.
  destruct (wait_all request).
  - destruct (wait_each_logged (movements request) b1
                (map move_call_of (movements request)) [] overall)
      as (tr & E & N & Fin & Esc).
    rewrite E.
    destruct (wait_each ops (movements request) b1 [] overall)
      as [b2 [[resps overall']|e]] eqn:W; cbn [fst snd] in *.
    + split; [reflexivity|]. split.
      * exists tr. split; [reflexivity|]. split; [exact N|].
        split; [intros _; apply Fin; reflexivity | intros K; discriminate K].
      * intros resp R. inversion R; subst resp. cbn [r_movements overall_status].
        destruct (wait_each_result _ _ _ _ W) as (new & -> & Ax & St & ->).
        cbn [app]. split; [exact Ax|]. split; [exact St|].
        rewrite Ov.
        destruct (existsb is_error new); destruct (any_move_fails ops (movements request) b);
          intuition congruence.
    + split; [reflexivity|]. split.
      * exists tr. split; [reflexivity|]. split; [exact N|].
        split; [intros K; discriminate K | intros _; apply Esc; reflexivity].
      * intros resp R. discriminate R.
  - destruct (read_each_logged (movements request) b1
                (map move_call_of (movements request)) [])
      as (tr & E & N & Fin & Esc).
    rewrite E.
    destruct (read_each ops (movements request) b1 []) as [b2 [resps|e]] eqn:W;
      cbn [fst snd] in *.
    + split; [reflexivity|]. split.
      * exists tr. split; [reflexivity|]. split; [exact N|].
        split; [intros _; apply Fin; reflexivity | intros K; discriminate K].
      * intros resp R. inversion R; subst resp. cbn [r_movements overall_status].
        destruct (read_each_result _ _ _ W) as (new & -> & Ax & St).
        cbn [app]. split; [exact Ax|]. split; [exact St|].
        assert (NoErr : existsb is_error new = false).
        { clear - St. induction St as [|x l Hx _ IH]; [reflexivity|].
          cbn [existsb]. unfold is_error at 1. rewrite Hx, IH. reflexivity. }
        rewrite Ov, NoErr.
        destruct (any_move_fails ops (movements request) b);
          intuition congruence.
    + split; [reflexivity|]. split.
      * exists tr. split; [reflexivity|]. split; [exact N|].
        split; [intros K; discriminate K | intros _; apply Esc; reflexivity].
      * intros resp R. discriminate R.
Qed.

End MultiAxis.

Section MultiAxisExamples.

Import Movement.

Lemma move_multiple_axes_orchestration_witness :
  let daemon := fst (Daemon.start Rig.driver Rig.healthy (Daemon.init Rig.rig true)) in
  exists d resp,
    move_multiple_axes (daemon_ops Rig.driver 5) (Rig.two_moves true) daemon = (d, Ok resp) /\
    map r_axis (r_movements resp) = [X1; Y1] /\
    overall_status resp = MS_ERROR.
Proof.
  cbv zeta.
  destruct (move_multiple_axes_orchestration (daemon_ops Rig.driver 5) (Rig.two_moves true)
              (fst (Daemon.start Rig.driver Rig.healthy (Daemon.init Rig.rig true))))
    as (Same & _ & Res).
  destruct (move_multiple_axes (logged (daemon_ops Rig.driver 5)) (Rig.two_moves true) _)
    as [[d log] [resp|e]] eqn:Run; cbn [fst snd] in *.
  - exists d, resp. destruct (Res resp eq_refl) as (Ax & _ & Ov & _).
    split; [symmetry; exact Same|]. split; [exact Ax|].
    apply Ov. left. vm_compute. reflexivity.
  - exfalso. vm_compute in Run. discriminate Run.
Defined.

(** C8.  The waiting loop guards the wait and the read-back of each axis,
    but its handler reads the position again outside any [try].  On a
    started daemon whose controller fails position reads, both moves are
    issued and the wait for X1 returns, the read-back of X1 raises in the
    guarded block and again in the handler: the call ends with the raw
    [HardwareError] (not the [HTTPException] of the docstring), no per-axis
    result is built, and Y1 is never waited for. *)
Lemma multi_axis_move_aborted_by_read_back :
  let world := Rig.mkRig [] true [] in
  let daemon := fst (Daemon.start Rig.driver world (Daemon.init Rig.rig false)) in
  let run := move_multiple_axes (logged (daemon_ops Rig.driver 5)) (Rig.two_moves true)
                                (daemon, []) in
  Daemon._state daemon = READY /\
  snd run = Raise HardwareError /\
  snd (fst run) = [MoveCall X1 100 false None; MoveCall Y1 100 false None;
                   WaitCall X1; ReadCall X1; ReadCall X1] /\
  ~ (exists resp, snd run = Ok resp).
Proof.
  cbv zeta. split_conj; try (vm_compute; reflexivity).
  intros [resp R]. vm_compute in R. discriminate R.
Qed.

End MultiAxisExamples.

(** ** A disconnected engine has nothing left to cancel *)

Section MockConnection.

Import Mock.

Lemma task_step_keeps_connection (a : AxisId) (s : MockBackend) :
  _connected (task_step a s) = _connected s.
Proof.
  unfold task_step. destruct (_motion_tasks s a) as [t|]; [|reflexivity].
  destruct (t_phase t); try reflexivity.
  - destruct (motion_steps _ _ _); reflexivity.
  - destruct (Z.of_nat i <? _)%Z; reflexivity.
Qed.

Lemma wait_for_keeps_connection (budget : nat) (a : AxisId) :
  forall s, _connected (fst (wait_for budget a s)) = _connected s.
Proof.
  induction budget as [|n IH]; intros s; cbn [wait_for];
    destruct (live_task s a); cbn [fst]; try reflexivity.
  - apply cancel_and_await_keeps.
  - rewrite IH. apply task_step_keeps_connection.
Qed.

Lemma move_axis_keeps_connection a target relative speed (s : MockBackend) :
  _connected (fst (move_axis a target relative speed s)) = _connected s.
Proof.
  unfold move_axis.
  destruct (negb (_connected s)); [reflexivity|].
  destruct (negb (_servo_enabled s a)); [reflexivity|].
  assert (K : _connected (if live_task s a then cancel_and_await a s else s) = _connected s)
    by (destruct (live_task s a); [apply cancel_and_await_keeps | reflexivity]).
  destruct (PyFloat.gtb _ _); cbn [fst]; unfold_setters; exact K.
Qed.

Lemma wait_for_motion_complete_keeps_connection a budget (s : MockBackend) :
  _connected (fst (wait_for_motion_complete a budget s)) = _connected s.
Proof.
  unfold wait_for_motion_complete.
  destruct (negb (_connected s)); [reflexivity|].
  destruct (negb (live_task s a)); [reflexivity|].
  pose proof (wait_for_keeps_connection budget a s) as K.
  destruct (wait_for budget a s) as [s' [| |]]; exact K.
Qed.

Lemma exec_keeps_connection (o : op) (s : MockBackend) :
  o <> Connect -> o <> Disconnect -> _connected (exec o s) = _connected s.
Proof.
  intros NC ND. destruct o; try contradiction; cbn [exec].
  - unfold enable_servo. destruct (negb (_connected s)); reflexivity.
  - unfold disable_servo. destruct (negb (_connected s)); [reflexivity|].
    cbn [fst]. unfold_setters.
    destruct (_is_moving s a); [|reflexivity].
    destruct (live_task s a); [apply cancel_and_await_keeps | reflexivity].
  - apply move_axis_keeps_connection.
  - apply wait_for_motion_complete_keeps_connection.
  - rewrite home_axis_is_move_then_wait. unfold bind.
    pose proof (move_axis_keeps_connection a 0 false None s) as Km.
    destruct (move_axis a 0 false None s) as [s1 [[]|e]]; cbn [fst] in *; [|exact Km].
    pose proof (wait_for_motion_complete_keeps_connection a budget s1) as Kw.
    destruct (wait_for_motion_complete a budget s1) as [s2 [[]|e]]; cbn [fst] in *;
      unfold_setters; congruence.
  - unfold emergency_stop. cbn [fst].
    apply (fold_left_preserves (fun x => _connected x = _connected s)); [|reflexivity].
    intros s0 x H. rewrite stop_axis_keeps_connection. exact H.
  - apply task_step_keeps_connection.
Qed.

Lemma task_step_when_not_live (a : AxisId) (s : MockBackend) :
  live_task s a = false -> task_step a s = s.
Proof.
  unfold live_task, task_step, task_done.
  destruct (_motion_tasks s a) as [t|]; [|reflexivity].
  destruct (t_phase t); cbn; congruence.
Qed.

Lemma stop_axis_when_not_live (a : AxisId) (s : MockBackend) :
  live_task s a = false -> stop_axis s a = s.
Proof.
  intros L. unfold stop_axis. rewrite L. destruct (_is_moving s a); reflexivity.
Qed.

Lemma stop_axes_when_quiet (l : list AxisId) (s : MockBackend) :
  quiet s -> fold_left stop_axis l s = s.
Proof.
  intros Qt. induction l as [|a l IH]; cbn [fold_left]; [reflexivity|].
  rewrite stop_axis_when_not_live by apply Qt. exact IH.
Qed.

(** The loop of [disconnect]. *)
Lemma cancel_axes_quiet (l : list AxisId) :
  forall s a, In a l \/ live_task s a = false ->
    live_task (fold_left (fun acc x => if live_task acc x then cancel_and_await x acc else acc)
                         l s) a = false.
Proof.
  induction l as [|x l IH]; intros s a [Hin | Hf]; cbn [fold_left]; auto.
  - destruct Hin.
  - apply IH. destruct Hin as [-> | Hin]; [right | left; exact Hin].
    destruct (live_task s a) eqn:L; [apply cancel_and_await_not_live | exact L].
  - apply IH. right.
    destruct (live_task s x) eqn:L; [|exact Hf].
    destruct (AxisId_eq_dec x a) as [-> | N]; [apply cancel_and_await_not_live|].
    unfold live_task in *. rewrite (proj2 (cancel_and_await_other s N)). exact Hf.
Qed.

Lemma disconnect_quiet (s : MockBackend) : quiet (fst (disconnect s)).
Proof.
  intros a. unfold disconnect. cbn [fst].
  apply (cancel_axes_quiet all_axes s). left. apply all_axes_complete.
Qed.

(** Whenever the engine is disconnected, no task is live: [disconnect]
    cancels them all and none can be created without a connection. *)
Lemma disconnected_engine_is_quiet (s : MockBackend) :
  reachable s -> _connected s = false -> quiet s.
Proof.
  intros [history ->]. unfold run.
  apply (fold_left_preserves (fun x => _connected x = false -> quiet x)).
  - intros s0 o Inv. destruct o.
    + discriminate.
    + intros _. apply disconnect_quiet.
    + cbn [exec]. unfold enable_servo.
      destruct (_connected s0) eqn:C; cbn [negb fst]; [|intros _; exact (Inv eq_refl)].
      unfold_setters. intros K. congruence.
    + cbn [exec]. unfold disable_servo.
      destruct (_connected s0) eqn:C; cbn [negb fst]; [|intros _; exact (Inv eq_refl)].
      unfold_setters. intros K.
      destruct (_is_moving s0 a); [|congruence].
      destruct (live_task s0 a); [|congruence].
      rewrite (proj1 (cancel_and_await_keeps a s0)) in K. congruence.
    + intros K. rewrite exec_keeps_connection in K by discriminate.
      cbn [exec]. unfold move_axis. rewrite K. cbn [negb fst]. exact (Inv K).
    + intros K. rewrite exec_keeps_connection in K by discriminate.
      cbn [exec]. unfold wait_for_motion_complete. rewrite K. cbn [negb fst]. exact (Inv K).
    + intros K. rewrite exec_keeps_connection in K by discriminate.
      cbn [exec]. unfold home_axis. rewrite K. cbn [negb fst]. exact (Inv K).
    + intros K. rewrite exec_keeps_connection in K by discriminate.
      cbn [exec]. unfold emergency_stop. cbn [fst].
      rewrite stop_axes_when_quiet by exact (Inv K). exact (Inv K).
    + intros K. rewrite exec_keeps_connection in K by discriminate.
      cbn [exec]. rewrite task_step_when_not_live by exact (Inv K a). exact (Inv K).
  - intros _ a. reflexivity.
Qed.

Lemma idle_quiet (s : MockBackend) : idle s -> quiet s.
Proof. intros I a. unfold live_task. rewrite (proj2 (proj2 (I a))). reflexivity. Qed.

(** Without [enable_servo] no move is ever accepted: the engine never holds
    a task and never flags an axis. *)
Lemma no_servo_no_task (history : list op) :
  forallb (fun o => negb (enables_servo o)) history = true ->
  idle (run history init).
Proof.
  unfold run. revert history.
  assert (Step : forall o s, enables_servo o = false -> idle s -> idle (exec o s)).
  { intros o s E I. destruct o; try discriminate E; cbn [exec].
    - exact I.
    - unfold disconnect. cbn [fst].
      assert (F : fold_left (fun acc x => if live_task acc x then cancel_and_await x acc
                                          else acc) all_axes s = s).
      { generalize all_axes. intros l. induction l as [|x l IH]; [reflexivity|].
        cbn [fold_left]. rewrite (idle_quiet I x). exact IH. }
      rewrite F. exact I.
    - unfold disable_servo. destruct (negb (_connected s)); cbn [fst]; [exact I|].
      rewrite (proj1 (proj2 (I a))). intros b. unfold_setters.
      destruct (I b) as (Sv & Mv & T). split; [|auto].
      split_axis a b; auto.
    - unfold move_axis. destruct (negb (_connected s)); cbn [fst]; [exact I|].
      rewrite (proj1 (I a)). exact I.
    - unfold wait_for_motion_complete. destruct (negb (_connected s)); cbn [fst]; [exact I|].
      rewrite (idle_quiet I a). exact I.
    - unfold home_axis. destruct (negb (_connected s)); cbn [fst]; [exact I|].
      rewrite (proj1 (I a)). exact I.
    - unfold emergency_stop. cbn [fst].
      rewrite stop_axes_when_quiet by exact (idle_quiet I). exact I.
    - rewrite task_step_when_not_live by exact (idle_quiet I a). exact I. }
  assert (Init : idle init) by (intros a; cbn; auto).
  intros history. generalize init Init.
  induction history as [|o history IH]; intros s I F; cbn [fold_left]; [exact I|].
  cbn [forallb] in F. apply andb_prop in F. destruct F as [Fo F].
  apply IH; [|exact F]. apply Step; [|exact I].
  destruct (enables_servo o); [discriminate Fo | reflexivity].
Qed.

End MockConnection.

Section MockEmergencyStop.

Import Mock.

(** What does hold of [emergency_stop] on the simulated engine (the part
    of C10 about the connection).  It returns normally in every
    state and never looks at the connection flag: it leaves the flag as it
    is and does the same to the rest of the state whether the backend is
    connected or not; afterwards no axis is flagged as moving and no task is
    inside its body, and a disconnected engine had no live task to begin
    with.  Every other per-axis operation fails with [HardwareError] on a
    disconnected backend. *)
Theorem emergency_stop_ignores_connection (s : MockBackend) :
  snd (emergency_stop s) = Ok tt /\
  _connected (fst (emergency_stop s)) = _connected s /\
  (forall b, emergency_stop (set_connected b s)
             = (set_connected b (fst (emergency_stop s)), Ok tt)) /\
  (reachable s ->
   forall a, _is_moving (fst (emergency_stop s)) a = false /\
             started (fst (emergency_stop s)) a = false) /\
  (reachable s -> _connected s = false ->
   quiet s /\ fst (emergency_stop s) = s) /\
  (_connected s = false ->
   forall (a : AxisId) (target : float) (relative : bool) (speed : option float) (budget : nat),
     snd (get_axis_position a s) = Raise HardwareError /\
     snd (move_axis a target relative speed s) = Raise HardwareError /\
     snd (is_axis_moving a s) = Raise HardwareError /\
     snd (wait_for_motion_complete a budget s) = Raise HardwareError /\
     snd (enable_servo a s) = Raise HardwareError /\
     snd (disable_servo a s) = Raise HardwareError /\
     snd (is_servo_enabled a s) = Raise HardwareError /\
     snd (home_axis a budget s) = Raise HardwareError /\
     snd (get_axis_status a s) = Raise HardwareError).
Proof.
  split; [reflexivity|]. split; [|split; [|split; [|split]]].
  - unfold emergency_stop. cbn [fst].
    apply (fold_left_preserves (fun x => _connected x = _connected s)); [|reflexivity].
    intros s0 a H. rewrite stop_axis_keeps_connection. exact H.
  - intros b. unfold emergency_stop. cbn [fst].
    rewrite stop_axes_commute_with_connection. reflexivity.
  - intros R a. apply reachable_flag_tracks_body in R.
    pose proof (emergency_stop_clears_flags R a) as F.
    split; [exact F|]. rewrite <- (emergency_stop_flag R a). exact F.
  - intros R C. pose proof (disconnected_engine_is_quiet R C) as Q0.
    split; [exact Q0|]. unfold emergency_stop. cbn [fst].
    apply stop_axes_when_quiet, Q0.
  - intros C a target relative speed budget.
    unfold get_axis_position, move_axis, is_axis_moving, wait_for_motion_complete,
      enable_servo, disable_servo, is_servo_enabled, home_axis, get_axis_status.
    rewrite C. cbn. auto 10.
Qed.

Lemma emergency_stop_ignores_connection_witness :
  let s := run [Connect; EnableServo X1; MoveAxis X1 1000 false None; TaskStep X1;
                Disconnect] init in
  snd (emergency_stop s) = Ok tt /\
  fst (emergency_stop s) = s /\
  _is_moving (fst (emergency_stop s)) X1 = false /\
  snd (get_axis_position X1 s) = Raise HardwareError /\
  snd (home_axis X1 7 s) = Raise HardwareError.
Proof.
  cbv zeta.
  destruct (emergency_stop_ignores_connection
              (run [Connect; EnableServo X1; MoveAxis X1 1000 false None; TaskStep X1;
                    Disconnect] init))
    as (R & _ & _ & Clear & Same & Off).
  assert (Reach : reachable (run [Connect; EnableServo X1; MoveAxis X1 1000 false None;
                                  TaskStep X1; Disconnect] init))
    by (eexists; reflexivity).
  assert (C : _connected (run [Connect; EnableServo X1; MoveAxis X1 1000 false None;
                               TaskStep X1; Disconnect] init) = false)
    by (vm_compute; reflexivity).
  destruct (Off C X1 0 false None 7%nat) as (P & _ & _ & _ & _ & _ & _ & H & _).
  split; [exact R|]. split; [exact (proj2 (Same Reach C))|].
  split; [exact (proj1 (Clear Reach X1))|]. split; [exact P | exact H].
Defined.

(** C10.  [emergency_stop] of the simulated engine does return normally
    whatever the connection flag (on a fresh, disconnected engine as on a
    connected one), but not after cancelling any live motion task: it only
    cancels the task of an axis flagged as moving.  On a connected engine
    on which moves of X1 and Y1 have just been accepted, the call returns
    normally and has done nothing at all: both tasks are still live, and
    the event loop then resumes them, flags the axes as moving and drives
    them to their targets. *)
Theorem emergency_stop_leaves_live_task :
  let s := run [Connect; EnableServo X1; EnableServo Y1;
                MoveAxis X1 1000 false None; MoveAxis Y1 500 false None] init in
  let s' := fst (emergency_stop s) in
  (_connected init = false /\ snd (emergency_stop init) = Ok tt) /\
  reachable s /\ _connected s = true /\
  live_task s X1 = true /\ live_task s Y1 = true /\
  snd (emergency_stop s) = Ok tt /\
  s' = s /\
  live_task s' X1 = true /\ live_task s' Y1 = true /\
  _is_moving (task_step X1 s') X1 = true /\
  _is_moving (task_step Y1 s') Y1 = true /\
  _positions (Nat.iter 12 (task_step X1) s') X1 = 1000 /\
  _positions (Nat.iter 7 (task_step Y1) s') Y1 = 500.
Proof.
  cbv zeta. split; [split; reflexivity|]. split; [eexists; reflexivity|].
  split_conj; vm_compute; reflexivity.
Qed.

End MockEmergencyStop.

(** * Further properties of the simulated engine *)

Section MockAcceptance.

Import Mock.

Lemma accepted_move_is_live (s : MockBackend) (a : AxisId) (target : float)
      (relative : bool) (speed : option float) :
  snd (move_axis a target relative speed s) = Ok tt ->
  _connected (fst (move_axis a target relative speed s)) = true /\
  live_task (fst (move_axis a target relative speed s)) a = true.
Proof.
  intros Acc. destruct (@move_axis_accepted s a target relative speed Acc) as [T _].
  split; [|unfold live_task; rewrite T; reflexivity].
  rewrite move_axis_keeps_connection.
  unfold move_axis in Acc. destruct (_connected s); [reflexivity | discriminate Acc].
Qed.

Lemma add_nan (x : float) : PyFloat.add x S754_nan = S754_nan.
Proof. destruct x; reflexivity. Qed.

(** X1.  [move_axis] accepts a move exactly when the backend is connected,
    the servo of the axis is on and the test [abs(actual_target) > 500_000]
    is false of the resolved target, the sum of the position and the target
    rounded to binary64 for a relative move; the test is false of a NaN, so
    a NaN target is accepted.  An accepted move touches nothing but the task
    slot of its axis. *)
Theorem move_axis_accepts_iff (s : MockBackend) (a : AxisId) (target : float)
        (relative : bool) (speed : option float) :
  let resolved := if relative then PyFloat.add (_positions s a) target else target in
  let s' := fst (move_axis a target relative speed s) in
  (snd (move_axis a target relative speed s) = Ok tt <->
   _connected s = true /\ _servo_enabled s a = true /\
   PyFloat.gtb (PyFloat.abs resolved) 500000 = false) /\
  (snd (move_axis a target relative speed s) = Ok tt ->
   _connected s' = true /\ _positions s' = _positions s /\
   _servo_enabled s' = _servo_enabled s /\ _is_homed s' = _is_homed s /\
   live_task s' a = true /\
   forall b, b <> a -> same_axis_state s s' b) /\
  (_connected s = true -> _servo_enabled s a = true ->
   snd (move_axis a S754_nan relative speed s) = Ok tt).
Proof.
  cbv zeta. split; [|split].
  3:{ intros C Sv. unfold move_axis. rewrite C, Sv. cbn [negb].
      destruct relative; rewrite ?add_nan; reflexivity. }
  all: unfold move_axis.
  all: destruct (_connected s) eqn:C; cbn [negb];
    [|try (split; [discriminate | intros (K & _); discriminate K]); discriminate].
  all: destruct (_servo_enabled s a) eqn:Sv; cbn [negb];
    [|try (split; [discriminate | intros (_ & K & _); discriminate K]); discriminate].
  all: set (s1 := if live_task s a then cancel_and_await a s else s).
  all: assert (K : _connected s1 = _connected s /\ _positions s1 = _positions s /\
              _servo_enabled s1 = _servo_enabled s /\ _is_homed s1 = _is_homed s /\
              _default_speed s1 = _default_speed s)
    by (subst s1; destruct (live_task s a); [apply cancel_and_await_keeps | auto 6]).
  all: destruct K as (Kc & Kp & Ks & Kh & Kv); rewrite Kp.
  all: destruct (PyFloat.gtb _ _) eqn:Far; cbn [fst snd].
  - split; [discriminate|]. intros (_ & _ & In). discriminate In.
  - split; auto.
  - discriminate.
  - intros _.
    assert (O : forall b, b <> a -> same_axis_state s s1 b).
    { intros b N. subst s1. destruct (live_task s a).
      - apply cancel_and_await_other_axes, N.
      - unfold same_axis_state. auto 6. }
    unfold live_task. unfold_setters. rewrite upd_same. cbn.
    split; [congruence|]. split; [exact Kp|]. split; [exact Ks|]. split; [exact Kh|].
    split; [reflexivity|].
    intros b N. destruct (O b N) as (P & S1 & H1 & M1 & T1).
    unfold same_axis_state. unfold_setters. rewrite upd_other by congruence. auto 6.
Qed.

Lemma move_axis_accepts_iff_witness :
  let s := run [Connect; EnableServo X1] init in
  snd (move_axis X1 500000 false None s) = Ok tt /\
  live_task (fst (move_axis X1 500000 false None s)) X1 = true.
Proof.
  cbv zeta.
  destruct (move_axis_accepts_iff (run [Connect; EnableServo X1] init) X1 500000 false None)
    as (Iff & Post & _).
  assert (Acc : snd (move_axis X1 500000 false None (run [Connect; EnableServo X1] init))
                = Ok tt).
  { apply Iff. split; [reflexivity|]. split; [reflexivity|]. vm_compute. reflexivity. }
  split; [exact Acc|]. apply (Post Acc).
Defined.

End MockAcceptance.

Section MockTravel.

Import Mock.

(** X2.  The travel bound is checked on targets only, and an interpolated
    position can lie beyond it: for the move from -100000.3 to 500000 at
    100000 um/s (60 steps) the assignment of the last iteration,
    [start + (target - start) * 1.0], rounds to 500000.00000000006, a
    position [move_axis] would refuse as a target; the resumption after
    that stores 500000 itself. *)
Theorem interpolation_overshoots_travel :
  let s := run [Connect; EnableServo X1; MoveAxis X1 (-100000.3) false (Some 100000);
                WaitForMotionComplete X1 12;
                MoveAxis X1 500000 false (Some 100000)] init in
  let last := Nat.iter 61 (task_step X1) s in
  _positions s X1 = -100000.3 /\
  motion_steps (-100000.3) 500000 100000 = Ok 60%Z /\
  _positions last X1 = 500000.00000000006 /\
  _is_moving last X1 = true /\
  PyFloat.gtb (PyFloat.abs (_positions last X1)) 500000 = true /\
  snd (move_axis Y1 (_positions last X1) false None (fst (enable_servo Y1 last)))
    = Raise MovementError /\
  _positions (task_step X1 last) X1 = 500000 /\
  live_task (task_step X1 last) X1 = false.
Proof.
  by_evaluation.
Qed.

End MockTravel.

Section MockWaiting.

Import Mock.

Lemma wait_for_not_live (budget : nat) (a : AxisId) :
  forall s, live_task (fst (wait_for budget a s)) a = false.
Proof.
  induction budget as [|n IH]; intros s; cbn [wait_for];
    destruct (live_task s a) eqn:L; cbn [fst]; auto using cancel_and_await_not_live.
Qed.

Lemma wait_for_timed_out_was_live (budget : nat) (a : AxisId) (s : MockBackend) :
  snd (wait_for budget a s) = Expired -> live_task s a = true.
Proof.
  destruct budget; cbn [wait_for]; destruct (live_task s a); cbn; try congruence;
    unfold task_outcome; destruct (_motion_tasks s a) as [t|]; try discriminate;
    destruct (t_phase t); discriminate.
Qed.

(** A task that has entered its body cannot end with an exception. *)
Lemma wait_for_started (budget : nat) (a : AxisId) :
  forall (s : MockBackend) (e : exn),
    started s a = true -> snd (wait_for budget a s) <> Died e.
Proof.
  induction budget as [|n IH]; intros s e St; cbn [wait_for];
    rewrite (started_is_live _ _ St); [cbn; discriminate|].
  unfold started in St. unfold task_step.
  destruct (_motion_tasks s a) as [t|] eqn:T; [|discriminate St].
  destruct (t_phase t) eqn:Ph; try discriminate St.
  destruct (Z.of_nat i <? steps)%Z.
  - apply IH. unfold started. unfold_setters. rewrite upd_same. reflexivity.
  - destruct n; cbn [wait_for]; unfold live_task, task_outcome; unfold_setters;
      rewrite upd_same; cbn; discriminate.
Qed.

(** A wait only ends with an exception of the task when the task was
    waiting to be entered and its step count cannot be computed; the task
    is then all that has changed. *)
Lemma wait_for_died (budget : nat) (a : AxisId) (s s' : MockBackend) (e : exn) :
  live_task s a = true -> wait_for budget a s = (s', Died e) ->
  exists t, _motion_tasks s a = Some t /\ t_phase t = Pending /\
            motion_steps (t_start t) (t_target t) (t_speed t) = Raise e /\
            s' = set_phase a t (Failed e) s.
Proof.
  intros L W. destruct budget as [|n]; cbn [wait_for] in W; rewrite L in W;
    [discriminate W|].
  unfold live_task, task_done in L. unfold task_step in W.
  destruct (_motion_tasks s a) as [t|] eqn:T; [|discriminate L].
  destruct (t_phase t) eqn:Ph; try discriminate L.
  - destruct (motion_steps _ _ _) as [steps|e'] eqn:St.
    + exfalso. refine (@wait_for_started n a _ e _ _); [|rewrite W; reflexivity].
      unfold started. unfold_setters. rewrite upd_same. reflexivity.
    + assert (E : wait_for n a (set_phase a t (Failed e') s)
                  = (set_phase a t (Failed e') s, Died e')).
      { destruct n; cbn [wait_for]; unfold live_task, task_outcome; unfold_setters;
          rewrite upd_same; reflexivity. }
      rewrite E in W. inversion W; subst. exists t. auto.
  - exfalso.
    assert (St : started s a = true) by (unfold started; rewrite T, Ph; reflexivity).
    pose proof (@wait_for_started (S n) a s e St) as No.
    cbn [wait_for] in No. rewrite (started_is_live _ _ St) in No.
    unfold task_step in No. rewrite T, Ph in No. rewrite W in No. apply No. reflexivity.
Qed.

(** X3.  On a connected backend [wait_for_motion_complete] returns, raises
    [TimeoutError], or raises the [OverflowError] or [ValueError] with which
    the awaited task ended; in every case no task is live on the axis
    afterwards (a timed-out task is cancelled, its flag cleared).  When it
    returns after having waited for a task, the axis is at that task's
    target.  It raises an exception of the task only for a task that had
    not been entered and whose step count cannot be computed, and then no
    position has changed. *)
Theorem wait_for_motion_complete_settles (s : MockBackend) (a : AxisId) (budget : nat) :
  _connected s = true ->
  let s' := fst (wait_for_motion_complete a budget s) in
  let r := snd (wait_for_motion_complete a budget s) in
  (r = Ok tt \/ r = Raise TimeoutError \/ r = Raise OverflowError \/ r = Raise ValueError) /\
  live_task s' a = false /\
  (flag_tracks_body s -> _is_moving s' a = false) /\
  (r <> Ok tt -> live_task s a = true) /\
  (r = Ok tt -> forall t, _motion_tasks s a = Some t -> task_done t = false ->
                _positions s' a = t_target t) /\
  (forall e, r = Raise e -> e <> TimeoutError ->
     exists t, _motion_tasks s a = Some t /\ t_phase t = Pending /\
               motion_steps (t_start t) (t_target t) (t_speed t) = Raise e /\
               _positions s' = _positions s).
Proof.
  intros C. cbv zeta.
  assert (Fl : flag_tracks_body s ->
               flag_tracks_body (fst (wait_for_motion_complete a budget s)))
    by apply wait_for_motion_complete_flag.
  unfold wait_for_motion_complete in *. rewrite C in *. cbn [negb] in *.
  destruct (live_task s a) eqn:L; cbn [negb fst snd] in *.
  - pose proof (wait_for_not_live budget a s) as NL.
    destruct (wait_for budget a s) as [s' [|e|]] eqn:W; cbn [fst snd] in *.
    + split; [auto|]. split; [exact NL|]. split.
      * intros F. rewrite (Fl F a). apply not_live_not_started, NL.
      * split; [reflexivity|]. split; [|discriminate]. intros _ t T D.
        apply (@wait_for_completed a budget s s' t T D W).
    + destruct (@wait_for_died budget a s s' e L W) as (t & T & Ph & St & ->).
      split; [destruct (motion_steps_raises _ _ _ St) as [-> | ->]; auto|].
      split; [exact NL|]. split.
      * intros F. rewrite (Fl F a). apply not_live_not_started, NL.
      * split; [reflexivity|]. split; [discriminate|].
        intros e' E _. inversion E; subst e'. exists t. auto.
    + split; [auto|]. split; [exact NL|]. split.
      * intros F. rewrite (Fl F a). apply not_live_not_started, NL.
      * split; [reflexivity|]. split; [discriminate|].
        intros e E N. inversion E; subst e. contradiction.
  - split; [auto|]. split; [exact L|]. split.
    + intros F. rewrite (F a). apply not_live_not_started, L.
    + split; [intros N; contradiction|]. split; [|discriminate]. intros _ t T D.
      unfold live_task in L. rewrite T, D in L. discriminate L.
Qed.

Lemma wait_for_motion_complete_settles_witness :
  let s := run [Connect; EnableServo X1; MoveAxis X1 1000 false None; TaskStep X1] init in
  snd (wait_for_motion_complete X1 3 s) = Raise TimeoutError /\
  live_task (fst (wait_for_motion_complete X1 3 s)) X1 = false /\
  _is_moving (fst (wait_for_motion_complete X1 3 s)) X1 = false.
Proof.
  cbv zeta.
  destruct (@wait_for_motion_complete_settles
              (run [Connect; EnableServo X1; MoveAxis X1 1000 false None; TaskStep X1] init)
              X1 3 eq_refl) as (_ & NL & Fl & _).
  split; [vm_compute; reflexivity|]. split; [exact NL|].
  apply Fl, reachable_flag_tracks_body. eexists; reflexivity.
Defined.

(** How many resumptions a parked task still needs. *)
Lemma wait_for_parked (a : AxisId) (start goal v : float) (steps : Z) (budget : nat) :
  forall (k : nat) (s : MockBackend),
    (Z.of_nat k <= steps)%Z ->
    parked_at a start goal v steps k s ->
    snd (wait_for budget a s)
    = if (steps - Z.of_nat k + 1 <=? Z.of_nat budget)%Z then Finished else Expired.
Proof.
  induction budget as [|n IH]; intros k s L P.
  - destruct P as (T & _ & _). cbn [wait_for]. unfold live_task. rewrite T. cbn.
    replace (steps - Z.of_nat k + 1 <=? 0)%Z with false; [reflexivity|].
    symmetry. apply Z.leb_gt. lia.
  - pose proof P as (T & _ & _). cbn [wait_for]. unfold live_task at 1. rewrite T.
    cbn [task_done t_phase negb].
    destruct (Z.eq_dec (Z.of_nat k) steps) as [E|N].
    + destruct (@last_resumption a start goal v steps k s) as (_ & _ & Gone);
        [lia | exact P|].
      assert (W : wait_for n a (task_step a s) = (task_step a s, Finished)).
      { destruct n; cbn [wait_for]; unfold live_task, task_outcome; rewrite Gone;
          reflexivity. }
      rewrite W. cbn [snd].
      replace (steps - Z.of_nat k + 1 <=? Z.of_nat (S n))%Z with true; [reflexivity|].
      symmetry. apply Z.leb_le. lia.
    + rewrite (IH (S k) (task_step a s)); [| lia | apply next_resumption; [lia | exact P]].
      replace (steps - Z.of_nat (S k) + 1 <=? Z.of_nat n)%Z
        with (steps - Z.of_nat k + 1 <=? Z.of_nat (S n))%Z; [reflexivity|].
      apply eq_true_iff_eq. rewrite !Z.leb_le. lia.
Qed.

(** After an accepted move whose step count is [steps] the wait succeeds
    exactly when its budget covers the [steps + 2] resumptions the task
    needs. *)
Lemma wait_for_after_move (s : MockBackend) (a : AxisId) (target : float)
      (relative : bool) (speed : option float) (steps : Z) (budget : nat) :
  snd (move_axis a target relative speed s) = Ok tt ->
  let s0 := fst (move_axis a target relative speed s) in
  let start := _positions s a in
  let goal := resolved_target s a target relative in
  let v := match speed with Some v => v | None => _default_speed s end in
  motion_steps start goal v = Ok steps ->
  snd (wait_for budget a s0)
  = (if (steps + 2 <=? Z.of_nat budget)%Z then Finished else Expired) /\
  (snd (wait_for budget a s0) = Finished -> _positions (fst (wait_for budget a s0)) a = goal).
Proof.
  intros Acc. cbv zeta. intros St.
  destruct (@move_axis_accepted s a target relative speed Acc) as [T _].
  destruct (@accepted_move_is_live s a target relative speed Acc) as (C & Lv).
  set (s0 := fst (move_axis a target relative speed s)) in *.
  set (start := _positions s a) in *.
  set (goal := resolved_target s a target relative) in *.
  set (v := match speed with Some v => v | None => _default_speed s end) in *.
  pose proof (@steps_positive _ _ _ _ St) as Pos.
  split.
  - destruct budget as [|n]; cbn [wait_for]; rewrite Lv.
    + cbn [snd]. replace (steps + 2 <=? Z.of_nat 0)%Z with false; [reflexivity|].
      symmetry. apply Z.leb_gt. lia.
    + rewrite (@wait_for_parked a start goal v steps n 0 (task_step a s0));
        [| lia | apply (@first_resumption a _ _ _ _ St), T].
      replace (steps - Z.of_nat 0 + 1 <=? Z.of_nat n)%Z
        with (steps + 2 <=? Z.of_nat (S n))%Z; [reflexivity|].
      apply eq_true_iff_eq. rewrite !Z.leb_le. lia.
  - destruct (wait_for budget a s0) as [s' ok] eqn:W. cbn [fst snd]. intros ->.
    apply (@wait_for_completed a budget s0 s' _ T eq_refl W).
Qed.

(** After an accepted move whose step count cannot be computed the first
    resumption ends the wait with the exception of [int]. *)
Lemma wait_for_after_failing_move (s : MockBackend) (a : AxisId) (target : float)
      (relative : bool) (speed : option float) (e : exn) (budget : nat) :
  snd (move_axis a target relative speed s) = Ok tt ->
  let s0 := fst (move_axis a target relative speed s) in
  let start := _positions s a in
  let goal := resolved_target s a target relative in
  let v := match speed with Some v => v | None => _default_speed s end in
  motion_steps start goal v = Raise e ->
  wait_for (S budget) a s0
  = (set_task a (Some (mkTask start goal v (Failed e))) s0, Died e).
Proof.
  intros Acc. cbv zeta. intros St.
  destruct (@move_axis_accepted s a target relative speed Acc) as [T _].
  destruct (@accepted_move_is_live s a target relative speed Acc) as (C & Lv).
  cbn [wait_for]. rewrite Lv. rewrite (@failed_resumption a _ _ _ _ _ St T).
  destruct budget; cbn [wait_for]; unfold live_task, task_outcome; unfold_setters;
    rewrite upd_same; reflexivity.
Qed.

(** X4.  After an accepted move the task needs [steps + 2] resumptions,
    [steps] being the count it computes in binary64:
    [wait_for_motion_complete] returns exactly when its budget is at least
    that, and the axis is then at the resolved target; with a smaller
    budget it raises [TimeoutError].  When the count cannot be computed
    ([int] of an infinity or a NaN), the wait raises the exception of [int]
    as soon as the task is resumed once, no position having changed. *)
Theorem wait_after_move (s : MockBackend) (a : AxisId) (target : float)
        (relative : bool) (speed : option float) (budget : nat) :
  snd (move_axis a target relative speed s) = Ok tt ->
  let s0 := fst (move_axis a target relative speed s) in
  let start := _positions s a in
  let goal := if relative then PyFloat.add start target else target in
  let v := match speed with Some v => v | None => _default_speed s end in
  (forall steps, motion_steps start goal v = Ok steps ->
     let needed := (steps + 2)%Z in
     ((needed <= Z.of_nat budget)%Z ->
      snd (wait_for_motion_complete a budget s0) = Ok tt /\
      _positions (fst (wait_for_motion_complete a budget s0)) a = goal) /\
     ((Z.of_nat budget < needed)%Z ->
      snd (wait_for_motion_complete a budget s0) = Raise TimeoutError)) /\
  (forall e, motion_steps start goal v = Raise e ->
     snd (wait_for_motion_complete a (S budget) s0) = Raise e /\
     _positions (fst (wait_for_motion_complete a (S budget) s0)) = _positions s /\
     snd (wait_for_motion_complete a 0 s0) = Raise TimeoutError).
Proof.
  intros Acc. cbv zeta.
  destruct (@accepted_move_is_live s a target relative speed Acc) as (C & Lv).
  destruct (@move_axis_accepted s a target relative speed Acc) as [_ Ps].
  change (if relative then PyFloat.add (_positions s a) target else target)
    with (resolved_target s a target relative).
  split.
  - intros steps St.
    destruct (@wait_for_after_move s a target relative speed steps budget Acc St) as (R & P).
    unfold wait_for_motion_complete. rewrite C, Lv. cbn [negb].
    destruct (wait_for budget a (fst (move_axis a target relative speed s)))
      as [s' ok] eqn:W.
    cbn [fst snd] in *. subst ok.
    split; intros B.
    + apply Z.leb_le in B. rewrite B in *. cbn [fst snd]. split; [reflexivity|].
      apply P. reflexivity.
    + apply Z.leb_gt in B. rewrite B. reflexivity.
  - intros e St.
    unfold wait_for_motion_complete. rewrite C, Lv. cbn [negb].
    rewrite (@wait_for_after_failing_move s a target relative speed e budget Acc St).
    cbn [fst snd wait_for]. rewrite Lv. cbn [fst snd].
    unfold_setters. auto.
Qed.

Lemma wait_after_move_witness :
  let s := run [Connect; EnableServo X1] init in
  let s0 := fst (move_axis X1 0.3 false (Some 1) s) in
  motion_steps 0 0.3 1 = Ok 3%Z /\
  snd (wait_for_motion_complete X1 5 s0) = Ok tt /\
  _positions (fst (wait_for_motion_complete X1 5 s0)) X1 = 0.3 /\
  snd (wait_for_motion_complete X1 4 s0) = Raise TimeoutError.
Proof.
  cbv zeta.
  assert (Acc : snd (move_axis X1 0.3 false (Some 1) (run [Connect; EnableServo X1] init))
                = Ok tt) by (vm_compute; reflexivity).
  assert (St : motion_steps 0 0.3 1 = Ok 3%Z) by (vm_compute; reflexivity).
  destruct (@wait_after_move _ _ _ _ _ 5 Acc) as [Enough _].
  destruct (@wait_after_move _ _ _ _ _ 4 Acc) as [Short _].
  destruct (Enough 3%Z St) as [[R P] _]; [vm_compute; discriminate|].
  split; [exact St|]. split; [exact R|]. split; [exact P|].
  apply (Short 3%Z St). vm_compute. reflexivity.
Defined.

End MockWaiting.

Section MockBookkeeping.

Import Mock.

Lemma same_settings_refl (s : MockBackend) : same_settings s s.
Proof. unfold same_settings. auto. Qed.

Lemma same_settings_trans (s1 s2 s3 : MockBackend) :
  same_settings s1 s2 -> same_settings s2 s3 -> same_settings s1 s3.
Proof. unfold same_settings. intros (?&?&?&?) (?&?&?&?). repeat split; congruence. Qed.

Lemma task_step_settings (a : AxisId) (s : MockBackend) : same_settings s (task_step a s).
Proof.
  unfold task_step, same_settings.
  destruct (_motion_tasks s a) as [t|]; [|auto].
  destruct (t_phase t); auto.
  - destruct (motion_steps _ _ _); cbn; auto.
  - destruct (Z.of_nat i <? _)%Z; cbn; auto.
Qed.

Lemma cancel_and_await_settings (a : AxisId) (s : MockBackend) :
  same_settings s (cancel_and_await a s).
Proof.
  destruct (cancel_and_await_keeps a s) as (C & _ & S & H & V).
  unfold same_settings. auto.
Qed.

Lemma wait_for_settings (budget : nat) (a : AxisId) :
  forall s, same_settings s (fst (wait_for budget a s)).
Proof.
  induction budget as [|n IH]; intros s; cbn [wait_for];
    destruct (live_task s a); cbn [fst];
    eauto using same_settings_refl, cancel_and_await_settings, same_settings_trans,
      task_step_settings.
Qed.

Lemma cancel_axes_keep (l : list AxisId) :
  forall s,
    let s' := fold_left (fun acc x => if live_task acc x then cancel_and_await x acc else acc)
                        l s in
    same_settings s s' /\ _positions s' = _positions s.
Proof.
  induction l as [|x l IH]; intros s; cbn [fold_left].
  - split; [apply same_settings_refl | reflexivity].
  - destruct (live_task s x).
    + destruct (IH (cancel_and_await x s)) as [S P]. split.
      * eapply same_settings_trans; [apply cancel_and_await_settings | exact S].
      * rewrite P. apply cancel_and_await_keeps.
    + apply IH.
Qed.

(** X5.  [disconnect] always returns; afterwards the backend is
    disconnected, no task is live on any axis and no axis is flagged as
    moving, while positions, servo flags and homed flags are what they
    were. *)
Theorem disconnect_stops_everything (s : MockBackend) :
  let s' := fst (disconnect s) in
  snd (disconnect s) = Ok tt /\
  _connected s' = false /\
  quiet s' /\
  (flag_tracks_body s -> forall a, _is_moving s' a = false) /\
  _positions s' = _positions s /\
  _servo_enabled s' = _servo_enabled s /\
  _is_homed s' = _is_homed s.
Proof.
  cbv zeta. split; [reflexivity|]. split; [reflexivity|].
  split; [apply disconnect_quiet|]. split.
  - intros F a. rewrite (disconnect_flag F a).
    apply not_live_not_started, disconnect_quiet.
  - unfold disconnect. cbn [fst]. unfold_setters.
    destruct (cancel_axes_keep all_axes s) as ((_ & S & H & _) & P). auto.
Qed.

Lemma disconnect_stops_everything_witness :
  let s := run [Connect; EnableServo X1; MoveAxis X1 1000 false None; TaskStep X1] init in
  _is_moving s X1 = true /\ _is_moving (fst (disconnect s)) X1 = false.
Proof.
  cbv zeta. split; [vm_compute; reflexivity|].
  destruct (disconnect_stops_everything
              (run [Connect; EnableServo X1; MoveAxis X1 1000 false None; TaskStep X1] init))
    as (_ & _ & _ & Fl & _).
  apply Fl, reachable_flag_tracks_body. eexists; reflexivity.
Defined.

Lemma disconnect_settings (s : MockBackend) :
  _is_homed (fst (disconnect s)) = _is_homed s.
Proof.
  unfold disconnect. cbn [fst]. unfold_setters.
  destruct (cancel_axes_keep all_axes s) as ((_ & _ & H & _) & _). exact H.
Qed.

Lemma move_axis_settings a target relative speed (s : MockBackend) :
  same_settings s (fst (move_axis a target relative speed s)).
Proof.
  unfold move_axis.
  destruct (negb (_connected s)); [apply same_settings_refl|].
  destruct (negb (_servo_enabled s a)); [apply same_settings_refl|].
  assert (K : same_settings s (if live_task s a then cancel_and_await a s else s))
    by (destruct (live_task s a); [apply cancel_and_await_settings | apply same_settings_refl]).
  destruct (PyFloat.gtb _ _); cbn [fst]; exact K.
Qed.

Lemma wait_for_motion_complete_settings a budget (s : MockBackend) :
  same_settings s (fst (wait_for_motion_complete a budget s)).
Proof.
  unfold wait_for_motion_complete.
  destruct (negb (_connected s)); [apply same_settings_refl|].
  destruct (negb (live_task s a)); [apply same_settings_refl|].
  pose proof (wait_for_settings budget a s) as K.
  destruct (wait_for budget a s) as [s' [| |]]; exact K.
Qed.

(** X7.  The homed flag of an axis is only ever written by a successful
    [home_axis] of that axis, which sets it: no operation, disconnecting
    and reconnecting included, clears it. *)
Theorem homed_flag_only_set_by_homing (o : op) (s : MockBackend) (b : AxisId) :
  _is_homed (exec o s) b = _is_homed s b \/
  (_is_homed (exec o s) b = true /\
   exists budget, o = HomeAxis b budget /\ snd (home_axis b budget s) = Ok tt).
Proof.
  destruct o; cbn [exec].
  - left. reflexivity.
  - left. rewrite disconnect_settings. reflexivity.
  - left. unfold enable_servo. destruct (negb (_connected s)); reflexivity.
  - left. unfold disable_servo. destruct (negb (_connected s)); [reflexivity|].
    cbn [fst]. unfold_setters. destruct (_is_moving s a); [|reflexivity].
    destruct (live_task s a); [|reflexivity].
    destruct (cancel_and_await_keeps a s) as (_ & _ & _ & H & _). rewrite H. reflexivity.
  - left. destruct (move_axis_settings a target relative speed s) as (_ & _ & H & _).
    rewrite H. reflexivity.
  - left. destruct (wait_for_motion_complete_settings a budget s) as (_ & _ & H & _).
    rewrite H. reflexivity.
  - pose proof (home_axis_is_move_then_wait a budget s) as HE.
    rewrite HE. unfold bind in *.
    pose proof (move_axis_settings a 0 false None s) as (_ & _ & Hm & _).
    destruct (move_axis a 0 false None s) as [s1 [[]|e]]; cbn [fst snd] in *;
      [|left; rewrite Hm; reflexivity].
    pose proof (wait_for_motion_complete_settings a budget s1) as (_ & _ & Hw & _).
    destruct (wait_for_motion_complete a budget s1) as [s2 [[]|e]]; cbn [fst snd] in *;
      [|left; rewrite Hw, Hm; reflexivity].
    unfold_setters. destruct (AxisId_eq_dec a b) as [<- | N].
    + right. rewrite upd_same. split; [reflexivity|]. exists budget.
      split; [reflexivity | rewrite HE; reflexivity].
    + left. rewrite upd_other by assumption. rewrite Hw, Hm. reflexivity.
  - left. unfold emergency_stop. cbn [fst].
    apply (fold_left_preserves (fun x => _is_homed x b = _is_homed s b)); [|reflexivity].
    intros s0 x H0. unfold stop_axis. destruct (_is_moving s0 x); [|exact H0].
    destruct (live_task s0 x); [|exact H0].
    destruct (cancel_and_await_keeps x s0) as (_ & _ & _ & H & _). rewrite H. exact H0.
  - left. destruct (task_step_settings a s) as (_ & _ & H & _). rewrite H. reflexivity.
Qed.

(** *** Axes do not interfere *)

Lemma same_axis_state_refl (s : MockBackend) (b : AxisId) : same_axis_state s s b.
Proof. unfold same_axis_state. auto 6. Qed.

Lemma same_axis_state_trans (s1 s2 s3 : MockBackend) (b : AxisId) :
  same_axis_state s1 s2 b -> same_axis_state s2 s3 b -> same_axis_state s1 s3 b.
Proof.
  unfold same_axis_state. intros (?&?&?&?&?) (?&?&?&?&?). repeat split; congruence.
Qed.

Lemma task_step_other_axes (a b : AxisId) (s : MockBackend) :
  b <> a -> same_axis_state s (task_step a s) b.
Proof.
  intros N. unfold task_step, same_axis_state.
  destruct (_motion_tasks s a) as [t|]; [|auto 6].
  destruct (t_phase t); auto 6.
  - destruct (motion_steps _ _ _); unfold_setters; rewrite !upd_other by congruence;
      auto 6.
  - destruct (Z.of_nat i <? _)%Z; unfold_setters; rewrite !upd_other by congruence; auto 6.
Qed.

Lemma wait_for_other_axes (budget : nat) (a b : AxisId) :
  b <> a -> forall s, same_axis_state s (fst (wait_for budget a s)) b.
Proof.
  intros N. induction budget as [|n IH]; intros s; cbn [wait_for];
    destruct (live_task s a); cbn [fst];
    eauto using same_axis_state_refl, cancel_and_await_other_axes, same_axis_state_trans,
      task_step_other_axes.
Qed.

Lemma move_axis_other_axes a b target relative speed (s : MockBackend) :
  b <> a -> same_axis_state s (fst (move_axis a target relative speed s)) b.
Proof.
  intros N. unfold move_axis.
  destruct (negb (_connected s)); [apply same_axis_state_refl|].
  destruct (negb (_servo_enabled s a)); [apply same_axis_state_refl|].
  assert (K : same_axis_state s (if live_task s a then cancel_and_await a s else s) b)
    by (destruct (live_task s a);
        [apply cancel_and_await_other_axes, N | apply same_axis_state_refl]).
  destruct (PyFloat.gtb _ _); cbn [fst]; [exact K|].
  unfold same_axis_state in *. unfold_setters. rewrite upd_other by congruence. exact K.
Qed.

Lemma wait_for_motion_complete_other_axes a b budget (s : MockBackend) :
  b <> a -> same_axis_state s (fst (wait_for_motion_complete a budget s)) b.
Proof.
  intros N. unfold wait_for_motion_complete.
  destruct (negb (_connected s)); [apply same_axis_state_refl|].
  destruct (negb (live_task s a)); [apply same_axis_state_refl|].
  pose proof (wait_for_other_axes budget N s) as K.
  destruct (wait_for budget a s) as [s' [| |]]; exact K.
Qed.

(** X8.  An operation on one axis (servo on or off, move, wait, home, or a
    resumption of its task) leaves the position, the flags and the task of
    every other axis exactly as they were. *)
Theorem operations_on_one_axis_leave_the_others (o : op) (s : MockBackend) (a b : AxisId) :
  op_axis o = Some a -> b <> a -> same_axis_state s (exec o s) b.
Proof.
  intros A N. destruct o; inversion A; subst; cbn [exec].
  - unfold enable_servo. destruct (negb (_connected s)); [apply same_axis_state_refl|].
    unfold same_axis_state. cbn [fst]. unfold_setters. rewrite upd_other by congruence. auto 6.
  - unfold disable_servo. destruct (negb (_connected s)); [apply same_axis_state_refl|].
    cbn [fst].
    assert (K : same_axis_state s (if _is_moving s a
                                   then if live_task s a then cancel_and_await a s else s
                                   else s) b).
    { destruct (_is_moving s a); [|apply same_axis_state_refl].
      destruct (live_task s a);
        [apply cancel_and_await_other_axes, N | apply same_axis_state_refl]. }
    unfold same_axis_state in *. unfold_setters. rewrite upd_other by congruence. exact K.
  - apply move_axis_other_axes, N.
  - apply wait_for_motion_complete_other_axes, N.
  - rewrite home_axis_is_move_then_wait. unfold bind.
    pose proof (@move_axis_other_axes a b 0 false None s N) as Km.
    destruct (move_axis a 0 false None s) as [s1 [[]|e]]; cbn [fst] in *; [|exact Km].
    pose proof (@wait_for_motion_complete_other_axes a b budget s1 N) as Kw.
    destruct (wait_for_motion_complete a budget s1) as [s2 [[]|e]]; cbn [fst] in *;
      [|eapply same_axis_state_trans; eassumption].
    eapply same_axis_state_trans; [exact Km|].
    unfold same_axis_state in *. unfold_setters. rewrite upd_other by congruence. exact Kw.
  - apply task_step_other_axes, N.
Qed.

Lemma operations_on_one_axis_leave_the_others_witness :
  let s := run [Connect; EnableServo X1; EnableServo Y1; MoveAxis Y1 50 false None;
                TaskStep Y1] init in
  same_axis_state s (exec (HomeAxis X1 9) s) Y1.
Proof.
  cbv zeta. apply (@operations_on_one_axis_leave_the_others (HomeAxis X1 9) _ X1 Y1).
  - reflexivity.
  - discriminate.
Defined.

(** *** Stage status *)

Lemma axes_status_connected (l : list AxisId) (s : MockBackend) :
  _connected s = true ->
  exists sts,
    axes_status l s = (s, Ok sts) /\
    map st_axis sts = l /\
    Forall (fun x => get_axis_status (st_axis x) s = (s, Ok x)) sts.
Proof.
  intros C. induction l as [|a l (sts & E & Ax & All)]; cbn [axes_status].
  - exists []. cbn. auto.
  - unfold bind at 1. unfold get_axis_status at 1. rewrite C. cbn [negb].
    unfold bind at 1. rewrite E.
    eexists. split; [reflexivity|]. cbn [map st_axis]. split; [congruence|].
    constructor; [|exact All]. cbn [st_axis]. unfold get_axis_status. rewrite C. reflexivity.
Qed.

(** X6.  On a connected backend [get_stage_status] returns, without
    touching the state, one entry per axis of the stage in the listed
    order, each being what [get_axis_status] returns for that axis; the two
    stages have six axes each and together are the twelve axes in order.
    On a disconnected backend it raises [HardwareError]. *)
Theorem get_stage_status_snapshot (stage : StageId) (s : MockBackend) :
  (_connected s = false -> get_stage_status stage s = (s, Raise HardwareError)) /\
  (_connected s = true ->
   exists st,
     get_stage_status stage s = (s, Ok st) /\
     stage_id st = stage /\ angle_offset st = 0 /\
     map st_axis (axes st) = stage_axes stage /\
     List.length (axes st) = 6%nat /\
     Forall (fun x => get_axis_status (st_axis x) s = (s, Ok x)) (axes st)) /\
  stage_axes LEFT ++ stage_axes RIGHT = all_axes.
Proof.
  split; [|split; [|reflexivity]].
  - intros C. unfold get_stage_status. rewrite C. reflexivity.
  - intros C. unfold get_stage_status. rewrite C. cbn [negb].
    destruct (@axes_status_connected (stage_axes stage) s C) as (sts & E & Ax & All).
    unfold bind. rewrite E. eexists. split; [reflexivity|]. cbn.
    split; [reflexivity|]. split; [reflexivity|]. split; [exact Ax|]. split; [|exact All].
    rewrite <- (List.length_map st_axis), Ax. destruct stage; reflexivity.
Qed.

Lemma get_stage_status_snapshot_witness :
  exists st,
    get_stage_status LEFT (run [Connect; EnableServo Z1] init)
    = (run [Connect; EnableServo Z1] init, Ok st) /\
    map st_axis (axes st) = [X1; Y1; Z1; TX1; TY1; TZ1].
Proof.
  destruct (get_stage_status_snapshot LEFT (run [Connect; EnableServo Z1] init))
    as (_ & On & _).
  destruct (On eq_refl) as (st & E & _ & _ & Ax & _).
  exists st. split; [exact E | exact Ax].
Defined.

End MockBookkeeping.

(** * Further properties of the hardware-bound engine *)

Section RealContract.

Variable D : Type.
Variable drv : Driver D.

Local Abbreviation state := (Real.RealBackend D).

Lemma wrap_as_raises {A} (e e' : exn) (c : M state A) (r : state) :
  snd (Real.wrap_as e c r) = Raise e' -> e' = e.
Proof.
  unfold Real.wrap_as. destruct (c r) as [r' [v|x]]; cbn; congruence.
Qed.

Lemma keep_move_errors_raises {A} (e : exn) (c : M state A) (r : state) :
  snd (Real.keep_move_errors c r) = Raise e -> e = MovementError \/ e = ServoError.
Proof.
  unfold Real.keep_move_errors. destruct (c r) as [r' [v|x]]; [discriminate|].
  destruct x; cbn; intros E; inversion E; auto.
Qed.

Lemma poll_in_position_raises (n : Z) (budget : nat) :
  forall (r : state) (e : exn),
    snd (Real.poll_in_position drv n budget r) = Raise e ->
    e = MovementError \/ e = TimeoutError \/ e = ForeignException.
Proof.
  induction budget as [|b IH]; intros r e; cbn [Real.poll_in_position];
    unfold bind, Real.vendor;
    destruct (GetStatus drv n (Real.hw r)) as [d [status|]]; cbn;
    try (intros E; inversion E; auto; fail);
    destruct (String.eqb status "InPosition"); cbn; try discriminate;
    destruct (String.eqb status "Error"); cbn;
    try (intros E; inversion E; auto; fail).
  apply IH.
Qed.

Lemma read_positions_raises (l : list AxisId) :
  forall (r : state) (e : exn),
    snd (Real.read_positions drv l r) = Raise e -> e = HardwareError.
Proof.
  induction l as [|a l IH]; intros r e; cbn [Real.read_positions]; [discriminate|].
  unfold bind at 1.
  destruct (Real.wrap_as HardwareError (Real.get_axis_position drv a) r)
    as [r1 [p|x]] eqn:W.
  - unfold bind. destruct (Real.read_positions drv l r1) as [r2 [ps|x]] eqn:R; cbn;
      [discriminate|].
    intros E. inversion E; subst. apply (IH r1). rewrite R. reflexivity.
  - cbn. intros E. inversion E; subst.
    apply (@wrap_as_raises _ HardwareError e (Real.get_axis_position drv a) r).
    rewrite W. reflexivity.
Qed.

(** X9.  Which exceptions each operation of the hardware-bound engine can
    raise, whatever the controller does: position, moving and servo queries
    and the status snapshots only [HardwareError]; [enable_servo] and
    [disable_servo] only [ServoError]; [move_axis] only [MovementError] or
    [ServoError]; [connect] only [ConnectionError]; and
    [wait_for_motion_complete], whose polling is not guarded, any of
    [HardwareError], [MovementError], [TimeoutError] or the controller's own
    exception. *)
Theorem real_engine_error_kinds (r : state) (a : AxisId) (target : float) (relative : bool)
        (speed : option float) (budget : nat) (stage : StageId) (e : exn) :
  (snd (Real.get_axis_position drv a r) = Raise e -> e = HardwareError) /\
  (snd (Real.get_all_positions drv r) = Raise e -> e = HardwareError) /\
  (snd (Real.is_axis_moving drv a r) = Raise e -> e = HardwareError) /\
  (snd (Real.is_servo_enabled drv a r) = Raise e -> e = HardwareError) /\
  (snd (Real.get_axis_status drv a r) = Raise e -> e = HardwareError) /\
  (snd (Real.get_stage_status drv stage r) = Raise e -> e = HardwareError) /\
  (snd (Real.enable_servo drv a r) = Raise e -> e = ServoError) /\
  (snd (Real.disable_servo drv a r) = Raise e -> e = ServoError) /\
  (snd (Real.move_axis drv a target relative speed r) = Raise e ->
   e = MovementError \/ e = ServoError) /\
  (snd (Real.connect drv r) = Raise e -> e = ConnectionError) /\
  (snd (Real.wait_for_motion_complete drv a budget r) = Raise e ->
   e = HardwareError \/ e = MovementError \/ e = TimeoutError \/ e = ForeignException).
Proof.
  split; [apply wrap_as_raises|].
  split.
  { unfold Real.get_all_positions. destruct (negb (Real._connected r)).
    - cbn. congruence.
    - apply read_positions_raises. }
  split; [apply wrap_as_raises|].
  split; [apply wrap_as_raises|].
  split; [apply wrap_as_raises|].
  split.
  { unfold Real.get_stage_status. destruct (negb (Real._connected r)).
    - cbn. congruence.
    - apply wrap_as_raises. }
  split; [apply wrap_as_raises|].
  split; [apply wrap_as_raises|].
  split; [apply keep_move_errors_raises|].
  split; [apply wrap_as_raises|].
  unfold Real.wait_for_motion_complete, bind.
  destruct (Real._get_axis_component a r) as [r1 [n|x]] eqn:G.
  - intros E. apply poll_in_position_raises in E. tauto.
  - cbn. intros E. inversion E; subst. left.
    unfold Real._get_axis_component in G.
    destruct (negb (Real._connected r)); [inversion G; reflexivity|].
    destruct (existsb _ _); inversion G. reflexivity.
Qed.

(** *** A disconnected engine *)

Lemma fold_servo_off_keeps (l : list Z) :
  forall r : state,
    Real._is_homed (fold_left (fun acc n => Real.servo_off_quiet drv n acc) l r)
    = Real._is_homed r.
Proof.
  induction l as [|n l IH]; intros r; cbn [fold_left]; [reflexivity|].
  rewrite IH. unfold Real.servo_off_quiet, Real.vendor.
  destruct (IsServoOn drv n (Real.hw r)) as [d [[|]|]]; cbn; try reflexivity.
  destruct (TurnOffServo drv n d) as [d' [[]|]]; reflexivity.
Qed.

(** X11.  [disconnect] never raises, whatever the controller does, and
    leaves the engine disconnected with no axis component and the homed
    flags as they were.  On a disconnected engine every operation fails
    without a single call to the controller: queries and the wait with
    [HardwareError], the servo switches with [ServoError], [move_axis] and
    [home_axis] with [MovementError]; [emergency_stop] returns having done
    nothing. *)
Theorem real_disconnected_engine (r : state) (a : AxisId) (target : float) (relative : bool)
        (speed : option float) (budget : nat) (stage : StageId) :
  (snd (Real.disconnect drv r) = Ok tt /\
   Real._connected (fst (Real.disconnect drv r)) = false /\
   Real._axis_components (fst (Real.disconnect drv r)) = [] /\
   Real._is_homed (fst (Real.disconnect drv r)) = Real._is_homed r) /\
  (Real._connected r = false ->
   Real.get_axis_position drv a r = (r, Raise HardwareError) /\
   Real.get_all_positions drv r = (r, Raise HardwareError) /\
   Real.is_axis_moving drv a r = (r, Raise HardwareError) /\
   Real.is_servo_enabled drv a r = (r, Raise HardwareError) /\
   Real.get_axis_status drv a r = (r, Raise HardwareError) /\
   Real.get_stage_status drv stage r = (r, Raise HardwareError) /\
   Real.wait_for_motion_complete drv a budget r = (r, Raise HardwareError) /\
   Real.enable_servo drv a r = (r, Raise ServoError) /\
   Real.disable_servo drv a r = (r, Raise ServoError) /\
   Real.move_axis drv a target relative speed r = (r, Raise MovementError) /\
   Real.home_axis drv a budget r = (r, Raise MovementError) /\
   Real.emergency_stop drv r = (r, Ok tt)).
Proof.
  split.
  - unfold Real.disconnect. cbn [fst snd Real.set_connected Real.set_components
                                 Real._connected Real._axis_components Real._is_homed].
    repeat split. apply fold_servo_off_keeps.
  - intros C.
    unfold Real.get_axis_position, Real.get_all_positions, Real.is_axis_moving,
      Real.is_servo_enabled, Real.get_axis_status, Real.get_stage_status,
      Real.wait_for_motion_complete, Real.enable_servo, Real.disable_servo,
      Real.home_axis, Real.move_axis, Real.emergency_stop,
      Real.get_axis_position, Real.wrap_as, Real.keep_move_errors, bind,
      Real._get_axis_component.
    rewrite C. cbn. repeat split.
Qed.

End RealContract.

Lemma real_engine_error_kinds_witness :
  let r := Real.mkReal true Real.twelve (fun _ => false) tt in
  snd (Real.wait_for_motion_complete Rig.unreachable X1 3 r) = Raise ForeignException /\
  (ForeignException = HardwareError \/ ForeignException = MovementError \/
   ForeignException = TimeoutError \/ ForeignException = ForeignException).
Proof.
  cbv zeta.
  destruct (@real_engine_error_kinds unit Rig.unreachable
              (Real.mkReal true Real.twelve (fun _ => false) tt)
              X1 5 false None 3 LEFT ForeignException)
    as (_ & _ & _ & _ & _ & _ & _ & _ & _ & _ & W).
  split; [vm_compute; reflexivity | apply W; vm_compute; reflexivity].
Defined.

Lemma real_disconnected_engine_witness :
  let r := fst (Real.disconnect Rig.driver
                  (fst (Real.connect Rig.driver (Real.init Rig.healthy)))) in
  Real._connected r = false /\
  Real.move_axis Rig.driver X1 5 false None r = (r, Raise MovementError) /\
  Real.get_axis_position Rig.driver X1 r = (r, Raise HardwareError).
Proof.
  cbv zeta.
  destruct (@real_disconnected_engine Rig.rig Rig.driver
              (fst (Real.disconnect Rig.driver
                      (fst (Real.connect Rig.driver (Real.init Rig.healthy)))))
              X1 5 false None 3 LEFT) as (_ & Off).
  destruct (Off eq_refl) as (P & _ & _ & _ & _ & _ & _ & _ & _ & Mv & _).
  split; [reflexivity | split; [exact Mv | exact P]].
Defined.

Section RealCalls.

Variable D : Type.
Variable drv : Driver D.

Local Abbreviation tstate := (Real.RealBackend (D * list drv_call)).

Lemma moves_commanded_app (l1 l2 : list drv_call) :
  moves_commanded (l1 ++ l2) = moves_commanded l1 ++ moves_commanded l2.
Proof. unfold moves_commanded. apply flat_map_app. Qed.

Lemma vendor_record_call {A} (c : drv_call) (f : D -> D * option A) (r : tstate) :
  Real.vendor (record_call c f) r
  = (Real.set_hw (fst (f (fst (Real.hw r))), snd (Real.hw r) ++ [c]) r,
     match snd (f (fst (Real.hw r))) with
     | Some v => Ok v
     | None => Raise ForeignException
     end).
Proof.
  unfold Real.vendor, record_call.
  destruct (f (fst (Real.hw r))) as [d [v|]]; reflexivity.
Qed.

(** X10.  [move_axis] sends at most one motion command to the controller,
    to the component of its axis, and sends it exactly when the engine is
    connected, holds that component and the controller reports the servo
    on; a move that returns normally has sent it. *)
Theorem real_move_axis_commands (r : tstate) (a : AxisId) (target : float)
        (relative : bool) (speed : option float) :
  let out := Real.move_axis (traced drv) a target relative speed r in
  let n := axis_value a in
  let servo_reported_on :=
    match snd (IsServoOn drv n (fst (Real.hw r))) with
    | Some true => true
    | _ => false
    end in
  let sent := Real._connected r && existsb (Z.eqb n) (Real._axis_components r)
              && servo_reported_on in
  moves_commanded (snd (Real.hw (fst out)))
  = moves_commanded (snd (Real.hw r)) ++ (if sent then [n] else []) /\
  (snd out = Ok tt -> sent = true).
Proof.
  cbv zeta. unfold Real.move_axis, Real.keep_move_errors, bind, Real._get_axis_component.
  destruct (Real._connected r); cbn [negb andb];
    [|cbn; rewrite app_nil_r; split; [reflexivity | discriminate]].
  destruct (existsb (Z.eqb (axis_value a)) (Real._axis_components r)); cbn [andb];
    [|cbn; rewrite app_nil_r; split; [reflexivity | discriminate]].
  cbn [IsServoOn traced]. rewrite vendor_record_call.
  destruct (IsServoOn drv (axis_value a) (fst (Real.hw r))) as [d [[|]|]];
    cbn [fst snd negb];
    try (cbn; rewrite moves_commanded_app; cbn; split; [reflexivity | discriminate]).
  destruct relative; cbn [MoveRelative MoveAbsolute traced];
    rewrite vendor_record_call; cbn [fst snd Real.hw Real.set_hw];
    match goal with
    | |- context [MoveRelative drv ?n ?t ?d] =>
        destruct (MoveRelative drv n t d) as [d' [err|]]
    | |- context [MoveAbsolute drv ?n ?t ?d] =>
        destruct (MoveAbsolute drv n t d) as [d' [err|]]
    end;
    cbn [fst snd];
    try destruct (negb (String.eqb err "None"));
    cbn; rewrite !moves_commanded_app; cbn; rewrite ?app_nil_r; auto.
Qed.

Lemma status_polls_app (l1 l2 : list drv_call) :
  status_polls (l1 ++ l2) = (status_polls l1 + status_polls l2)%nat.
Proof. unfold status_polls. rewrite filter_app, length_app. reflexivity. Qed.

Lemma one_poll (n : Z) (budget : nat) (r : tstate) (d : D) (res : result unit) :
  res <> Raise TimeoutError ->
  let r' := Real.set_hw (d, snd (Real.hw r) ++ [CallGetStatus n]) r in
  exists k : nat,
    status_polls (snd (Real.hw r')) = (status_polls (snd (Real.hw r)) + k)%nat /\
    (1 <= k <= budget + 1)%nat /\
    (res = Raise TimeoutError -> k = (budget + 1)%nat) /\
    moves_commanded (snd (Real.hw r')) = moves_commanded (snd (Real.hw r)) /\
    Real._connected r' = Real._connected r.
Proof.
  intros N. exists 1%nat. cbn [Real.hw Real.set_hw snd Real._connected].
  rewrite status_polls_app, moves_commanded_app. cbn. rewrite app_nil_r.
  repeat split; try lia. intros E. contradiction.
Qed.

Lemma poll_in_position_traced (n : Z) (budget : nat) :
  forall r : tstate,
    let out := Real.poll_in_position (traced drv) n budget r in
    exists k : nat,
      status_polls (snd (Real.hw (fst out))) = (status_polls (snd (Real.hw r)) + k)%nat /\
      (1 <= k <= budget + 1)%nat /\
      (snd out = Raise TimeoutError -> k = (budget + 1)%nat) /\
      moves_commanded (snd (Real.hw (fst out))) = moves_commanded (snd (Real.hw r)) /\
      Real._connected (fst out) = Real._connected r.
Proof.
  induction budget as [|b IH]; intros r; cbv zeta; cbn [Real.poll_in_position];
    unfold bind; cbn [GetStatus traced]; rewrite vendor_record_call;
    destruct (GetStatus drv n (fst (Real.hw r))) as [d [status|]]; cbn [fst snd];
    try (apply one_poll; intros; discriminate);
    destruct (String.eqb status "InPosition");
    try (apply one_poll; intros; discriminate);
    destruct (String.eqb status "Error");
    try (apply one_poll; intros; discriminate).
  - exists 1%nat. cbn [raise fst snd Real.hw Real.set_hw Real._connected].
    rewrite status_polls_app, moves_commanded_app. cbn. rewrite ?app_nil_r.
    repeat split; lia.
  - destruct (IH (Real.set_hw (d, snd (Real.hw r) ++ [CallGetStatus n]) r))
      as (k & P & B & T & Mv & C).
    exists (S k). cbn [Real.hw Real.set_hw Real._connected snd] in *.
    rewrite P, Mv, status_polls_app, moves_commanded_app. cbn. rewrite app_nil_r.
    repeat split; try lia; try assumption.
    intros E. rewrite (T E). lia.
Qed.

(** X13.  On a connected engine that holds the component of the axis,
    [wait_for_motion_complete] polls the controller's status at least once
    and at most [budget + 1] times, all of them when it ends with
    [TimeoutError]; it sends no motion command and leaves the engine
    connected. *)
Theorem real_wait_polls_are_bounded (r : tstate) (a : AxisId) (budget : nat) :
  Real._connected r = true ->
  existsb (Z.eqb (axis_value a)) (Real._axis_components r) = true ->
  let out := Real.wait_for_motion_complete (traced drv) a budget r in
  exists k : nat,
    status_polls (snd (Real.hw (fst out))) = (status_polls (snd (Real.hw r)) + k)%nat /\
    (1 <= k <= budget + 1)%nat /\
    (snd out = Raise TimeoutError -> k = (budget + 1)%nat) /\
    moves_commanded (snd (Real.hw (fst out))) = moves_commanded (snd (Real.hw r)) /\
    Real._connected (fst out) = true.
Proof.
  intros C H. cbv zeta.
  unfold Real.wait_for_motion_complete, bind, Real._get_axis_component.
  rewrite C, H. cbn [negb].
  destruct (poll_in_position_traced (axis_value a) budget r) as (k & P & B & T & Mv & K).
  exists k. rewrite K. auto.
Qed.

End RealCalls.

Lemma real_move_axis_commands_witness :
  let r := fst (Real.connect (traced Rig.driver) (Real.init (Rig.healthy, []))) in
  snd (Real.move_axis (traced Rig.driver) Y1 5 false None r) = Ok tt /\
  moves_commanded (snd (Real.hw (fst (Real.move_axis (traced Rig.driver) Y1 5 false None r))))
  = [2%Z].
Proof.
  cbv zeta.
  destruct (@real_move_axis_commands Rig.rig Rig.driver
              (fst (Real.connect (traced Rig.driver) (Real.init (Rig.healthy, []))))
              Y1 5 false None) as [Sent _].
  split; [vm_compute; reflexivity|].
  rewrite Sent. vm_compute. reflexivity.
Defined.

Lemma real_wait_polls_are_bounded_witness :
  let r := fst (Real.connect (traced Rig.driver) (Real.init (Rig.healthy, []))) in
  let out := Real.wait_for_motion_complete (traced Rig.driver) X1 7 r in
  Real._connected r = true /\
  existsb (Z.eqb (axis_value X1)) (Real._axis_components r) = true /\
  moves_commanded (snd (Real.hw (fst out))) = moves_commanded (snd (Real.hw r)) /\
  Real._connected (fst out) = true.
Proof.
  cbv zeta.
  destruct (@real_wait_polls_are_bounded Rig.rig Rig.driver
              (fst (Real.connect (traced Rig.driver) (Real.init (Rig.healthy, []))))
              X1 7 eq_refl eq_refl) as (k & _ & _ & _ & Mv & C).
  split; [reflexivity | split; [reflexivity | split; [exact Mv | exact C]]].
Defined.

(** ** Connecting the hardware-bound engine *)

Section RealConnect.

Variable D : Type.
Variable drv : Driver D.

Local Abbreviation state := (Real.RealBackend D).

Lemma vendor_keeps {A} (f : D -> D * option A) (r : state) :
  Real._connected (fst (Real.vendor f r)) = Real._connected r /\
  Real._axis_components (fst (Real.vendor f r)) = Real._axis_components r /\
  Real._is_homed (fst (Real.vendor f r)) = Real._is_homed r.
Proof.
  unfold Real.vendor. destruct (f (Real.hw r)) as [d [v|]]; cbn; auto.
Qed.

Lemma await_connected_keeps (tries : nat) :
  forall r : state,
    Real._connected (fst (Real.await_connected drv tries r)) = Real._connected r /\
    Real._axis_components (fst (Real.await_connected drv tries r))
    = Real._axis_components r /\
    Real._is_homed (fst (Real.await_connected drv tries r)) = Real._is_homed r.
Proof.
  induction tries as [|n IH]; intros r; cbn [Real.await_connected]; [cbn; auto|].
  unfold bind. pose proof (vendor_keeps (Connected drv) r) as (C & K & H).
  destruct (Real.vendor (Connected drv) r) as [r1 [[|]|e]]; cbn [fst] in *; auto.
  destruct (IH r1) as (C1 & K1 & H1). rewrite C1, K1, H1. auto.
Qed.

Lemma servo_on_all_keeps (l : list Z) :
  forall r : state,
    Real._connected (fst (Real.servo_on_all drv l r)) = Real._connected r /\
    Real._axis_components (fst (Real.servo_on_all drv l r)) = Real._axis_components r /\
    Real._is_homed (fst (Real.servo_on_all drv l r)) = Real._is_homed r.
Proof.
  induction l as [|n l IH]; intros r; cbn [Real.servo_on_all]; [cbn; auto|].
  unfold bind. pose proof (vendor_keeps (IsServoOn drv n) r) as (C & K & H).
  destruct (Real.vendor (IsServoOn drv n) r) as [r1 [on|e]]; cbn [fst] in *; auto.
  destruct on.
  - cbn. destruct (IH r1) as (C1 & K1 & H1). rewrite C1, K1, H1. auto.
  - pose proof (vendor_keeps (TurnOnServo drv n) r1) as (C2 & K2 & H2).
    destruct (Real.vendor (TurnOnServo drv n) r1) as [r2 [[]|e]]; cbn [fst] in *.
    + destruct (IH r2) as (C1 & K1 & H1). rewrite C1, K1, H1.
      rewrite C2, K2, H2. auto.
    + rewrite C2, K2, H2. auto.
Qed.

(** What a successful [connect] leaves behind. *)
Lemma real_connect_ok (r : state) :
  snd (Real.connect drv r) = Ok tt ->
  Real._connected (fst (Real.connect drv r)) = true /\
  Real._axis_components (fst (Real.connect drv r)) = Real.twelve /\
  Real._is_homed (fst (Real.connect drv r)) = Real._is_homed r.
Proof.
  unfold Real.connect, Real.wrap_as, bind.
  pose proof (vendor_keeps (LoadDll drv) r) as (_ & _ & H0).
  destruct (Real.vendor (LoadDll drv) r) as [r1 [[]|e]]; cbn [fst snd] in *;
    [|discriminate].
  pose proof (vendor_keeps (SetAddress drv) (Real.set_components Real.twelve r1))
    as (_ & K1 & H1).
  destruct (Real.vendor (SetAddress drv) (Real.set_components Real.twelve r1))
    as [r2 [[]|e]]; cbn [fst snd] in *; [|discriminate].
  pose proof (await_connected_keeps 10 r2) as (_ & K2 & H2).
  destruct (Real.await_connected drv 10 r2) as [r3 [[|]|e]]; cbn [fst snd] in *;
    try discriminate.
  pose proof (servo_on_all_keeps (Real._axis_components (Real.set_connected true r3))
                                 (Real.set_connected true r3)) as (C3 & K3 & H3).
  destruct (Real.servo_on_all drv _ (Real.set_connected true r3)) as [r4 [[]|e]];
    cbn [fst snd] in *; [|discriminate].
  intros _. rewrite C3, K3, H3. cbn. rewrite K2, H2, K1, H1. cbn. auto.
Qed.

Lemma twelve_has_every_axis (a : AxisId) :
  existsb (Z.eqb (axis_value a)) Real.twelve = true.
Proof. destruct a; reflexivity. Qed.

End RealConnect.

Section RealConnectCalls.

Variable D : Type.
Variable drv : Driver D.

Local Abbreviation tstate := (Real.RealBackend (D * list drv_call)).

Lemma vendor_untraced {A} (f : D -> D * option A) (r : tstate) :
  snd (Real.hw (fst (Real.vendor
                       (fun w => let (d', x) := f (fst w) in ((d', snd w), x)) r)))
  = snd (Real.hw r).
Proof.
  unfold Real.vendor. destruct (f (fst (Real.hw r))) as [d [v|]]; reflexivity.
Qed.

Lemma await_connected_untraced (tries : nat) :
  forall r : tstate,
    snd (Real.hw (fst (Real.await_connected (traced drv) tries r))) = snd (Real.hw r).
Proof.
  induction tries as [|n IH]; intros r; cbn [Real.await_connected]; [reflexivity|].
  unfold bind. cbn [Connected traced].
  pose proof (vendor_untraced (Connected drv) r) as V.
  destruct (Real.vendor _ r) as [r1 [[|]|e]]; cbn [fst] in *; auto.
  rewrite IH. exact V.
Qed.

Lemma servo_on_all_traced (l : list Z) :
  forall r : tstate,
    snd (Real.servo_on_all (traced drv) l r) = Ok tt ->
    servo_queries (snd (Real.hw (fst (Real.servo_on_all (traced drv) l r))))
    = servo_queries (snd (Real.hw r)) ++ l.
Proof.
  induction l as [|n l IH]; intros r; cbn [Real.servo_on_all].
  - intros _. cbn. rewrite app_nil_r. reflexivity.
  - unfold bind. cbn [IsServoOn TurnOnServo traced]. rewrite vendor_record_call.
    destruct (IsServoOn drv n (fst (Real.hw r))) as [d [[|]|]]; cbn [fst snd];
      [| |discriminate].
    + cbn [ret]. intros Ok1. rewrite (IH _ Ok1). cbn [Real.hw Real.set_hw snd].
      rewrite servo_queries_app. cbn. rewrite <- ?app_assoc. reflexivity.
    + rewrite vendor_record_call. cbn [Real.hw Real.set_hw fst snd].
      destruct (TurnOnServo drv n d) as [d' [[]|]]; cbn [fst snd]; [|discriminate].
      intros Ok1. rewrite (IH _ Ok1). cbn [Real.hw Real.set_hw snd].
      rewrite !servo_queries_app. cbn. rewrite ?app_nil_r, <- ?app_assoc. reflexivity.
Qed.

(** X12.  [connect] either returns or raises [ConnectionError].  When it
    returns, the engine is connected and holds the twelve components, so
    that every axis resolves to its component; the homed flags are as
    before, and the servo of each component has been queried once, in
    order 1..12. *)
Theorem real_connect_outcome (r : tstate) :
  let out := Real.connect (traced drv) r in
  (snd out = Ok tt \/ snd out = Raise ConnectionError) /\
  (snd out = Ok tt ->
   Real._connected (fst out) = true /\
   Real._axis_components (fst out) = Real.twelve /\
   Real._is_homed (fst out) = Real._is_homed r /\
   (forall a, Real._get_axis_component a (fst out) = (fst out, Ok (axis_value a))) /\
   servo_queries (snd (Real.hw (fst out))) = servo_queries (snd (Real.hw r)) ++ Real.twelve).
Proof.
  cbv zeta. split.
  { unfold Real.connect, Real.wrap_as.
    match goal with |- context [let (_, _) := ?c r in _] => destruct (c r) as [r' [[]|e]] end;
      cbn; auto. }
  intros Fine. destruct (real_connect_ok (traced drv) r Fine) as (C & K & H).
  split; [exact C|]. split; [exact K|]. split; [exact H|]. split.
  { intros a. unfold Real._get_axis_component. rewrite C, K, twelve_has_every_axis.
    reflexivity. }
  revert Fine. clear C K H.
  unfold Real.connect, Real.wrap_as, bind. cbn [LoadDll SetAddress traced].
  pose proof (vendor_untraced (LoadDll drv) r) as L0.
  destruct (Real.vendor _ r) as [r1 [[]|e]]; cbn [fst snd] in *; [|discriminate].
  pose proof (vendor_untraced (SetAddress drv) (Real.set_components Real.twelve r1)) as L1.
  pose proof (vendor_keeps (SetAddress (traced drv)) (Real.set_components Real.twelve r1))
    as (_ & K1 & _).
  cbn [SetAddress traced] in K1.
  destruct (Real.vendor _ (Real.set_components Real.twelve r1)) as [r2 [[]|e]];
    cbn [fst snd] in *; [|discriminate].
  pose proof (await_connected_untraced 10 r2) as L2.
  pose proof (await_connected_keeps (traced drv) 10 r2) as (_ & K2 & _).
  destruct (Real.await_connected (traced drv) 10 r2) as [r3 [[|]|e]]; cbn [fst snd] in *;
    try discriminate.
  pose proof (servo_on_all_traced (Real._axis_components (Real.set_connected true r3))
                                  (Real.set_connected true r3)) as Q3.
  destruct (Real.servo_on_all (traced drv) _ (Real.set_connected true r3))
    as [r4 [[]|e]]; cbn [fst snd] in *; [|discriminate].
  intros _. rewrite (Q3 eq_refl). cbn [Real.set_connected Real.hw Real._axis_components].
  rewrite L2, K2, L1, K1. cbn [Real.set_components Real.hw Real._axis_components].
  rewrite L0. reflexivity.
Qed.

End RealConnectCalls.

Lemma real_connect_outcome_witness :
  let out := Real.connect (traced Rig.driver) (Real.init (Rig.healthy, [])) in
  snd out = Ok tt /\
  Real._connected (fst out) = true /\
  servo_queries (snd (Real.hw (fst out))) = [1; 2; 3; 4; 5; 6; 7; 8; 9; 10; 11; 12]%Z.
Proof.
  cbv zeta.
  destruct (@real_connect_outcome Rig.rig Rig.driver (Real.init (Rig.healthy, [])))
    as [_ Post].
  destruct (Post eq_refl) as (C & _ & _ & _ & Qs).
  split; [reflexivity|]. split; [exact C | exact Qs].
Defined.

(** ** The life of the daemon *)

Section RealSteady.

Variable D : Type.
Variable drv : Driver D.

Local Abbreviation state := (Real.RealBackend D).

Lemma bind_keeps_connection {A B} (c : M state A) (k : A -> M state B) :
  (forall s, Real._connected (fst (c s)) = Real._connected s) ->
  (forall v s, Real._connected (fst (k v s)) = Real._connected s) ->
  forall s, Real._connected (fst (bind c k s)) = Real._connected s.
Proof.
  intros Hc Hk s. unfold bind. specialize (Hc s).
  destruct (c s) as [s1 [v|e]]; cbn [fst] in *; [|exact Hc].
  rewrite Hk. exact Hc.
Qed.

Lemma wrap_as_keeps_connection {A} (e : exn) (c : M state A) :
  (forall s, Real._connected (fst (c s)) = Real._connected s) ->
  forall s, Real._connected (fst (Real.wrap_as e c s)) = Real._connected s.
Proof.
  intros Hc s. unfold Real.wrap_as. specialize (Hc s).
  destruct (c s) as [s1 [v|x]]; exact Hc.
Qed.

Lemma get_axis_component_keeps (a : AxisId) (s : state) :
  fst (Real._get_axis_component a s) = s.
Proof.
  unfold Real._get_axis_component.
  destruct (negb (Real._connected s)); [reflexivity|].
  destruct (existsb _ _); reflexivity.
Qed.

Lemma component_call_keeps_connection {A} (e : exn) (a : AxisId)
      (f : Z -> D -> D * option A) :
  forall s,
    Real._connected (fst (Real.wrap_as e (bind (Real._get_axis_component a)
                                               (fun n => Real.vendor (f n))) s))
    = Real._connected s.
Proof.
  apply wrap_as_keeps_connection, bind_keeps_connection.
  - intros s. rewrite get_axis_component_keeps. reflexivity.
  - intros n s. apply vendor_keeps.
Qed.

Lemma real_get_axis_status_keeps_connection (a : AxisId) :
  forall s, Real._connected (fst (Real.get_axis_status drv a s)) = Real._connected s.
Proof.
  unfold Real.get_axis_status.
  apply wrap_as_keeps_connection, bind_keeps_connection;
    [apply component_call_keeps_connection|].
  intros position. apply bind_keeps_connection;
    [apply component_call_keeps_connection|].
  intros servo_enabled. apply bind_keeps_connection; [|reflexivity].
  unfold Real.is_axis_moving.
  apply wrap_as_keeps_connection, bind_keeps_connection.
  - intros s. rewrite get_axis_component_keeps. reflexivity.
  - intros n. apply bind_keeps_connection; [intros s; apply vendor_keeps | reflexivity].
Qed.

Lemma real_axes_status_keeps_connection (l : list AxisId) :
  forall s, Real._connected (fst (Real.axes_status drv l s)) = Real._connected s.
Proof.
  induction l as [|a l IH]; cbn [Real.axes_status]; [reflexivity|].
  apply bind_keeps_connection; [apply real_get_axis_status_keeps_connection|].
  intros st. apply bind_keeps_connection; [exact IH | reflexivity].
Qed.

Lemma real_get_stage_status_keeps_connection (stage : StageId) (s : state) :
  Real._connected (fst (Real.get_stage_status drv stage s)) = Real._connected s.
Proof.
  unfold Real.get_stage_status. destruct (negb (Real._connected s)); [reflexivity|].
  apply wrap_as_keeps_connection, bind_keeps_connection;
    [apply real_axes_status_keeps_connection | reflexivity].
Qed.

Lemma stop_component_keeps_connection (n : Z) (s : state) :
  Real._connected (Real.stop_component drv n s) = Real._connected s.
Proof.
  unfold Real.stop_component.
  pose proof (vendor_keeps (IsServoOn drv n) s) as (C & _).
  destruct (Real.vendor (IsServoOn drv n) s) as [s1 [[|]|e]]; cbn [fst] in *;
    try exact C.
  pose proof (vendor_keeps (TurnOffServo drv n) s1) as (C1 & _). congruence.
Qed.

Lemma real_emergency_stop_keeps_connection (s : state) :
  Real._connected (fst (Real.emergency_stop drv s)) = Real._connected s.
Proof.
  unfold Real.emergency_stop. destruct (negb (Real._connected s)); [reflexivity|].
  cbn [fst]. apply (fold_left_preserves (fun x => Real._connected x = Real._connected s));
    [|reflexivity].
  intros x n Hx. rewrite stop_component_keeps_connection. exact Hx.
Qed.

End RealSteady.

Section DaemonLife.

Variable D : Type.
Variable drv : Driver D.

Local Abbreviation daemon := (Daemon.EW51Daemon D).

Lemma mock_emergency_stop_keeps_connection (m : Mock.MockBackend) :
  Mock._connected (fst (Mock.emergency_stop m)) = Mock._connected m.
Proof.
  unfold Mock.emergency_stop. cbn [fst].
  apply (fold_left_preserves (fun x => Mock._connected x = Mock._connected m));
    [|reflexivity].
  intros x a Hx. rewrite stop_axis_keeps_connection. exact Hx.
Qed.

Lemma mock_get_stage_status_keeps (stage : StageId) (m : Mock.MockBackend) :
  fst (Mock.get_stage_status stage m) = m.
Proof.
  unfold Mock.get_stage_status. destruct (Mock._connected m) eqn:C; [|reflexivity].
  cbn [negb]. destruct (@axes_status_connected (Mock.stage_axes stage) m C)
    as (sts & E & _).
  unfold bind. rewrite E. reflexivity.
Qed.

Lemma b_connect_ok (b : Backend D) :
  snd (b_connect drv b) = Ok tt ->
  is_connected (fst (b_connect drv b)) = true.
Proof.
  destruct b as [m|r]; cbn [b_connect].
  - intros _. reflexivity.
  - unfold in_real. intros Fine.
    pose proof (real_connect_ok drv r) as K.
    destruct (Real.connect drv r) as [r' x]; cbn [fst snd] in *.
    apply K, Fine.
Qed.

Lemma b_connect_variant (b : Backend D) :
  is_mock (fst (b_connect drv b)) = is_mock b.
Proof.
  destruct b as [m|r]; cbn [b_connect]; [reflexivity|].
  unfold in_real. destruct (Real.connect drv r); reflexivity.
Qed.

Lemma b_disconnect_returns (b : Backend D) : snd (b_disconnect drv b) = Ok tt.
Proof. destruct b; reflexivity. Qed.

Lemma b_emergency_stop_keeps (b : Backend D) :
  snd (b_emergency_stop drv b) = Ok tt /\
  is_connected (fst (b_emergency_stop drv b)) = is_connected b /\
  is_mock (fst (b_emergency_stop drv b)) = is_mock b.
Proof.
  destruct b as [m|r]; cbn [b_emergency_stop].
  - pose proof (mock_emergency_stop_keeps_connection m) as C.
    assert (R : snd (Mock.emergency_stop m) = Ok tt)
      by (unfold Mock.emergency_stop; cbn [snd]; reflexivity).
    unfold in_mock. destruct (Mock.emergency_stop m) as [m' x].
    cbn [fst snd is_connected is_mock] in *.
    split; [exact R | split; [exact C | reflexivity]].
  - unfold in_real.
    pose proof (real_emergency_stop_returns drv r) as R.
    pose proof (real_emergency_stop_keeps_connection drv r) as C.
    destruct (Real.emergency_stop drv r) as [r' x]; cbn [fst snd] in *. auto.
Qed.

Lemma b_get_stage_status_keeps (stage : StageId) (b : Backend D) :
  is_connected (fst (b_get_stage_status drv stage b)) = is_connected b /\
  is_mock (fst (b_get_stage_status drv stage b)) = is_mock b.
Proof.
  destruct b as [m|r]; cbn [b_get_stage_status].
  - unfold in_mock. pose proof (mock_get_stage_status_keeps stage m) as K.
    destruct (Mock.get_stage_status stage m) as [m' x]; cbn [fst] in *. subst m'. auto.
  - unfold in_real. pose proof (real_get_stage_status_keeps_connection drv stage r) as K.
    destruct (Real.get_stage_status drv stage r) as [r' x]; cbn [fst] in *. auto.
Qed.

Lemma start_settled (use_mock : bool) (world : D) (d : daemon) :
  Daemon.settled use_mock d -> Daemon.settled use_mock (fst (Daemon.start drv world d)).
Proof.
  intros St. pose proof St as (Hmock & Hstate & Hnone & Hready & Hnever).
  unfold Daemon.start.
  destruct (Daemon.DaemonState_eqb (Daemon._state d) STOPPED) eqn:E; cbn [negb];
    [|exact St].
  cbn [Daemon.set_state Daemon._use_mock].
  set (fresh := if Daemon._use_mock d then MockB Mock.init else RealB (Real.init world)).
  assert (V : is_mock fresh = use_mock).
  { subst fresh. rewrite Hmock. destruct use_mock; reflexivity. }
  pose proof (@b_connect_ok fresh) as Fine.
  pose proof (b_connect_variant fresh) as Var.
  assert (Mk : use_mock = true -> snd (b_connect drv fresh) = Ok tt).
  { intros ->. subst fresh. rewrite Hmock. reflexivity. }
  destruct (b_connect drv fresh) as [b' [[]|e]]; cbn [fst snd] in *;
    unfold Daemon.settled;
    cbn [Daemon.set_state Daemon.set_backend Daemon._use_mock Daemon._state
         Daemon._backend].
  - split; [exact Hmock|]. split; [auto|]. split; [split; discriminate|].
    split; [|discriminate]. intros _. exists b'. split; [reflexivity|].
    split; [apply Fine; reflexivity | congruence].
  - split; [exact Hmock|]. split; [auto|]. split; [split; discriminate|].
    split; [discriminate|]. intros M. specialize (Mk M). discriminate Mk.
Qed.

Lemma stop_outcome (d : daemon) :
  snd (Daemon.stop drv d) = Ok tt /\
  Daemon._state (fst (Daemon.stop drv d)) = STOPPED /\
  Daemon._use_mock (fst (Daemon.stop drv d)) = Daemon._use_mock d /\
  (Daemon._state d = STOPPED -> fst (Daemon.stop drv d) = d) /\
  (Daemon._state d <> STOPPED ->
   Daemon._backend (fst (Daemon.stop drv d)) = None /\
   Daemon.history (fst (Daemon.stop drv d)) = Daemon.history d ++ [STOPPING; STOPPED]).
Proof.
  unfold Daemon.stop.
  destruct (Daemon.DaemonState_eqb (Daemon._state d) STOPPED) eqn:E.
  - apply DaemonState_eqb_eq in E. cbn. split; [reflexivity|]. split; [exact E|].
    split; [reflexivity|]. split; [reflexivity|]. intros N. contradiction.
  - assert (N : Daemon._state d <> STOPPED).
    { intros K. apply DaemonState_eqb_eq in K. congruence. }
    cbn [Daemon.set_state Daemon._backend].
    destruct (Daemon._backend d) as [b|] eqn:B.
    + pose proof (b_disconnect_returns b) as R.
      destruct (b_disconnect drv b) as [b' [[]|e]]; cbn [snd] in R; [|discriminate R].
      cbn. rewrite <- app_assoc. cbn. split; [reflexivity|]. split; [reflexivity|].
      split; [reflexivity|]. split; [intros K; contradiction | auto].
    + cbn. rewrite B, <- app_assoc. cbn. split; [reflexivity|]. split; [reflexivity|].
      split; [reflexivity|]. split; [intros K; contradiction | auto].
Qed.

Lemma stop_settled (use_mock : bool) (d : daemon) :
  Daemon.settled use_mock d -> Daemon.settled use_mock (fst (Daemon.stop drv d)).
Proof.
  intros St. pose proof St as (Hmock & Hstate & Hnone & Hready & Hnever).
  destruct (stop_outcome d) as (_ & S1 & M1 & Same & Gone).
  destruct (Daemon.DaemonState_eqb (Daemon._state d) STOPPED) eqn:E.
  - apply DaemonState_eqb_eq in E. rewrite (Same E). exact St.
  - assert (N : Daemon._state d <> STOPPED).
    { intros K. apply DaemonState_eqb_eq in K. congruence. }
    destruct (Gone N) as (B1 & _). unfold Daemon.settled. rewrite S1, M1, B1.
    split; [exact Hmock|]. split; [auto|]. split; [tauto|].
    split; discriminate.
Qed.

Lemma emergency_stop_outcome (d : daemon) :
  snd (Daemon.emergency_stop drv d) = Ok tt /\
  Daemon._state (fst (Daemon.emergency_stop drv d)) = Daemon._state d /\
  Daemon._use_mock (fst (Daemon.emergency_stop drv d)) = Daemon._use_mock d /\
  Daemon.history (fst (Daemon.emergency_stop drv d)) = Daemon.history d /\
  match Daemon._backend d with
  | None => Daemon._backend (fst (Daemon.emergency_stop drv d)) = None
  | Some b =>
      exists b', Daemon._backend (fst (Daemon.emergency_stop drv d)) = Some b' /\
                 is_connected b' = is_connected b /\ is_mock b' = is_mock b
  end.
Proof.
  unfold Daemon.emergency_stop. destruct (Daemon._backend d) as [b|] eqn:B.
  - destruct (b_emergency_stop_keeps b) as (R & C & V).
    destruct (b_emergency_stop drv b) as [b' x]; cbn [fst snd] in *. cbn.
    repeat split; auto. exists b'. auto.
  - cbn. rewrite B. auto.
Qed.

Lemma emergency_stop_settled (use_mock : bool) (d : daemon) :
  Daemon.settled use_mock d ->
  Daemon.settled use_mock (fst (Daemon.emergency_stop drv d)).
Proof.
  intros (Hmock & Hstate & Hnone & Hready & Hnever).
  destruct (emergency_stop_outcome d) as (_ & S1 & M1 & _ & B1).
  unfold Daemon.settled. rewrite S1, M1.
  split; [exact Hmock|]. split; [exact Hstate|].
  destruct (Daemon._backend d) as [b|] eqn:B.
  - destruct B1 as (b' & B' & C' & V'). rewrite B'.
    split; [split; [intros K; apply Hnone in K; discriminate K | discriminate]|].
    split; [|exact Hnever].
    intros R. destruct (Hready R) as (b0 & E0 & C0 & V0). inversion E0; subst b0.
    exists b'. split; [reflexivity|]. split; congruence.
  - rewrite B1. split; [exact Hnone|]. split; [|exact Hnever].
    intros R. destruct (Hready R) as (b0 & E0 & _). discriminate E0.
Qed.

Lemma on_own_backend_keeps {A} (c : M (Backend D) A) (d : daemon) :
  (forall b, is_connected (fst (c b)) = is_connected b /\ is_mock (fst (c b)) = is_mock b) ->
  let d' := fst (Daemon.on_own_backend c d) in
  Daemon._state d' = Daemon._state d /\ Daemon._use_mock d' = Daemon._use_mock d /\
  Daemon.history d' = Daemon.history d /\
  match Daemon._backend d with
  | None => Daemon._backend d' = None
  | Some b => exists b', Daemon._backend d' = Some b' /\
                         is_connected b' = is_connected b /\ is_mock b' = is_mock b
  end.
Proof.
  intros Hc. cbv zeta. unfold Daemon.on_own_backend.
  destruct (Daemon._backend d) as [b|] eqn:B.
  - destruct (Hc b) as (C & V). destruct (c b) as [b' x]; cbn [fst] in *. cbn.
    repeat split; auto. exists b'. auto.
  - cbn. rewrite B. auto.
Qed.

Lemma settled_transfer (use_mock : bool) (d d' : daemon) :
  Daemon._state d' = Daemon._state d ->
  Daemon._use_mock d' = Daemon._use_mock d ->
  match Daemon._backend d with
  | None => Daemon._backend d' = None
  | Some b => exists b', Daemon._backend d' = Some b' /\
                         is_connected b' = is_connected b /\ is_mock b' = is_mock b
  end ->
  Daemon.settled use_mock d -> Daemon.settled use_mock d'.
Proof.
  intros S1 M1 B1 (Hmock & Hstate & Hnone & Hready & Hnever).
  unfold Daemon.settled. rewrite S1, M1.
  split; [exact Hmock|]. split; [exact Hstate|].
  destruct (Daemon._backend d) as [b|] eqn:B.
  - destruct B1 as (b' & B' & C' & V'). rewrite B'.
    split; [split; [intros K; apply Hnone in K; discriminate K | discriminate]|].
    split; [|exact Hnever].
    intros R. destruct (Hready R) as (b0 & E0 & C0 & V0). inversion E0; subst b0.
    exists b'. split; [reflexivity|]. split; congruence.
  - rewrite B1. split; [exact Hnone|]. split; [|exact Hnever].
    intros R. destruct (Hready R) as (b0 & E0 & _). discriminate E0.
Qed.

Lemma get_status_settled (use_mock : bool) (d : daemon) :
  Daemon.settled use_mock d -> Daemon.settled use_mock (fst (Daemon.get_status drv d)).
Proof.
  intros St. unfold Daemon.get_status.
  destruct (negb (Daemon.DaemonState_eqb (Daemon._state d) READY)); [exact St|].
  unfold bind.
  pose proof (@on_own_backend_keeps _ (b_get_stage_status drv LEFT) d
                (b_get_stage_status_keeps LEFT)) as K1. cbv zeta in K1.
  destruct K1 as (S1 & M1 & _ & B1).
  pose proof (@settled_transfer use_mock _ _ S1 M1 B1 St) as St1.
  destruct (Daemon.on_own_backend (b_get_stage_status drv LEFT) d) as [d1 [left|e]];
    cbn [fst] in *; [|exact St1].
  pose proof (@on_own_backend_keeps _ (b_get_stage_status drv RIGHT) d1
                (b_get_stage_status_keeps RIGHT)) as K2. cbv zeta in K2.
  destruct K2 as (S2 & M2 & _ & B2).
  pose proof (@settled_transfer use_mock _ _ S2 M2 B2 St1) as St2.
  destruct (Daemon.on_own_backend (b_get_stage_status drv RIGHT) d1) as [d2 [right|e]];
    cbn [fst] in *; [|exact St2].
  match goal with
  | |- Daemon.settled _ (fst (Daemon.on_own_backend ?c d2)) =>
      pose proof (@on_own_backend_keeps _ c d2 (fun b => conj eq_refl eq_refl)) as K3
  end.
  cbv zeta in K3. destruct K3 as (S3 & M3 & _ & B3).
  exact (@settled_transfer use_mock _ _ S3 M3 B3 St2).
Qed.

Lemma step_settled (use_mock : bool) (d : daemon) (e : Daemon.event D) :
  Daemon.settled use_mock d -> Daemon.settled use_mock (Daemon.step drv d e).
Proof.
  destruct e; cbn [Daemon.step];
    auto using start_settled, stop_settled, emergency_stop_settled, get_status_settled.
Qed.

Lemma init_settled (use_mock : bool) : Daemon.settled use_mock (Daemon.init D use_mock).
Proof.
  unfold Daemon.settled, Daemon.init. cbn.
  split; [reflexivity|]. split; [auto|]. split; [tauto|]. split; discriminate.
Qed.

(** X14.  Whatever sequence of [start], [stop], [emergency_stop] and
    [get_status] calls a daemon has gone through, with whatever controller
    behind it: it rests in [STOPPED], [READY] or [ERROR]; it holds an engine
    exactly when it is not [STOPPED]; in [READY] that engine is connected
    and is of the kind chosen at construction; and a daemon built over the
    simulated engine is never in [ERROR]. *)
Theorem daemon_lifecycle (use_mock : bool) (events : list (Daemon.event D)) :
  Daemon.settled use_mock (Daemon.run drv events (Daemon.init D use_mock)).
Proof.
  unfold Daemon.run. apply fold_left_preserves; [|apply init_settled].
  intros d e. apply step_settled.
Qed.

(** X15.  Neither [stop] nor [emergency_stop] ever raises, in any state and
    whatever the controller does.  [stop] always ends in [STOPPED]; from
    any other state it drops the engine and records [STOPPING] then
    [STOPPED]; a simulated daemon can then always be started again.
    [emergency_stop] leaves the state and its record untouched. *)
Theorem daemon_stop_never_fails (world : D) (d : daemon) :
  (snd (Daemon.stop drv d) = Ok tt /\
   Daemon._state (fst (Daemon.stop drv d)) = STOPPED /\
   (Daemon._state d <> STOPPED ->
    Daemon._backend (fst (Daemon.stop drv d)) = None /\
    Daemon.history (fst (Daemon.stop drv d)) = Daemon.history d ++ [STOPPING; STOPPED])) /\
  (Daemon._use_mock d = true ->
   snd (Daemon.start drv world (fst (Daemon.stop drv d))) = Ok tt /\
   Daemon._state (fst (Daemon.start drv world (fst (Daemon.stop drv d)))) = READY) /\
  (snd (Daemon.emergency_stop drv d) = Ok tt /\
   Daemon._state (fst (Daemon.emergency_stop drv d)) = Daemon._state d /\
   Daemon.history (fst (Daemon.emergency_stop drv d)) = Daemon.history d).
Proof.
  destruct (stop_outcome d) as (R & S1 & M1 & _ & Gone).
  split; [auto|]. split.
  - intros Mk. unfold Daemon.start. rewrite S1. cbn [Daemon.DaemonState_eqb negb].
    cbn [Daemon.set_state Daemon._use_mock]. rewrite M1, Mk. cbn. auto.
  - destruct (emergency_stop_outcome d) as (R2 & S2 & _ & H2 & _). auto.
Qed.

Lemma mock_stage_status (stage : StageId) (m : Mock.MockBackend) :
  Mock._connected m = true ->
  exists st,
    Mock.get_stage_status stage m = (m, Ok st) /\
    Mock.stage_id st = stage /\
    map Mock.st_axis (Mock.axes st) = Mock.stage_axes stage.
Proof.
  intros C. unfold Mock.get_stage_status. rewrite C. cbn [negb].
  destruct (@axes_status_connected (Mock.stage_axes stage) m C) as (sts & E & Ax & _).
  unfold bind. rewrite E. eexists. split; [reflexivity|]. cbn. auto.
Qed.

Lemma set_backend_same (d : daemon) (b : Backend D) :
  Daemon._backend d = Some b -> Daemon.set_backend (Some b) d = d.
Proof. destruct d. cbn. intros ->. reflexivity. Qed.

(** X16.  On a daemon built over the simulated engine, [get_status]
    returns exactly when the daemon is [READY] and raises [RuntimeError]
    otherwise; either way the daemon is left as it was.  The status
    returned reports [READY], the simulated engine and an established
    connection, and its two stages list the twelve axes in order. *)
Theorem daemon_get_status (d : daemon) :
  Daemon.settled true d ->
  (Daemon._state d = READY ->
   exists st,
     Daemon.get_status drv d = (d, Ok st) /\
     Daemon.daemon_state st = READY /\
     Daemon.station_is_mock st = true /\
     Daemon.connection_established st = true /\
     Mock.stage_id (Daemon.left_stage st) = LEFT /\
     Mock.stage_id (Daemon.right_stage st) = RIGHT /\
     map Mock.st_axis (Mock.axes (Daemon.left_stage st))
     ++ map Mock.st_axis (Mock.axes (Daemon.right_stage st)) = all_axes) /\
  (Daemon._state d <> READY -> Daemon.get_status drv d = (d, Raise RuntimeError)).
Proof.
  intros (Hmock & Hstate & Hnone & Hready & Hnever). split.
  - intros R. destruct (Hready R) as (b & B & C & V).
    destruct b as [m|r]; [|discriminate V]. cbn [is_connected] in C.
    destruct (@mock_stage_status LEFT m C) as (left & EL & IL & AL).
    destruct (@mock_stage_status RIGHT m C) as (right & ER & IR & AR).
    exists (Daemon.mkStation READY left right true true).
    assert (On : forall stage st,
               Mock.get_stage_status stage m = (m, Ok st) ->
               Daemon.on_own_backend (b_get_stage_status drv stage) d = (d, Ok st)).
    { intros stage st E. unfold Daemon.on_own_backend. rewrite B.
      cbn [b_get_stage_status]. unfold in_mock. rewrite E.
      rewrite (@set_backend_same d _ B). reflexivity. }
    unfold Daemon.get_status. rewrite R. cbn [Daemon.DaemonState_eqb negb].
    unfold bind. rewrite (On _ _ EL), (On _ _ ER).
    unfold Daemon.on_own_backend. rewrite B.
    cbn [is_mock is_connected]. rewrite C, (@set_backend_same d _ B).
    split; [reflexivity|]. cbn. rewrite AL, AR. auto 8.
  - intros N. unfold Daemon.get_status.
    destruct (Daemon.DaemonState_eqb (Daemon._state d) READY) eqn:E; [|reflexivity].
    apply DaemonState_eqb_eq in E. contradiction.
Qed.

End DaemonLife.

Lemma daemon_stop_never_fails_witness :
  let failed := fst (Daemon.start Rig.unreachable tt (Daemon.init unit false)) in
  let d := Daemon.mkDaemon true (Daemon._state failed) (Daemon._backend failed)
                           (Daemon.history failed) in
  Daemon._state d = ERROR /\
  snd (Daemon.stop Rig.unreachable d) = Ok tt /\
  Daemon._backend (fst (Daemon.stop Rig.unreachable d)) = None /\
  Daemon._state (fst (Daemon.start Rig.unreachable tt (fst (Daemon.stop Rig.unreachable d))))
  = READY.
Proof.
  cbv zeta.
  destruct (@daemon_stop_never_fails unit Rig.unreachable tt
              (Daemon.mkDaemon true
                 (Daemon._state (fst (Daemon.start Rig.unreachable tt (Daemon.init unit false))))
                 (Daemon._backend (fst (Daemon.start Rig.unreachable tt (Daemon.init unit false))))
                 (Daemon.history (fst (Daemon.start Rig.unreachable tt (Daemon.init unit false))))))
    as ((R & _ & Gone) & Again & _).
  split; [reflexivity|]. split; [exact R|].
  split; [apply Gone; discriminate | apply Again; reflexivity].
Defined.

Lemma daemon_get_status_witness :
  let d := fst (Daemon.start Rig.driver Rig.healthy (Daemon.init Rig.rig true)) in
  Daemon.settled true d /\
  Daemon._state d = READY /\
  exists st, Daemon.get_status Rig.driver d = (d, Ok st) /\
             Daemon.connection_established st = true.
Proof.
  cbv zeta.
  assert (St : Daemon.settled true
                 (fst (Daemon.start Rig.driver Rig.healthy (Daemon.init Rig.rig true))))
    by (apply start_settled, init_settled).
  split; [exact St|]. split; [reflexivity|].
  destruct (@daemon_get_status Rig.rig Rig.driver _ St) as [Ready _].
  destruct (Ready eq_refl) as (st & E & _ & _ & C & _).
  exists st. split; [exact E | exact C].
Defined.

(** ** The single-axis route over the simulated engine *)

Section MoveRoute.

Variable D : Type.
Variable drv : Driver D.
Variable budget : nat.

Local Abbreviation daemon := (Daemon.EW51Daemon D).

(** What [move_axis] answers on a connected engine, and what it keeps. *)
Lemma mock_move_axis_answer (m : Mock.MockBackend) (a : AxisId) (target : float)
      (relative : bool) (speed : option float) :
  Mock._connected m = true ->
  let mv := Mock.move_axis a target relative speed m in
  let goal := Mock.resolved_target m a target relative in
  Mock._connected (fst mv) = true /\
  Mock._positions (fst mv) = Mock._positions m /\
  (Mock._servo_enabled m a = false -> snd mv = Raise ServoError) /\
  (Mock._servo_enabled m a = true -> Mock.in_range goal = false ->
   snd mv = Raise MovementError) /\
  (Mock._servo_enabled m a = true -> Mock.in_range goal = true -> snd mv = Ok tt).
Proof.
  intros C. cbv zeta. split; [rewrite move_axis_keeps_connection; exact C|].
  unfold Mock.move_axis, Mock.in_range, Mock.resolved_target. rewrite C. cbn [negb].
  destruct (Mock._servo_enabled m a); cbn [negb];
    [|cbn; split; [reflexivity|]; split; [reflexivity|]; split; discriminate].
  set (m1 := if Mock.live_task m a then Mock.cancel_and_await a m else m).
  assert (K : Mock._positions m1 = Mock._positions m).
  { subst m1. destruct (Mock.live_task m a); [apply cancel_and_await_keeps | reflexivity]. }
  rewrite K.
  destruct (PyFloat.gtb _ _); cbn [fst snd negb].
  - split; [exact K|]. split; [discriminate|]. split; [reflexivity|]. discriminate.
  - unfold_setters. split; [exact K|]. split; [discriminate|]. split; [|reflexivity].
    discriminate.
Qed.

Lemma route_move (d : daemon) (m : Mock.MockBackend) (a : AxisId) (target : float)
      (relative : bool) (speed : option float) :
  Daemon._backend d = Some (MockB m) ->
  Movement.op_move_axis (Movement.daemon_ops drv budget) a target relative speed d
  = (Daemon.set_backend (Some (MockB (fst (Mock.move_axis a target relative speed m)))) d,
     snd (Mock.move_axis a target relative speed m)).
Proof.
  intros B. cbn [Movement.op_move_axis Movement.daemon_ops]. unfold Daemon.on_backend.
  rewrite B. cbn [b_move_axis]. unfold in_mock.
  destruct (Mock.move_axis a target relative speed m); reflexivity.
Qed.

Lemma route_wait (d : daemon) (m : Mock.MockBackend) (a : AxisId) :
  Daemon._backend d = Some (MockB m) ->
  Movement.op_wait_for_motion_complete (Movement.daemon_ops drv budget) a d
  = (Daemon.set_backend (Some (MockB (fst (Mock.wait_for_motion_complete a budget m)))) d,
     snd (Mock.wait_for_motion_complete a budget m)).
Proof.
  intros B. cbn [Movement.op_wait_for_motion_complete Movement.daemon_ops].
  unfold Daemon.on_backend. rewrite B. cbn [b_wait_for_motion_complete]. unfold in_mock.
  destruct (Mock.wait_for_motion_complete a budget m); reflexivity.
Qed.

Lemma route_read (d : daemon) (m : Mock.MockBackend) (a : AxisId) :
  Daemon._backend d = Some (MockB m) ->
  Mock._connected m = true ->
  Movement.op_get_axis_position (Movement.daemon_ops drv budget) a d
  = (Daemon.set_backend (Some (MockB m)) d, Ok (Mock._positions m a)).
Proof.
  intros B C. cbn [Movement.op_get_axis_position Movement.daemon_ops].
  unfold Daemon.on_backend. rewrite B. cbn [b_get_axis_position]. unfold in_mock.
  unfold Mock.get_axis_position. rewrite C. reflexivity.
Qed.

Lemma backend_set (d : daemon) (b : Backend D) :
  Daemon._backend (Daemon.set_backend (Some b) d) = Some b.
Proof. reflexivity. Qed.

(** A refused move: the handler reads the position back and replies. *)
Lemma route_refused (d : daemon) (m : Mock.MockBackend) (request : Movement.MovementRequest)
      (e : exn) :
  Daemon._backend d = Some (MockB m) ->
  Mock._connected m = true ->
  e = ServoError \/ e = MovementError ->
  snd (Mock.move_axis (Movement.axis request) (Movement.target request)
                      (Movement.relative request) (Movement.speed request) m) = Raise e ->
  snd (Movement.move_axis (Movement.daemon_ops drv budget) request d)
  = Movement.Returned
      (Movement.mkResponse (Movement.axis request) MS_ERROR
                           (Mock._positions m (Movement.axis request))
                           (Movement.target request) (Some e)).
Proof.
  intros B C Kind Refused.
  destruct (@mock_move_axis_answer m (Movement.axis request) (Movement.target request)
              (Movement.relative request) (Movement.speed request) C)
    as (C1 & P1 & _).
  unfold Movement.move_axis, bind. rewrite (@route_move d m _ _ _ _ B), Refused.
  destruct Kind as [-> | ->];
    rewrite (@route_read _ _ (Movement.axis request) (@backend_set d _) C1), P1;
    reflexivity.
Qed.

(** X17.  The single-axis route over a connected simulated engine.  With
    the servo off, or a resolved target that fails the travel test, it
    replies [ERROR] with the unchanged position and the exception.  An
    accepted move with [wait = False] is reported [COMPLETED] at once, with
    the position the axis started from.  With [wait = True] it is reported
    [COMPLETED] at the resolved target when the 30 s budget covers the
    [steps + 2] resumptions of the motion, [steps] being the count the task
    computes in binary64, and ends in [HTTPException(500)] otherwise, as it
    does when the count cannot be computed; for a relative move the
    reported target is the position reached, not the request's offset. *)
Theorem move_axis_route (d : daemon) (m : Mock.MockBackend)
        (request : Movement.MovementRequest) :
  Daemon._backend d = Some (MockB m) ->
  Mock._connected m = true ->
  let a := Movement.axis request in
  let start := Mock._positions m a in
  let goal := if Movement.relative request
              then PyFloat.add start (Movement.target request)
              else Movement.target request in
  let v := match Movement.speed request with
           | Some v => v
           | None => Mock._default_speed m
           end in
  let accepted := negb (PyFloat.gtb (PyFloat.abs goal) 500000) in
  let reply := snd (Movement.move_axis (Movement.daemon_ops drv budget) request d) in
  (Mock._servo_enabled m a = false ->
   reply = Movement.Returned
             (Movement.mkResponse a MS_ERROR start (Movement.target request)
                                  (Some ServoError))) /\
  (Mock._servo_enabled m a = true -> accepted = false ->
   reply = Movement.Returned
             (Movement.mkResponse a MS_ERROR start (Movement.target request)
                                  (Some MovementError))) /\
  (Mock._servo_enabled m a = true -> accepted = true ->
   Movement.wait request = false ->
   reply = Movement.Returned
             (Movement.mkResponse a MS_COMPLETED start
                (if Movement.relative request then start else Movement.target request)
                None)) /\
  (Mock._servo_enabled m a = true -> accepted = true ->
   Movement.wait request = true ->
   forall steps, Mock.motion_steps start goal v = Ok steps ->
     ((steps + 2 <= Z.of_nat budget)%Z ->
      reply = Movement.Returned
                (Movement.mkResponse a MS_COMPLETED goal
                   (if Movement.relative request then goal else Movement.target request)
                   None)) /\
     ((Z.of_nat budget < steps + 2)%Z -> reply = Movement.HTTPException 500)) /\
  (Mock._servo_enabled m a = true -> accepted = true ->
   Movement.wait request = true ->
   forall e, Mock.motion_steps start goal v = Raise e ->
     reply = Movement.HTTPException 500).
Proof.
  intros B C. cbv zeta.
  destruct (@mock_move_axis_answer m (Movement.axis request) (Movement.target request)
              (Movement.relative request) (Movement.speed request) C)
    as (C1 & P1 & Off & Far & Near).
  cbv zeta in *. unfold Mock.in_range, Mock.resolved_target in Far, Near.
  split; [intros Sv; apply (@route_refused d m request _ B C (or_introl eq_refl)), Off, Sv|].
  split; [intros Sv Out;
          apply (@route_refused d m request _ B C (or_intror eq_refl)), Far; assumption|].
  split; [|split].
  - intros Sv In NoWait. specialize (Near Sv In).
    unfold Movement.move_axis, bind. rewrite (@route_move d m _ _ _ _ B), Near, NoWait.
    cbn [ret].
    rewrite (@route_read _ _ (Movement.axis request) (@backend_set d _) C1), P1.
    reflexivity.
  - intros Sv In Wait steps St. specialize (Near Sv In).
    destruct (@accepted_move_is_live m _ _ _ _ Near) as (_ & Lv).
    destruct (@wait_for_after_move m _ _ _ _ steps budget Near St) as (R & P).
    pose proof (wait_for_keeps_connection budget (Movement.axis request)
                  (fst (Mock.move_axis (Movement.axis request) (Movement.target request)
                          (Movement.relative request) (Movement.speed request) m))) as C2.
    rewrite C1 in C2.
    unfold Mock.resolved_target in P.
    split.
    + intros Enough. apply Z.leb_le in Enough. rewrite Enough in R. specialize (P R).
      unfold Movement.move_axis, bind. rewrite (@route_move d m _ _ _ _ B), Near, Wait.
      rewrite (@route_wait _ _ (Movement.axis request) (@backend_set d _)).
      unfold Mock.wait_for_motion_complete. rewrite C1, Lv. cbn [negb].
      destruct (Mock.wait_for budget (Movement.axis request) _) as [m2 ok];
        cbn [fst snd] in *. subst ok. cbn [fst snd].
      rewrite (@route_read _ _ (Movement.axis request) (@backend_set _ _) C2), P.
      reflexivity.
    + intros Short. apply Z.leb_gt in Short. rewrite Short in R.
      unfold Movement.move_axis, bind. rewrite (@route_move d m _ _ _ _ B), Near, Wait.
      rewrite (@route_wait _ _ (Movement.axis request) (@backend_set d _)).
      unfold Mock.wait_for_motion_complete. rewrite C1, Lv. cbn [negb].
      destruct (Mock.wait_for budget (Movement.axis request) _) as [m2 ok];
        cbn [fst snd] in *. subst ok. reflexivity.
  - intros Sv In Wait e St. specialize (Near Sv In).
    destruct (@accepted_move_is_live m _ _ _ _ Near) as (_ & Lv).
    unfold Movement.move_axis, bind. rewrite (@route_move d m _ _ _ _ B), Near, Wait.
    rewrite (@route_wait _ _ (Movement.axis request) (@backend_set d _)).
    unfold Mock.wait_for_motion_complete. rewrite C1, Lv. cbn [negb].
    destruct budget as [|n].
    + cbn [Mock.wait_for]. rewrite Lv. reflexivity.
    + rewrite (@wait_for_after_failing_move m _ _ _ _ e n Near St). cbn [fst snd].
      destruct (motion_steps_raises _ _ _ St) as [-> | ->]; reflexivity.
Qed.

Lemma validate_nan : Movement.validate_target S754_nan = Some S754_nan.
Proof. reflexivity. Qed.

(** X18.  [validate_target] lets through the targets of which
    [abs(v) > 1_000_000] is false, a bound twice the travel the simulated
    engine accepts, and a NaN among them: an absolute request that passed
    validation with a target beyond 500000 um is answered by the route with
    an [ERROR] reply carrying [MovementError], the axis not having moved,
    and an absolute request for a NaN passes validation and is accepted by
    the engine. *)
Theorem validated_target_beyond_travel (d : daemon) (m : Mock.MockBackend)
        (request : Movement.MovementRequest) :
  Daemon._backend d = Some (MockB m) ->
  Mock._connected m = true ->
  Mock._servo_enabled m (Movement.axis request) = true ->
  Movement.relative request = false ->
  (Movement.validate_target (Movement.target request) = Some (Movement.target request)
   <-> PyFloat.gtb (PyFloat.abs (Movement.target request)) 1000000 = false) /\
  (PyFloat.gtb (PyFloat.abs (Movement.target request)) 500000 = true ->
   snd (Movement.move_axis (Movement.daemon_ops drv budget) request d)
   = Movement.Returned
       (Movement.mkResponse (Movement.axis request) MS_ERROR
                            (Mock._positions m (Movement.axis request))
                            (Movement.target request) (Some MovementError))) /\
  (Movement.validate_target S754_nan = Some S754_nan /\
   snd (Mock.move_axis (Movement.axis request) S754_nan false (Movement.speed request) m)
   = Ok tt).
Proof.
  intros B C Sv Abs. split; [|split].
  - unfold Movement.validate_target.
    destruct (PyFloat.gtb _ _); split; congruence.
  - intros Far.
    destruct (@mock_move_axis_answer m (Movement.axis request) (Movement.target request)
                (Movement.relative request) (Movement.speed request) C)
      as (_ & _ & _ & Refuse & _).
    cbv zeta in Refuse.
    apply (@route_refused d m request _ B C (or_intror eq_refl)), Refuse; [exact Sv|].
    rewrite Abs. unfold Mock.in_range, Mock.resolved_target. rewrite Far. reflexivity.
  - split; [exact validate_nan|].
    unfold Mock.move_axis. rewrite C, Sv. reflexivity.
Qed.

End MoveRoute.

Lemma move_axis_route_witness :
  let m := Mock.run [Mock.Connect; Mock.EnableServo X1] Mock.init in
  let d := Daemon.mkDaemon true READY (Some (MockB (D := Rig.rig) m)) [STARTING; READY] in
  let moved := Movement.move_axis (Movement.daemon_ops Rig.driver 12) in
  snd (moved (Movement.mkRequest Y1 100 false None true) d)
  = Movement.Returned (Movement.mkResponse Y1 MS_ERROR 0 100 (Some ServoError)) /\
  snd (moved (Movement.mkRequest X1 1000 false None false) d)
  = Movement.Returned (Movement.mkResponse X1 MS_COMPLETED 0 1000 None) /\
  snd (moved (Movement.mkRequest X1 1000 true None true) d)
  = Movement.Returned (Movement.mkResponse X1 MS_COMPLETED 1000 1000 None) /\
  snd (Movement.move_axis (Movement.daemon_ops Rig.driver 11)
         (Movement.mkRequest X1 1000 false None true) d)
  = Movement.HTTPException 500 /\
  snd (moved (Movement.mkRequest X1 1000 false (Some 1e-320) true) d)
  = Movement.HTTPException 500.
Proof.
  cbv zeta.
  set (m := Mock.run [Mock.Connect; Mock.EnableServo X1] Mock.init).
  set (d := Daemon.mkDaemon true READY (Some (MockB (D := Rig.rig) m)) [STARTING; READY]).
  split.
  { destruct (@move_axis_route Rig.rig Rig.driver 12 d m
                (Movement.mkRequest Y1 100 false None true) eq_refl eq_refl) as (Off & _).
    apply Off. reflexivity. }
  split.
  { destruct (@move_axis_route Rig.rig Rig.driver 12 d m
                (Movement.mkRequest X1 1000 false None false) eq_refl eq_refl)
      as (_ & _ & NoWait & _).
    apply NoWait; reflexivity. }
  split.
  { destruct (@move_axis_route Rig.rig Rig.driver 12 d m
                (Movement.mkRequest X1 1000 true None true) eq_refl eq_refl)
      as (_ & _ & _ & Waited & _).
    destruct (Waited eq_refl eq_refl eq_refl 10%Z) as [Enough _];
      [vm_compute; reflexivity|].
    apply Enough. vm_compute. discriminate. }
  split.
  { destruct (@move_axis_route Rig.rig Rig.driver 11 d m
                (Movement.mkRequest X1 1000 false None true) eq_refl eq_refl)
      as (_ & _ & _ & Waited & _).
    destruct (Waited eq_refl eq_refl eq_refl 10%Z) as [_ Late];
      [vm_compute; reflexivity|].
    apply Late. vm_compute. reflexivity. }
  destruct (@move_axis_route Rig.rig Rig.driver 12 d m
              (Movement.mkRequest X1 1000 false (Some 1e-320) true) eq_refl eq_refl)
    as (_ & _ & _ & _ & Dies).
  apply (Dies eq_refl eq_refl eq_refl OverflowError). vm_compute. reflexivity.
Defined.

Lemma validated_target_beyond_travel_witness :
  let m := Mock.run [Mock.Connect; Mock.EnableServo X1] Mock.init in
  let d := Daemon.mkDaemon true READY (Some (MockB (D := Rig.rig) m)) [STARTING; READY] in
  Movement.validate_target 750000 = Some 750000 /\
  snd (Movement.move_axis (Movement.daemon_ops Rig.driver 12)
         (Movement.mkRequest X1 750000 false None true) d)
  = Movement.Returned (Movement.mkResponse X1 MS_ERROR 0 750000 (Some MovementError)).
Proof.
  cbv zeta.
  destruct (@validated_target_beyond_travel Rig.rig Rig.driver 12
              (Daemon.mkDaemon true READY
                 (Some (MockB (Mock.run [Mock.Connect; Mock.EnableServo X1] Mock.init)))
                 [STARTING; READY])
              (Mock.run [Mock.Connect; Mock.EnableServo X1] Mock.init)
              (Movement.mkRequest X1 750000 false None true)
              eq_refl eq_refl eq_refl eq_refl) as (Valid & Refused & _).
  split; [apply Valid; vm_compute; reflexivity | apply Refused; vm_compute; reflexivity].
Defined.

(** ** The homing route over the simulated engine *)

Section HomeRoute.

Import Mock.

(** [inner] stands for the timeout of the wait inside [home_axis], [outer]
    for the 60 s of the route's own wait. *)
Variable inner outer : nat.

Local Abbreviation home := (fun a => home_axis a inner).
Local Abbreviation await := (fun a => wait_for_motion_complete a outer).









End HomeRoute.


(** ** The alignment wait under an advancing clock *)

Section AlignmentClock.

Import Alignment.

Variable W : Type.
Variable env : Env W.

Local Open Scope string_scope.
Local Open Scope Q_scope.

Lemma of_string_value (st : AlignmentStatus) : of_string (value st) = Some st.
Proof. destruct st; reflexivity. Qed.

Lemma of_string_inv (s : string) (st : AlignmentStatus) :
  of_string s = Some st -> s = value st.
Proof.
  unfold of_string.
  repeat match goal with
         | |- context [String.eqb s ?x] =>
             destruct (String.eqb_spec s x) as [->|?];
             [intros E; inversion E; reflexivity|]
         end.
  discriminate.
Qed.

(** X21.  [get_status] raises exactly when the vendor's [GetStatus]
    raises, and then lets the vendor's exception through.  When the vendor
    returns a string, [get_status] returns, having touched nothing else: it
    reports a status other than [ERROR] only when the string is the value
    of that status, and [ERROR] for "Error" and for every string that is
    the value of no status. *)
Theorem alignment_status_decoding (w : W) :
  (snd (AlignGetStatus env w) = None <->
   get_status env w = (fst (AlignGetStatus env w), Raise ForeignException)) /\
  (forall e, snd (get_status env w) = Raise e ->
     e = ForeignException /\ snd (AlignGetStatus env w) = None) /\
  (forall s, snd (AlignGetStatus env w) = Some s ->
     exists st,
       get_status env w = (fst (AlignGetStatus env w), Ok st) /\
       (st <> A_ERROR -> s = value st) /\
       (forall known, s = value known -> st = known) /\
       ((forall known, s <> value known) -> st = A_ERROR)).
Proof.
  unfold get_status. destruct (AlignGetStatus env w) as [w' [s|]]; cbn [fst snd].
  - split; [split; [discriminate|]|split].
    + destruct (of_string s); discriminate.
    + intros e. destruct (of_string s); discriminate.
    + intros s' E. inversion E; subst s'.
      destruct (of_string s) as [st|] eqn:D.
      * exists st. split; [reflexivity|]. split; [intros _; apply of_string_inv, D|].
        split.
        -- intros known ->. rewrite of_string_value in D. congruence.
        -- intros Unknown. exfalso. apply (Unknown st), of_string_inv, D.
      * exists A_ERROR. split; [reflexivity|]. split; [intros N; contradiction|].
        split; [|reflexivity].
        intros known ->. rewrite of_string_value in D. discriminate D.
  - split; [split; reflexivity|split].
    + intros e E. inversion E. auto.
    + discriminate.
Qed.

(** The clock read by the loop. *)
Local Abbreviation now := (fun w => snd (loop_time env w)).

Hypothesis status_keeps_time : forall w, now w <= now (fst (AlignGetStatus env w)).
Hypothesis reading_keeps_time : forall w, now w <= now (fst (loop_time env w)).
Hypothesis sleep_advances : forall dt w, now w + dt <= now (sleep env dt w).




End AlignmentClock.

Lemma alignment_status_decoding_witness :
  Alignment.get_status Rig.alignment (Rig.mkBench [None] 0 None)
  = (Rig.mkBench [] 0 None, Raise ForeignException).
Proof.
  apply (proj1 (@alignment_status_decoding Rig.bench Rig.alignment
                  (Rig.mkBench [None] 0 None))).
  reflexivity.
Defined.

